(** * AI Query Generator: a shallow embedding of the request pipeline

  The development follows the Python sources file by file:

  - [Py]               the built-in string and slice operations the sources
                       rely on ([str.strip], [str.lower], [str.upper], [in],
                       [str.join], [list[:n]]);
  - [Exceptions]       [core/exceptions.py], the driver's exception classes
                       and the outcome of a call (a value or a raised
                       exception);
  - [Config]           the settings of [utils/config.py] that the pipeline
                       reads;
  - [Models]           [core/models.py];
  - [Remote]           the chat-completion client of the two remote services;
  - [TriageService]    [core/triage_service.py];
  - [AIService]        [core/ai_service.py];
  - [DatabaseManager]  [core/database_manager.py], connection and execution;
  - [SchemaGate]       [DatabaseManager.get_schema] and [wait_for_schema] as
                       tasks of one event loop, resumed in any order;
  - [Interfaces]       [core/interfaces.py];
  - [QueryProcessor]   [core/query_processor.py];
  - [Container]        [core/container.py], the services wired together;
  - [Catalog]          the lookups of [core/models.py];
  - [DatabaseClose]    [DatabaseManager._close_sync];
  - [SchemaFile]       [DatabaseManager._load_schema_from_disk] and
                       [_build_catalog_from_dict];
  - [Cache]            [utils/cache.py];
  - [InteractiveSession]  [core/interactive_session.py].

  [Rendering] and [Fences] word two layouts the way the specification does,
  [Samples] and [MoreSamples] hold the inputs of the examples, and the
  properties follow.

  An [except] clause matches the instances of its class and of the
  subclasses of it; [except Exception] lets pass what derives from
  [BaseException] only.

  Python text is modelled by [string]; a character stands for a code point
  below 256.  A coroutine is modelled by its outcome; only the schema gate,
  whose behaviour depends on the interleaving, is modelled as a transition
  system. *)

From Stdlib Require Import Bool Arith ZArith NArith List Lia.
From Stdlib Require Import Ascii String DecimalString.
Import ListNotations.

Local Open Scope list_scope.
Local Open Scope string_scope.

(* ================================================================== *)
(** ** Python built-ins used by the sources *)
(* ================================================================== *)

Module Py.

(** [str.isspace] on one character: U+0009..U+000D, U+001C..U+0020,
    U+0085 and U+00A0 are the whitespace code points below 256. *)
Definition is_space (c : ascii) : bool :=
  let n := N_of_ascii c in
  ((9 <=? n) && (n <=? 13) || (28 <=? n) && (n <=? 32)
   || (n =? 133) || (n =? 160))%N.

Definition all_space (s : string) : bool :=
  forallb is_space (list_ascii_of_string s).

(** [str.lstrip()] *)
Fixpoint lstrip (s : string) : string :=
  match s with
  | EmptyString => EmptyString
  | String c r => if is_space c then lstrip r else s
  end.

(** [str.rstrip()] *)
Fixpoint rstrip (s : string) : string :=
  match s with
  | EmptyString => EmptyString
  | String c r =>
      match rstrip r with
      | EmptyString => if is_space c then EmptyString else String c EmptyString
      | r' => String c r'
      end
  end.

(** [str.strip()] *)
Definition strip (s : string) : string := rstrip (lstrip s).

(** One character of [str.lower()]: A-Z and the upper-case letters of
    U+00C0..U+00DE (U+00D7 is the multiplication sign). *)
Definition lower_char (c : ascii) : ascii :=
  let n := N_of_ascii c in
  if ((65 <=? n) && (n <=? 90)
      || (192 <=? n) && (n <=? 222) && negb (n =? 215))%N
  then ascii_of_N (n + 32) else c.

Fixpoint lower (s : string) : string :=
  match s with
  | EmptyString => EmptyString
  | String c r => String (lower_char c) (lower r)
  end.

(** One character of [str.upper()]: a-z and the lower-case letters of
    U+00E0..U+00FE (U+00F7 is the division sign); U+00DF upper-cases to the
    two letters SS.  The upper-case forms of U+00B5 and U+00FF lie above 255;
    these two characters are left as they are. *)
Definition upper_char (c : ascii) : string :=
  let n := N_of_ascii c in
  if ((97 <=? n) && (n <=? 122)
      || (224 <=? n) && (n <=? 254) && negb (n =? 247))%N
  then String (ascii_of_N (n - 32)) EmptyString
  else if (n =? 223)%N then "SS"
  else String c EmptyString.

Fixpoint upper (s : string) : string :=
  match s with
  | EmptyString => EmptyString
  | String c r => upper_char c ++ upper r
  end.

(** [sub in s] on strings: [sub] occurs somewhere in [s]. *)
Fixpoint contains (sub s : string) : bool :=
  prefix sub s
  || match s with
     | EmptyString => false
     | String _ r => contains sub r
     end.

(** [s.endswith(suffix)] for a one-character suffix. *)
Fixpoint endswith_char (s : string) (c : ascii) : bool :=
  match s with
  | EmptyString => false
  | String a EmptyString => Ascii.eqb a c
  | String _ r => endswith_char r c
  end.

(** [s[:-1]] *)
Fixpoint drop_last (s : string) : string :=
  match s with
  | EmptyString => EmptyString
  | String _ EmptyString => EmptyString
  | String a r => String a (drop_last r)
  end.

(** [sep.join(lines)] *)
Definition join (sep : string) (lines : list string) : string :=
  String.concat sep lines.

(** [str(n)] for an [int]. *)
Definition str_int (n : Z) : string :=
  NilZero.string_of_int (Z.to_int n).

(** [xs[:n]]: a negative bound counts from the end of the list. *)
Definition slice_to {A : Type} (xs : list A) (n : Z) : list A :=
  if (0 <=? n)%Z then firstn (Z.to_nat n) xs
  else firstn (Z.to_nat (Z.of_nat (List.length xs) + n)) xs.

(** [x or default] for an optional string: [None] and [""] are falsy. *)
Definition truthy (o : option string) : bool :=
  match o with
  | Some s => negb (s =? "")
  | None => false
  end.

Definition or_else (o : option string) (d : string) : string :=
  match o with
  | Some s => if s =? "" then d else s
  | None => d
  end.

Definition newline : string := String (ascii_of_N 10) EmptyString.

End Py.

(* ================================================================== *)
(** ** core/exceptions.py *)
(* ================================================================== *)

Module Exceptions.

(** The exception classes that occur in the sources.  [OtherException]
    stands for the class that a name denotes in the libraries; [Subclass]
    stands for a class declared with the given name and base. *)
Inductive exn_class : Type :=
| ConfigurationError
| SchemaLoadError
| QueryGenerationError
| ClassificationError
| DatabaseConnectionError
| QueryExecutionError
| CacheError
| PrestoQueryError
| PrestoUserError
| AttributeError
| IndexError
| OtherException (name : string)
| Subclass (name : string) (base : exn_class).

(** The class that a name denotes: the classes above under their own names,
    [dataclasses.FrozenInstanceError] as the subclass of [AttributeError]
    that it is, and any other name a class of its own, which derives from
    [Exception] directly unless it is one of [BASE_ONLY]. *)
Definition named (name : string) : exn_class :=
  if name =? "ConfigurationError" then ConfigurationError
  else if name =? "SchemaLoadError" then SchemaLoadError
  else if name =? "QueryGenerationError" then QueryGenerationError
  else if name =? "ClassificationError" then ClassificationError
  else if name =? "DatabaseConnectionError" then DatabaseConnectionError
  else if name =? "QueryExecutionError" then QueryExecutionError
  else if name =? "CacheError" then CacheError
  else if name =? "PrestoQueryError" then PrestoQueryError
  else if name =? "PrestoUserError" then PrestoUserError
  else if name =? "AttributeError" then AttributeError
  else if name =? "IndexError" then IndexError
  else if name =? "FrozenInstanceError"
  then Subclass "FrozenInstanceError" AttributeError
  else OtherException name.

(** One term for each class. *)
Fixpoint canonical (c : exn_class) : exn_class :=
  match c with
  | OtherException name => named name
  | Subclass name base => Subclass name (canonical base)
  | _ => c
  end.

Fixpoint exn_class_eqb (a b : exn_class) : bool :=
  match a, b with
  | ConfigurationError, ConfigurationError
  | SchemaLoadError, SchemaLoadError
  | QueryGenerationError, QueryGenerationError
  | ClassificationError, ClassificationError
  | DatabaseConnectionError, DatabaseConnectionError
  | QueryExecutionError, QueryExecutionError
  | CacheError, CacheError
  | PrestoQueryError, PrestoQueryError
  | PrestoUserError, PrestoUserError
  | AttributeError, AttributeError
  | IndexError, IndexError => true
  | OtherException n, OtherException m => n =? m
  | Subclass n base, Subclass m base' => (n =? m) && exn_class_eqb base base'
  | _, _ => false
  end.

(** A class derives from itself and from what its base derives from.  The
    domain errors are siblings under [AIQueryGeneratorError]; in
    [prestodb.exceptions] the user error derives from the query error. *)
Fixpoint derives (a b : exn_class) : bool :=
  exn_class_eqb a b
  || match a with
     | PrestoUserError => exn_class_eqb PrestoQueryError b
     | Subclass _ base => derives base b
     | _ => false
     end.

(** [issubclass(a, b)] *)
Definition issubclass (a b : exn_class) : bool :=
  derives (canonical a) (canonical b).

(** The classes that derive from [BaseException] and not from
    [Exception]. *)
Definition BASE_ONLY : list string :=
  ["BaseException"; "KeyboardInterrupt"; "SystemExit"; "GeneratorExit";
   "CancelledError"; "BaseExceptionGroup"].

Fixpoint derives_Exception (cls : exn_class) : bool :=
  match cls with
  | OtherException name => negb (existsb (String.eqb name) BASE_ONLY)
  | Subclass _ base => derives_Exception base
  | _ => true
  end.

(** [issubclass(cls, Exception)] *)
Definition is_Exception_class (cls : exn_class) : bool :=
  derives_Exception (canonical cls).

(** A raised exception: its class and [str(exc)]. *)
Record exn : Type := mk_exn { exn_cls : exn_class; exn_msg : string }.

(** [isinstance(e, cls)] as used by an [except cls] clause. *)
Definition isinstance (e : exn) (cls : exn_class) : bool :=
  issubclass (exn_cls e) cls.

(** [isinstance(e, Exception)] as used by an [except Exception] clause. *)
Definition is_Exception (e : exn) : bool := is_Exception_class (exn_cls e).

(** The outcome of a call: a value, or a raised exception. *)
Inductive outcome (A : Type) : Type :=
| Return (a : A)
| Raise (e : exn).
Arguments Return {A} a.
Arguments Raise {A} e.

Definition bind {A B : Type} (m : outcome A) (k : A -> outcome B) : outcome B :=
  match m with
  | Return a => k a
  | Raise e => Raise e
  end.

Definition raises {A : Type} (m : outcome A) : Prop :=
  exists e, m = Raise e.

Definition returns {A : Type} (m : outcome A) : Prop :=
  exists a, m = Return a.

End Exceptions.

Export Exceptions.

Notation "x <- m ;; k" := (bind m (fun x => k))
(at level 61, m at next level, right associativity).

(* ================================================================== *)
(** ** utils/config.py: the settings the pipeline reads *)
(* ================================================================== *)

Module Config.

Record AppConfig : Type := mkAppConfig {
  presto_host : string;
  presto_port : Z;
  presto_user : string;
  presto_catalog : string;
  presto_schema : string;
  deployment_query : string;
  deployment_classification : string;
  deployment_response : string;
  max_tokens_sql : Z;
  max_tokens_response : Z;
  max_results_display : Z;
  schema_json_path : string;
  execute_queries : bool
}.

(** The field defaults of [AppConfig], for a given host. *)
Definition default_config (host : string) : AppConfig :=
  {| presto_host := host;
     presto_port := 8090;
     presto_user := "hadoop";
     presto_catalog := "hive";
     presto_schema := "test";
     deployment_query := "gpt-4.1";
     deployment_classification := "gpt-4.1";
     deployment_response := "gpt-4.1";
     max_tokens_sql := 800;
     max_tokens_response := 500;
     max_results_display := 5;
     schema_json_path := "data/mapping.json";
     execute_queries := true |}.

End Config.

Export Config.

(* ================================================================== *)
(** ** core/models.py *)
(* ================================================================== *)

Module Models.

Record SchemaColumn : Type := mkSchemaColumn {
  col_name : string;
  col_type : string;
  field_name : option string;
  description : option string;
  formula : option string
}.

(** [SchemaColumn.label]: [self.field_name or self.name] *)
Definition label (c : SchemaColumn) : string :=
  Py.or_else (field_name c) (col_name c).

(** [SchemaColumn.is_calculated]: [bool(self.formula)] *)
Definition is_calculated (c : SchemaColumn) : bool :=
  Py.truthy (formula c).

Record SchemaTable : Type := mkSchemaTable {
  table_name : string;
  columns : list SchemaColumn
}.

(** [SchemaCatalog.tables] is a [dict]; iteration follows insertion order,
    so it is kept as an association list with distinct keys. *)
Record SchemaCatalog : Type := mkSchemaCatalog {
  tables : list (string * SchemaTable)
}.

(** [d[k] = v] on an insertion-ordered dict. *)
Fixpoint dict_set {V : Type} (d : list (string * V)) (k : string) (v : V)
  : list (string * V) :=
  match d with
  | [] => [(k, v)]
  | (k', v') :: r =>
      if k' =? k then (k, v) :: r else (k', v') :: dict_set r k v
  end.

(** [SchemaCatalog.add_table] *)
Definition add_table (catalog : SchemaCatalog) (table : SchemaTable)
  : SchemaCatalog :=
  {| tables := dict_set (tables catalog) (table_name table) table |}.

(** A [QueryRequest]; the UUID is a number. *)
Record QueryRequest : Type := mkQueryRequest {
  id : N;
  user_query : string;
  previous_error : option string;
  metadata : list (string * string)
}.

(** [QueryRequest(id=..., user_query=..., ...)]: the [_strip_query]
    validator trims the text and rejects an empty one. *)
Definition QueryRequest_init (id : N) (user_query : string)
    (previous_error : option string) (metadata : list (string * string))
  : option QueryRequest :=
  let stripped := Py.strip user_query in
  if stripped =? "" then None
  else Some {| id := id; user_query := stripped;
               previous_error := previous_error; metadata := metadata |}.

(** A request that the constructor can produce. *)
Definition well_formed (request : QueryRequest) : Prop :=
  Py.strip (user_query request) = user_query request
  /\ user_query request <> "".

(** A cell of a result row. *)
Inductive value : Type :=
| VNone
| VBool (b : bool)
| VInt (n : Z)
| VStr (s : string).

(** A result row, [Dict[str, Any]] in insertion order. *)
Definition Row : Type := list (string * value).

Record QueryResult : Type := mkQueryResult {
  query_id : N;
  sql : string;
  rows : list Row;
  result_columns : list string;
  row_count : Z;
  execution_ms : option Z;
  cached : bool
}.

(** The validator [_default_row_count], run on the supplied value or, when
    none is supplied, on the field default 0. *)
Definition _default_row_count (value : Z) (rows : list Row) : Z :=
  if (value =? 0)%Z then Z.of_nat (List.length rows) else value.

(** [QueryResult(...)]: an argument that the caller leaves out is [None]
    here and takes the field default. *)
Definition QueryResult_init (query_id : N) (sql : string)
    (rows : option (list Row)) (columns : option (list string))
    (row_count : option Z) (execution_ms : option Z) (cached : option bool)
  : QueryResult :=
  let rows' := match rows with Some r => r | None => [] end in
  let supplied := match row_count with Some n => n | None => 0%Z end in
  {| query_id := query_id;
     sql := sql;
     rows := rows';
     result_columns := match columns with Some c => c | None => [] end;
     row_count := _default_row_count supplied rows';
     execution_ms := execution_ms;
     cached := match cached with Some b => b | None => false end |}.

End Models.

Export Models.

(* ================================================================== *)
(** ** The chat-completion client shared by the two remote services *)
(* ================================================================== *)

Module Remote.

(** The arguments of [client.chat.completions.create] that the services
    set; the sampling temperature, a float, is not represented. *)
Record ChatRequest : Type := mkChatRequest {
  model : string;
  system_content : string;
  user_content : string;
  max_tokens : Z
}.

(** [response.choices]: the [message.content] of every choice. *)
Definition ChatResponse : Type := list (option string).

(** The remote service: what a [create] call answers or raises. *)
Definition Client : Type := ChatRequest -> outcome ChatResponse.

(** [response.choices[0].message.content] *)
Definition first_content (response : ChatResponse) : outcome (option string) :=
  match response with
  | content :: _ => Return content
  | [] => Raise (mk_exn IndexError "list index out of range")
  end.

End Remote.

Export Remote.

(* ================================================================== *)
(** ** core/triage_service.py *)
(* ================================================================== *)

Module TriageService.

Definition GREETING_KEYWORDS : list string :=
  [ "hi"; "hello"; "hey"; "good morning"; "good afternoon"; "good evening";
    "greetings"; "yo"; "hola"; "namaste" ].

Definition LABELS : list string :=
  [ "DATA_QUESTION"; "GENERAL_QUESTION"; "GREETING"; "OUT_OF_SCOPE" ].

(** [label in {...}] *)
Definition is_label (label : string) : bool :=
  existsb (String.eqb label) LABELS.

(** [any(keyword in lower_query for keyword in GREETING_KEYWORDS)] *)
Definition has_greeting_keyword (lower_query : string) : bool :=
  existsb (fun keyword => Py.contains keyword lower_query) GREETING_KEYWORDS.

Definition classification_prompt (request : QueryRequest) : string :=
  "Classify the user query into one of four categories:" ++ Py.newline
  ++ "1. DATA_QUESTION: Questions that require querying data, metrics, analytics, statistics."
  ++ Py.newline
  ++ "2. GENERAL_QUESTION: Questions about how the system works, definitions, explanations, or high-level concepts."
  ++ Py.newline
  ++ "3. GREETING: Salutations such as hi, hello, good morning." ++ Py.newline
  ++ "4. OUT_OF_SCOPE: Anything unrelated to the analytics system."
  ++ Py.newline ++ Py.newline
  ++ "User query: " ++ user_query request ++ Py.newline ++ Py.newline
  ++ "Respond with exactly one label: DATA_QUESTION, GENERAL_QUESTION, GREETING, or OUT_OF_SCOPE.".

Definition classification_request (config : AppConfig) (request : QueryRequest)
  : ChatRequest :=
  {| model := deployment_classification config;
     system_content := "You classify user queries. Reply with exactly one label.";
     user_content := classification_prompt request;
     max_tokens := 10 |}.

(** The normalisation of the reply: [(content or "").strip().upper()],
    replaced by [DATA_QUESTION] when it is not one of the labels. *)
Definition normalise_label (content : option string) : string :=
  let label := Py.upper (Py.strip (Py.or_else content "")) in
  if is_label label then label else "DATA_QUESTION".

(** [TriageService.classify_query].  The second component lists the
    requests sent to the remote service, in order. *)
Definition classify_query (config : AppConfig) (client : Client)
    (request : QueryRequest) : outcome string * list ChatRequest :=
  let lower_query := Py.lower (user_query request) in
  if has_greeting_keyword lower_query then (Return "GREETING", [])
  else
    let call := classification_request config request in
    match client call with
    | Raise exc =>
        if is_Exception exc
        then (Raise (mk_exn ClassificationError (exn_msg exc)), [call])
        else (Raise exc, [call])
    | Return response =>
        (content <- first_content response ;;
         Return (normalise_label content), [call])
    end.

End TriageService.

(* ================================================================== *)
(** ** core/ai_service.py *)
(* ================================================================== *)

Module AIService.

(** [_format_column] *)
Definition description_part (column : SchemaColumn) : string :=
  if Py.truthy (description column)
  then " - " ++ Py.or_else (description column) ""
  else "".

Definition _format_column (column : SchemaColumn) : string :=
  if is_calculated column && Py.truthy (formula column)
  then label column ++ " := " ++ Py.or_else (formula column) ""
       ++ description_part column
  else label column ++ " -> " ++ col_name column
       ++ " (" ++ col_type column ++ ")" ++ description_part column.

(** The inner loop of [_render_schema]: every entry is appended to
    [metrics] or to [base_columns]. *)
Definition sort_column (acc : list string * list string) (column : SchemaColumn)
  : list string * list string :=
  let '(base_columns, metrics) := acc in
  let entry := _format_column column in
  if is_calculated column
  then (base_columns, (metrics ++ [entry])%list)
  else ((base_columns ++ [entry])%list, metrics).

Definition bullet (entry : string) : string := "    - " ++ entry.

(** One round of the outer loop of [_render_schema]. *)
Definition render_table (lines : list string) (item : string * SchemaTable)
  : list string :=
  let '(table_name, table) := item in
  let '(base_columns, metrics) := fold_left sort_column (columns table) ([], []) in
  (lines ++ [("Table: " ++ table_name)%string]
         ++ match base_columns with
            | [] => []
            | _ => "  Base Columns:" :: map bullet base_columns
            end
         ++ match metrics with
            | [] => []
            | _ => "  Calculated Metrics:" :: map bullet metrics
            end
         ++ [""])%list.

(** The list [lines] of [_render_schema] when its loop ends. *)
Definition _render_schema_lines (schema : SchemaCatalog) : list string :=
  fold_left render_table (tables schema) [].

(** [_render_schema] *)
Definition _render_schema (schema : SchemaCatalog) : string :=
  Py.strip (Py.join Py.newline (_render_schema_lines schema)).

(** [re.sub(r"```(sql)?", "", s)]: scanning from the left, every fence marker
    is dropped together with a directly following [sql].  [skip] counts the
    characters of the current match that are still to be dropped. *)
Fixpoint sub_fence (skip : nat) (s : string) : string :=
  match s with
  | EmptyString => EmptyString
  | String c r =>
      match skip with
      | S k => sub_fence k r
      | O =>
          if prefix "```sql" s then sub_fence 5 r
          else if prefix "```" s then sub_fence 2 r
          else String c (sub_fence 0 r)
      end
  end.

(** [_clean_sql_query] *)
Definition _clean_sql_query (sql_query : string) : string :=
  let sql_query := sub_fence 0 sql_query in
  let sql_query := Py.strip sql_query in
  if Py.endswith_char sql_query ";" then Py.drop_last sql_query else sql_query.

(** [\w] on a code point below 256: letters, digits, the underscore and the
    alphanumeric characters of the upper half. *)
Definition is_word_char (c : ascii) : bool :=
  let n := N_of_ascii c in
  ((48 <=? n) && (n <=? 57) || (65 <=? n) && (n <=? 90) || (n =? 95)
   || (97 <=? n) && (n <=? 122)
   || (n =? 170) || (n =? 178) || (n =? 179) || (n =? 181) || (n =? 185)
   || (n =? 186) || (188 <=? n) && (n <=? 190)
   || (192 <=? n) && negb (n =? 215) && negb (n =? 247))%N.

(** The alternatives of [ids?|identifier|k only|return k]. *)
Definition IDS_ONLY_WORDS : list string :=
  [ "ids"; "id"; "identifier"; "k only"; "return k" ].

(** A word matches at the head of [s], ignoring case, and a word boundary
    follows it. *)
Definition word_at (word s : string) : bool :=
  prefix word (Py.lower s)
  && match String.get (String.length word) s with
     | Some c => negb (is_word_char c)
     | None => true
     end.

(** [re.search(r"\b(w1|w2|...)\b", s, re.IGNORECASE)] for lower-case words
    that begin and end with a word character; [after_word] tells whether the
    character before [s] is a word character. *)
Fixpoint search_words (words : list string) (after_word : bool) (s : string)
  : bool :=
  match s with
  | EmptyString => false
  | String c r =>
      negb after_word && existsb (fun word => word_at word s) words
      || search_words words (is_word_char c) r
  end.

(** [re.search(r"\b(ids?|identifier|k only|return k)\b", s, re.IGNORECASE)] *)
Definition search_ids_only (s : string) : bool :=
  search_words IDS_ONLY_WORDS false s.

(** [_build_sql_generation_prompt] *)
Definition _build_sql_generation_prompt (request : QueryRequest)
    (schema : SchemaCatalog) : string :=
  let serialized_schema := _render_schema schema in
  let guidance :=
    ([ "- Use ONLY fields provided in the schema below.";
      "- Match questions to fields using the friendly field name or description.";
      "- If a field has a formula, use the formula instead of the physical column.";
      "- Translate user-facing labels to codes when the description indicates mappings (e.g., platform 4 = IOS).";
      "- Return ONLY a valid Presto SQL query. No comments, no explanations." ]
    ++ (if Py.truthy (previous_error request)
        then [ ("- Previous execution error to correct: "
                ++ Py.or_else (previous_error request) "")%string ]
        else []))%list in
  let ids_only_hint :=
    if search_ids_only (user_query request)
    then "- The user wants only identifier columns. Return only the necessary identifier columns."
    else "" in
  let prompt_sections :=
    ([ "Schema definition:"; serialized_schema; ""; "User question:";
       user_query request; ""; "Guidance:" ] ++ guidance
     ++ (if ids_only_hint =? "" then [] else [ids_only_hint]))%list in
  Py.join Py.newline prompt_sections.

Definition sql_request (config : AppConfig) (request : QueryRequest)
    (schema : SchemaCatalog) : ChatRequest :=
  {| model := deployment_query config;
     system_content :=
       "You are an expert Presto SQL generator. "
       ++ "Use ONLY the provided schema. "
       ++ "If a field has a formula, use the formula instead of the raw column. "
       ++ "Return only valid SQL, no explanations.";
     user_content := _build_sql_generation_prompt request schema;
     max_tokens := max_tokens_sql config |}.

(** [content.strip()] on [Optional[str]]: [None] has no such attribute. *)
Definition content_strip (content : option string) : outcome string :=
  match content with
  | Some text => Return (Py.strip text)
  | None =>
      Raise (mk_exn AttributeError "'NoneType' object has no attribute 'strip'")
  end.

(** [generate_sql_query] *)
Definition generate_sql_query (config : AppConfig) (client : Client)
    (request : QueryRequest) (schema : SchemaCatalog) : outcome string :=
  match client (sql_request config request schema) with
  | Raise exc =>
      if is_Exception exc
      then Raise (mk_exn QueryGenerationError (exn_msg exc))
      else Raise exc
  | Return response =>
      content <- first_content response ;;
      sql_query <- content_strip content ;;
      Return (_clean_sql_query sql_query)
  end.

Definition general_request (config : AppConfig) (request : QueryRequest)
  : ChatRequest :=
  {| model := deployment_response config;
     system_content :=
       "You are a friendly AI assistant for a video analytics system. "
       ++ "Be concise, correct, and avoid hallucinating capabilities the system does not have.";
     user_content :=
       "You are an AI assistant for a video analytics platform. "
       ++ "Provide concise, helpful responses about analytics concepts, metrics, or how to work with the system."
       ++ Py.newline ++ Py.newline
       ++ "User question: " ++ user_query request;
     max_tokens := max_tokens_response config |}.

(** [answer_general_question] *)
Definition answer_general_question (config : AppConfig) (client : Client)
    (request : QueryRequest) : outcome string :=
  match client (general_request config request) with
  | Raise exc =>
      if is_Exception exc
      then Raise (mk_exn QueryGenerationError (exn_msg exc))
      else Raise exc
  | Return response =>
      content <- first_content response ;;
      content_strip content
  end.

End AIService.

(* ================================================================== *)
(** ** core/database_manager.py: connection and execution *)
(* ================================================================== *)

Module DatabaseManager.

(** What [cursor.execute(sql)] leaves behind: [cursor.description] (the
    column names [desc[0]], or [None]) and what [cursor.fetchall()] does. *)
Record Executed : Type := mkExecuted {
  cursor_description : option (list string);
  fetchall : outcome (list (list value))
}.

(** The [prestodb] driver and the two other sources of data outside the
    program: [uuid4()] and the clock read by [_duration_ms]. *)
Record Driver : Type := mkDriver {
  connect : AppConfig -> outcome N;
  cursor : N -> outcome N;
  cursor_execute : N -> string -> outcome Executed;
  uuid4 : N;
  duration_ms : Z
}.

(** The fields [_connection] and [_cursor] of a [DatabaseManager]. *)
Record Handles : Type := mkHandles {
  _connection : option N;
  _cursor : option N
}.

Definition new_handles : Handles :=
  {| _connection := None; _cursor := None |}.

(** [_ensure_connection] *)
Definition _ensure_connection (config : AppConfig) (driver : Driver)
    (self : Handles) : outcome unit * Handles :=
  match _connection self, _cursor self with
  | Some _, Some _ => (Return tt, self)
  | _, _ =>
      match connect driver config with
      | Raise exc =>
          if is_Exception exc
          then (Raise (mk_exn DatabaseConnectionError (exn_msg exc)), self)
          else (Raise exc, self)
      | Return connection =>
          let self := {| _connection := Some connection; _cursor := _cursor self |} in
          match cursor driver connection with
          | Raise exc =>
              if is_Exception exc
              then (Raise (mk_exn DatabaseConnectionError (exn_msg exc)), self)
              else (Raise exc, self)
          | Return cur =>
              (Return tt, {| _connection := Some connection; _cursor := Some cur |})
          end
      end
  end.

(** [dict(zip(columns, row))] *)
Definition row_dict (columns : list string) (row : list value) : Row :=
  fold_left (fun d kv => dict_set d (fst kv) (snd kv)) (combine columns row) [].

(** The body of the [try] block of [_execute_sync]. *)
Definition _execute_body (config : AppConfig) (driver : Driver)
    (self : Handles) (sql : string) (query_id : N)
  : outcome QueryResult * Handles :=
  match _ensure_connection config driver self with
  | (Raise exc, self) => (Raise exc, self)
  | (Return _, self) =>
      match _cursor self with
      | None => (Raise (mk_exn (OtherException "AssertionError") ""), self)
      | Some cur =>
          (executed <- cursor_execute driver cur sql ;;
           match cursor_description executed with
           | None =>
               Return (QueryResult_init query_id sql (Some []) (Some [])
                         (Some 0%Z) (Some (duration_ms driver)) None)
           | Some columns =>
               rows <- fetchall executed ;;
               let result_rows := map (row_dict columns) rows in
               Return (QueryResult_init query_id sql (Some result_rows)
                         (Some columns)
                         (Some (Z.of_nat (List.length result_rows)))
                         (Some (duration_ms driver)) None)
           end, self)
      end
  end.

(** [_execute_sync]: the three [except] clauses in source order; what is
    no [Exception] passes through. *)
Definition _execute_sync (config : AppConfig) (driver : Driver)
    (self : Handles) (sql : string) (metadata_query_id : option N)
  : outcome QueryResult * Handles :=
  let query_id :=
    match metadata_query_id with Some q => q | None => uuid4 driver end in
  match _execute_body config driver self sql query_id with
  | (Return result, self) => (Return result, self)
  | (Raise exc, self) =>
      if isinstance exc PrestoUserError
      then (Raise (mk_exn QueryExecutionError (exn_msg exc)), self)
      else if isinstance exc PrestoQueryError
      then (Raise (mk_exn QueryExecutionError (exn_msg exc)), self)
      else if is_Exception exc
      then (Raise (mk_exn QueryExecutionError (exn_msg exc)), self)
      else (Raise exc, self)
  end.

(** [execute] *)
Definition execute (config : AppConfig) (driver : Driver) (self : Handles)
    (sql : string) (metadata_query_id : option N)
  : outcome QueryResult * Handles :=
  let query_id :=
    match metadata_query_id with Some q => q | None => uuid4 driver end in
  if negb (execute_queries config)
  then (Return (QueryResult_init query_id sql (Some []) (Some []) (Some 0%Z)
                  None (Some false)), self)
  else _execute_sync config driver self sql metadata_query_id.

End DatabaseManager.

(* ================================================================== *)
(** ** core/database_manager.py: the schema gate under asyncio tasks *)
(* ================================================================== *)

Module SchemaGate.

(** The two coroutines that touch the schema fields. *)
Inductive call : Type :=
| GetSchema
| WaitForSchema.

(** Where a task stands.  A task that was created has not passed its first
    [await] yet: [async with self._schema_load_lock] for [get_schema],
    [self._schema_loaded.wait()] for [wait_for_schema].  A [get_schema] task
    that runs the [k]-th load holds the lock and awaits
    [asyncio.to_thread(self._load_schema_from_disk, ...)]. *)
Inductive pc : Type :=
| Invoked
| InLoad (k : nat)
| Finished (o : outcome SchemaCatalog).

Record task : Type := mkTask { what : call; at_pc : pc }.

(** The shared fields of the [DatabaseManager] and the tasks of the event
    loop.  [loads] counts the calls of [_load_schema_from_disk]. *)
Record state : Type := mkState {
  _loaded_schema : option SchemaCatalog;
  _schema_loaded : bool;
  _schema_load_lock : bool;
  loads : nat;
  tasks : list task
}.

Fixpoint set_nth {A : Type} (i : nat) (x : A) (l : list A) : list A :=
  match l, i with
  | [], _ => []
  | _ :: r, O => x :: r
  | a :: r, S j => a :: set_nth j x r
  end.

(** The schema source: what the [k]-th call of [_load_schema_from_disk]
    returns or raises. *)
Definition Disk : Type := nat -> outcome SchemaCatalog.

(** The event loop resumes task [i] and runs it to its next [await] or to
    its end; [None] when the task cannot be resumed (it waits for the lock
    or for the event, it has finished, or there is no such task). *)
Definition step (disk : Disk) (i : nat) (st : state) : option state :=
  match nth_error (tasks st) i with
  | Some {| what := GetSchema; at_pc := Invoked |} =>
      if _schema_load_lock st then None
      else
        match _loaded_schema st with
        | Some schema =>
            Some {| _loaded_schema := _loaded_schema st;
                    _schema_loaded := _schema_loaded st;
                    _schema_load_lock := false;
                    loads := loads st;
                    tasks := set_nth i (mkTask GetSchema (Finished (Return schema)))
                               (tasks st) |}
        | None =>
            Some {| _loaded_schema := None;
                    _schema_loaded := _schema_loaded st;
                    _schema_load_lock := true;
                    loads := S (loads st);
                    tasks := set_nth i (mkTask GetSchema (InLoad (loads st)))
                               (tasks st) |}
        end
  | Some {| what := GetSchema; at_pc := InLoad k |} =>
      match disk k with
      | Return schema =>
          Some {| _loaded_schema := Some schema;
                  _schema_loaded := true;
                  _schema_load_lock := false;
                  loads := loads st;
                  tasks := set_nth i (mkTask GetSchema (Finished (Return schema)))
                             (tasks st) |}
      | Raise exc =>
          Some {| _loaded_schema := _loaded_schema st;
                  _schema_loaded := _schema_loaded st;
                  _schema_load_lock := false;
                  loads := loads st;
                  tasks := set_nth i (mkTask GetSchema (Finished (Raise exc)))
                             (tasks st) |}
      end
  | Some {| what := WaitForSchema; at_pc := Invoked |} =>
      if _schema_loaded st
      then
        let o :=
          match _loaded_schema st with
          | None => Raise (mk_exn SchemaLoadError "Schema not loaded after waiting.")
          | Some schema => Return schema
          end in
        Some {| _loaded_schema := _loaded_schema st;
                _schema_loaded := _schema_loaded st;
                _schema_load_lock := _schema_load_lock st;
                loads := loads st;
                tasks := set_nth i (mkTask WaitForSchema (Finished o)) (tasks st) |}
      else None
  | _ => None
  end.

(** A schedule names the task resumed at each turn of the event loop. *)
Fixpoint run (disk : Disk) (schedule : list nat) (st : state) : option state :=
  match schedule with
  | [] => Some st
  | i :: rest =>
      match step disk i st with
      | Some st' => run disk rest st'
      | None => None
      end
  end.

(** A fresh [DatabaseManager] and the given calls, all just created. *)
Definition init (calls : list call) : state :=
  {| _loaded_schema := None;
     _schema_loaded := false;
     _schema_load_lock := false;
     loads := 0;
     tasks := map (fun c => mkTask c Invoked) calls |}.

Definition is_finished (t : task) : bool :=
  match at_pc t with Finished _ => true | _ => false end.

Definition all_finished (st : state) : bool := forallb is_finished (tasks st).

Definition has_raised (t : task) : bool :=
  match at_pc t with Finished (Raise _) => true | _ => false end.

Definition in_load (t : task) : bool :=
  match at_pc t with InLoad _ => true | _ => false end.

Definition count (p : task -> bool) (st : state) : nat :=
  List.length (filter p (tasks st)).

(** [self._loaded_schema is not None] *)
Definition is_loaded (st : state) : bool :=
  match _loaded_schema st with Some _ => true | None => false end.

(** The resumptions a task still needs before it has finished, at most. *)
Definition resumptions_left (t : task) : nat :=
  match at_pc t with
  | Invoked => 2
  | InLoad _ => 1
  | Finished _ => 0
  end.

Definition work_left (st : state) : nat :=
  list_sum (map resumptions_left (tasks st)).

(** What the shared fields say about one task: a task inside the load runs
    the latest load, a task that returned a catalog returned the published
    one, and only [get_schema] raises. *)
Definition task_ok (st : state) (t : task) : Prop :=
  match at_pc t with
  | Invoked => True
  | InLoad k => what t = GetSchema /\ S k = loads st
  | Finished (Return schema) => _loaded_schema st = Some schema
  | Finished (Raise _) => what t = GetSchema
  end.

(** The invariant of the gate: the event is set exactly when a catalog is
    published; the lock is held exactly while one task is inside the load;
    every load is a failure raised to one task, the load in progress, or the
    one that was published; every load before these failed. *)
Record gate_inv (disk : Disk) (st : state) : Prop := mk_gate_inv {
  inv_event : _schema_loaded st = is_loaded st;
  inv_lock : count in_load st = Nat.b2n (_schema_load_lock st);
  inv_loads :
    loads st = count has_raised st + count in_load st + Nat.b2n (is_loaded st);
  inv_failed :
    forall j, j + count in_load st + Nat.b2n (is_loaded st) < loads st ->
              exists exc, disk j = Raise exc;
  inv_loaded :
    forall schema, _loaded_schema st = Some schema ->
      _schema_load_lock st = false
      /\ exists k, S k = loads st /\ disk k = Return schema;
  inv_tasks : forall t, In t (tasks st) -> task_ok st t
}.

End SchemaGate.

(* ================================================================== *)
(** ** core/interfaces.py *)
(* ================================================================== *)

Module Interfaces.

(** The protocols, as the outcomes of their methods. *)
Record TriageServiceProtocol : Type := mkTriageService {
  classify_query : QueryRequest -> outcome string
}.

Record AIServiceProtocol : Type := mkAIService {
  generate_sql_query : QueryRequest -> SchemaCatalog -> outcome string;
  answer_general_question : QueryRequest -> outcome string
}.

(** [execute(sql, user_question=..., metadata={"query_id": ...})] *)
Record DatabaseExecutorProtocol : Type := mkDatabaseExecutor {
  execute : string -> string -> N -> outcome QueryResult;
  get_schema : outcome SchemaCatalog
}.

End Interfaces.

(* ================================================================== *)
(** ** core/query_processor.py *)
(* ================================================================== *)

Module QueryProcessor.

Import Interfaces.

Section Processor.

(** [str(row)] for a result row, Python's rendering of a [dict]. *)
Variable str_row : Row -> string.

Variable ai_service : AIServiceProtocol.
Variable triage_service : TriageServiceProtocol.
Variable database : DatabaseExecutorProtocol.
Variable config : AppConfig.

Definition CLASSIFY_FALLBACK : string :=
  "I could not determine how to handle that question. Please try rephrasing.".

Definition OUT_OF_SCOPE_TEXT : string :=
  "I'm sorry, but that question is outside my current scope. "
  ++ "I can help with video analytics data questions or information about the system.".

Definition GENERAL_FALLBACK : string :=
  "I ran into an issue while answering that. Please try again shortly.".

Definition SCHEMA_FALLBACK : string :=
  "I couldn't load the schema information required to generate SQL. "
  ++ "Please verify the schema configuration and try again.".

Definition SCHEMA_UNEXPECTED : string :=
  "Something went wrong while loading the schema definition. "
  ++ "Please try again or contact support.".

Definition GENERATION_FALLBACK : string :=
  "I wasn't able to generate a valid SQL query for that question. "
  ++ "Please revise the question or provide more detail.".

Definition sql_heading (sql : string) : string :=
  "Generated SQL Query:" ++ Py.newline ++ Py.newline ++ sql
  ++ Py.newline ++ Py.newline.

Definition EXECUTION_FALLBACK (sql : string) : string :=
  sql_heading sql
  ++ "The query failed to execute. Please review the SQL and try again.".

Definition CONNECTION_FALLBACK : string :=
  "Unable to connect to the database right now. Please try again later.".

Definition EXECUTION_UNEXPECTED (sql : string) : string :=
  sql_heading sql ++ "An unexpected error occurred while executing the query.".

(** [enumerate(preview_rows, start=idx)] rendered as [f"{idx}. {row}"] *)
Fixpoint numbered (idx : Z) (preview_rows : list Row) : list string :=
  match preview_rows with
  | [] => []
  | row :: rest =>
      (Py.str_int idx ++ ". " ++ str_row row) :: numbered (idx + 1) rest
  end.

Definition results_line (row_count : Z) : string :=
  "Results (" ++ Py.str_int row_count ++ " row"
  ++ (if (row_count =? 1)%Z then "" else "s") ++ "):".

Definition more_rows_line (remaining : Z) : string :=
  "... and " ++ Py.str_int remaining ++ " more row(s).".

(** The list [output_lines] of [_format_success_response] for a result
    with rows. *)
Definition output_lines (sql : string) (result : QueryResult) : list string :=
  let preview_rows := Py.slice_to (rows result) (max_results_display config) in
  let remaining := (row_count result - Z.of_nat (List.length preview_rows))%Z in
  ([ "Generated SQL Query:"; ""; sql; ""; results_line (row_count result); "" ]
   ++ numbered 1 preview_rows
   ++ (if (0 <? remaining)%Z then [ ""; more_rows_line remaining ] else []))%list.

(** [_format_success_response] *)
Definition _format_success_response (sql : string) (result : QueryResult)
  : string :=
  match rows result with
  | [] => sql_heading sql ++ "No results were returned."
  | _ => Py.join Py.newline (output_lines sql result)
  end.

(** [_handle_general_question] *)
Definition _handle_general_question (request : QueryRequest) : outcome string :=
  match answer_general_question ai_service request with
  | Return text => Return text
  | Raise exc =>
      if isinstance exc QueryGenerationError then Return GENERAL_FALLBACK
      else Raise exc
  end.

(** [_handle_data_question] *)
Definition _handle_data_question (request : QueryRequest) : outcome string :=
  match get_schema database with
  | Raise exc =>
      if isinstance exc AttributeError
      then Raise (mk_exn QueryGenerationError
                    "Database manager does not expose schema retrieval.")
      else if isinstance exc SchemaLoadError then Return SCHEMA_FALLBACK
      else if is_Exception exc then Return SCHEMA_UNEXPECTED
      else Raise exc
  | Return schema =>
      match generate_sql_query ai_service request schema with
      | Raise exc =>
          if isinstance exc QueryGenerationError then Return GENERATION_FALLBACK
          else Raise exc
      | Return sql =>
          match execute database sql (user_query request) (id request) with
          | Raise exc =>
              if isinstance exc QueryExecutionError
              then Return (EXECUTION_FALLBACK sql)
              else if isinstance exc DatabaseConnectionError
              then Return CONNECTION_FALLBACK
              else if is_Exception exc then Return (EXECUTION_UNEXPECTED sql)
              else Raise exc
          | Return result => Return (_format_success_response sql result)
          end
      end
  end.

(** [process] *)
Definition process (request : QueryRequest) : outcome string :=
  match classify_query triage_service request with
  | Raise exc =>
      if isinstance exc ClassificationError then Return CLASSIFY_FALLBACK
      else Raise exc
  | Return category =>
      if category =? "OUT_OF_SCOPE" then Return OUT_OF_SCOPE_TEXT
      else if (category =? "GREETING") || (category =? "GENERAL_QUESTION")
      then _handle_general_question request
      else if category =? "DATA_QUESTION" then _handle_data_question request
      else _handle_data_question request
  end.

End Processor.

End QueryProcessor.

(* ================================================================== *)
(** ** core/container.py: the services wired to the pipeline *)
(* ================================================================== *)

Module Container.

(** The three concrete services behind the protocols, for one request: a
    chat client, a driver and the connection fields before the request, and
    what a call of [DatabaseManager.get_schema] yields. *)
Definition triage_service (config : AppConfig) (client : Client)
  : Interfaces.TriageServiceProtocol :=
  {| Interfaces.classify_query :=
       fun request => fst (TriageService.classify_query config client request) |}.

Definition ai_service (config : AppConfig) (client : Client)
  : Interfaces.AIServiceProtocol :=
  {| Interfaces.generate_sql_query := AIService.generate_sql_query config client;
     Interfaces.answer_general_question :=
       AIService.answer_general_question config client |}.

Definition database (config : AppConfig) (driver : DatabaseManager.Driver)
    (self : DatabaseManager.Handles) (schema : outcome SchemaCatalog)
  : Interfaces.DatabaseExecutorProtocol :=
  {| Interfaces.execute :=
       fun sql _ query_id =>
         fst (DatabaseManager.execute config driver self sql (Some query_id));
     Interfaces.get_schema := schema |}.

(** [ApplicationContainer.query_processor.process] *)
Definition process (str_row : Row -> string) (config : AppConfig)
    (client : Client) (driver : DatabaseManager.Driver)
    (self : DatabaseManager.Handles) (schema : outcome SchemaCatalog)
    (request : QueryRequest) : outcome string :=
  QueryProcessor.process str_row (ai_service config client)
    (triage_service config client) (database config driver self schema)
    config request.

End Container.

(* ================================================================== *)
(** ** The layout of the schema prompt, as the specification words it *)
(* ================================================================== *)

Module Rendering.

(** A group of a table block: nothing for an empty group, else the heading
    and one item per entry. *)
Definition group_lines (heading : string) (entries : list string) : list string :=
  match entries with
  | [] => []
  | _ => heading :: map AIService.bullet entries
  end.

(** One block per table: the table line, the base columns, the calculated
    metrics, and an empty line. *)
Definition table_block (item : string * SchemaTable) : list string :=
  let '(table_name, table) := item in
  ([("Table: " ++ table_name)%string]
   ++ group_lines "  Base Columns:"
        (map AIService._format_column
           (filter (fun c => negb (is_calculated c)) (columns table)))
   ++ group_lines "  Calculated Metrics:"
        (map AIService._format_column (filter is_calculated (columns table)))
   ++ [""])%list.

End Rendering.

(* ================================================================== *)
(** ** Model replies around an SQL text *)
(* ================================================================== *)

Module Fences.

(** How a reply opens: no fence, a bare fence, or a fence tagged [sql]. *)
Inductive opening : Type :=
| NoFence
| BareFence
| SqlFence.

Definition opening_text (o : opening) : string :=
  match o with
  | NoFence => ""
  | BareFence => "```"
  | SqlFence => "```sql"
  end.

Definition closing_text (closed : bool) : string :=
  if closed then "```" else "".

Definition terminator_text (terminated : bool) : string :=
  if terminated then ";" else "".

(** The SQL text [s] as a reply carries it: an optional opening fence, [s],
    an optional terminator right after it, an optional closing fence, with
    runs of whitespace [ws0] .. [ws3] in between. *)
Definition wrap (ws0 : string) (o : opening) (ws1 s : string)
    (terminated : bool) (ws2 : string) (closed : bool) (ws3 : string) : string :=
  ws0 ++ opening_text o ++ ws1 ++ s ++ terminator_text terminated
  ++ ws2 ++ closing_text closed ++ ws3.

End Fences.

(* ================================================================== *)
(** ** Sample inputs *)
(* ================================================================== *)

Module Samples.

Definition sample_config : AppConfig := default_config "presto.local".

Definition sample_request (text : string) : QueryRequest :=
  {| id := 7; user_query := text; previous_error := None; metadata := [] |}.

(** A remote service that answers every request with the same content. *)
Definition constant_client (content : option string) : Client :=
  fun _ => Return [content].

(** A driver whose [connect] always fails. *)
Definition refusing_driver : DatabaseManager.Driver :=
  {| DatabaseManager.connect :=
       fun _ => Raise (mk_exn (OtherException "ConnectionError") "connection refused");
     DatabaseManager.cursor := fun _ => Return 1%N;
     DatabaseManager.cursor_execute :=
       fun _ _ => Return (DatabaseManager.mkExecuted None (Return []));
     DatabaseManager.uuid4 := 99;
     DatabaseManager.duration_ms := 12 |}.

(** A driver that connects and answers every query with the given rows of
    two columns. *)
Definition answering_driver (fetched : list (list value)) : DatabaseManager.Driver :=
  {| DatabaseManager.connect := fun _ => Return 1%N;
     DatabaseManager.cursor := fun _ => Return 2%N;
     DatabaseManager.cursor_execute :=
       fun _ _ =>
         Return (DatabaseManager.mkExecuted (Some ["platform"; "views"])
                   (Return fetched));
     DatabaseManager.uuid4 := 99;
     DatabaseManager.duration_ms := 12 |}.

Definition seven_rows : list (list value) :=
  [ [VInt 1; VInt 10]; [VInt 2; VInt 20]; [VInt 3; VInt 30]; [VInt 4; VInt 40];
    [VInt 5; VInt 50]; [VInt 6; VInt 60]; [VInt 7; VInt 70] ].

(** Python's [str] of a row whose keys and strings need no escaping. *)
Definition str_value (v : value) : string :=
  match v with
  | VNone => "None"
  | VBool true => "True"
  | VBool false => "False"
  | VInt n => Py.str_int n
  | VStr s => "'" ++ s ++ "'"
  end.

Definition str_row (row : Row) : string :=
  "{" ++ Py.join ", "
           (map (fun kv => "'" ++ fst kv ++ "': " ++ str_value (snd kv)) row)
  ++ "}".

Definition empty_catalog : SchemaCatalog := {| tables := [] |}.

Definition views_question : QueryRequest :=
  sample_request "total views per platform".

Definition user_id : SchemaColumn :=
  {| col_name := "user_id"; col_type := "bigint"; field_name := None;
     description := None; formula := None |}.

Definition active_users : SchemaColumn :=
  {| col_name := "au"; col_type := "bigint"; field_name := Some "active_users";
     description := Some "users seen";
     formula := Some "count(distinct user_id)" |}.

Definition sessions_table : SchemaTable :=
  {| table_name := "sessions"; columns := [user_id; active_users] |}.

Definition sessions_catalog : SchemaCatalog :=
  {| tables := [("sessions", sessions_table)] |}.

(** A schema source that can always be read. *)
Definition ready_disk : SchemaGate.Disk := fun _ => Return sessions_catalog.

(** A schema source whose file is missing at the first load and present
    afterwards. *)
Definition late_disk : SchemaGate.Disk :=
  fun k =>
    match k with
    | O => Raise (mk_exn SchemaLoadError "Schema file not found: data/mapping.json")
    | S _ => Return sessions_catalog
    end.

End Samples.

(* ================================================================== *)
(** ** core/models.py: lookups in the schema *)
(* ================================================================== *)

Module Catalog.

(** The test inside the loop of [SchemaTable.get_column]:
    [col.name.lower() == lowered or
     (col.field_name and col.field_name.lower() == lowered)] *)
Definition column_matches (lowered : string) (col : SchemaColumn) : bool :=
  (Py.lower (col_name col) =? lowered)
  || (Py.truthy (field_name col)
      && (Py.lower (Py.or_else (field_name col) "") =? lowered)).

(** [SchemaTable.get_column] *)
Definition get_column (table : SchemaTable) (name : string)
  : option SchemaColumn :=
  let lowered := Py.lower name in
  find (column_matches lowered) (columns table).

(** [d.get(k)] on an insertion-ordered dict. *)
Fixpoint dict_get {V : Type} (d : list (string * V)) (k : string) : option V :=
  match d with
  | [] => None
  | (k', v) :: r => if k' =? k then Some v else dict_get r k
  end.

(** [SchemaCatalog.get_table]:
    [self.tables.get(name) or self.tables.get(name.lower())]; a table object
    is always truthy. *)
Definition get_table (catalog : SchemaCatalog) (name : string)
  : option SchemaTable :=
  match dict_get (tables catalog) name with
  | Some table => Some table
  | None => dict_get (tables catalog) (Py.lower name)
  end.

(** [SchemaCatalog.all_columns]: the columns in the order they are yielded. *)
Definition all_columns (catalog : SchemaCatalog) : list SchemaColumn :=
  flat_map (fun item => columns (snd item)) (tables catalog).

(** [SchemaCatalog()] *)
Definition empty : SchemaCatalog := {| tables := [] |}.

(** The keys of a dict are distinct. *)
Definition unique_keys (catalog : SchemaCatalog) : Prop :=
  NoDup (map fst (tables catalog)).

End Catalog.

(* ================================================================== *)
(** ** core/database_manager.py: closing the connection *)
(* ================================================================== *)

Module DatabaseClose.

Import DatabaseManager.

(** What [cursor.close()] and [connection.close()] of the driver do. *)
Record Closer : Type := mkCloser {
  cursor_close : N -> outcome unit;
  connection_close : N -> outcome unit
}.

(** A call that reached the driver, with the handle it was made on. *)
Inductive close_call : Type :=
| CursorClose (cur : N)
| ConnectionClose (connection : N).

(** The [try] block of [_close_sync], with the calls made until it ends or
    raises. *)
Definition close_body (closer : Closer) (self : Handles)
  : outcome unit * list close_call :=
  let closed_cursor :=
    match _cursor self with
    | Some cur => (cursor_close closer cur, [CursorClose cur])
    | None => (Return tt, [])
    end in
  match closed_cursor with
  | (Raise exc, calls) => (Raise exc, calls)
  | (Return _, calls) =>
      match _connection self with
      | Some connection =>
          (connection_close closer connection,
           (calls ++ [ConnectionClose connection])%list)
      | None => (Return tt, calls)
      end
  end.

(** [_close_sync]: the [except Exception] clause only logs, what is no
    [Exception] passes through, and the [finally] clause resets both fields
    either way. *)
Definition _close_sync (closer : Closer) (self : Handles)
  : outcome unit * list close_call * Handles :=
  let '(result, calls) := close_body closer self in
  let result :=
    match result with
    | Return _ => Return tt
    | Raise exc => if is_Exception exc then Return tt else Raise exc
    end in
  (result, calls, {| _connection := None; _cursor := None |}).

End DatabaseClose.

(* ================================================================== *)
(** ** core/database_manager.py: the schema file *)
(* ================================================================== *)

Module SchemaFile.

Import Catalog.

(** What [json.load] returns: Python objects.  A dict keeps the order of the
    file. *)
#[warnings="-register-all"]
Inductive json : Type :=
| JNull
| JBool (b : bool)
| JInt (z : Z)
| JFloat (text : string)
| JStr (s : string)
| JList (items : list json)
| JDict (items : list (string * json)).

(** [type(value).__name__] *)
Definition type_name (value : json) : string :=
  match value with
  | JNull => "NoneType"
  | JBool _ => "bool"
  | JInt _ => "int"
  | JFloat _ => "float"
  | JStr _ => "str"
  | JList _ => "list"
  | JDict _ => "dict"
  end.

(** The file behind [path]: [path.exists()] raises (a directory on the way
    cannot be searched), or it is not there, or opening or parsing it
    raises, or it parses. *)
Inductive file : Type :=
| Unsearchable (exc : exn)
| Missing
| Unreadable (exc : exn)
| Parsed (data : json).

(** [d.get(k, default)] *)
Definition get_or (d : list (string * json)) (k : string) (default : json)
  : json :=
  match dict_get d k with
  | Some value => value
  | None => default
  end.

(** [for item in value]: a list gives its items, a dict its keys, a string
    its characters; other objects are not iterable. *)
Definition iterate (value : json) : outcome (list json) :=
  match value with
  | JList items => Return items
  | JDict items => Return (map (fun item => JStr (fst item)) items)
  | JStr s => Return (map (fun c => JStr (String c EmptyString))
                        (list_ascii_of_string s))
  | _ => Raise (mk_exn (OtherException "TypeError")
                  ("'" ++ type_name value ++ "' object is not iterable"))
  end.

Section Loader.

(** The validation of the model library, which is not part of the sources:
    what a field declared [str], and one declared [Optional[str]], makes of a
    value ([None] when the value is refused), and the text of the
    [ValidationError] for the refused arguments. *)
Variable accepts_str : json -> option string.
Variable accepts_optional_str : json -> option (option string).
Variable validation_text : list json -> string.

(** [SchemaColumn(name=..., type=..., field_name=..., description=...,
    formula=...)] *)
Definition SchemaColumn_init (name type field_name description formula : json)
  : outcome SchemaColumn :=
  match accepts_str name, accepts_str type, accepts_optional_str field_name,
        accepts_optional_str description, accepts_optional_str formula with
  | Some n, Some t, Some f, Some d, Some fo =>
      Return {| col_name := n; col_type := t; field_name := f;
                description := d; formula := fo |}
  | _, _, _, _, _ =>
      Raise (mk_exn (OtherException "ValidationError")
               (validation_text [name; type; field_name; description; formula]))
  end.

(** The inner loop of [_build_catalog_from_dict], over the items that the
    iteration yields. *)
Fixpoint build_columns (items : list json) : outcome (list SchemaColumn) :=
  match items with
  | [] => Return []
  | JDict column_data :: rest =>
      column <- SchemaColumn_init
                  (get_or column_data "name" (JStr "unknown"))
                  (get_or column_data "type" (JStr "unknown"))
                  (get_or column_data "field_name" JNull)
                  (get_or column_data "description" JNull)
                  (get_or column_data "formula" JNull) ;;
      columns <- build_columns rest ;;
      Return (column :: columns)
  | _ :: rest => build_columns rest
  end.

(** The columns of one table: [table_data.get("columns", [])] needs a dict. *)
Definition table_columns (table_data : json) : outcome (list SchemaColumn) :=
  match table_data with
  | JDict d =>
      items <- iterate (get_or d "columns" (JList [])) ;;
      build_columns items
  | _ => Raise (mk_exn AttributeError
                  ("'" ++ type_name table_data
                   ++ "' object has no attribute 'get'"))
  end.

(** The outer loop of [_build_catalog_from_dict]. *)
Fixpoint build_tables (items : list (string * json)) (catalog : SchemaCatalog)
  : outcome SchemaCatalog :=
  match items with
  | [] => Return catalog
  | (name, table_data) :: rest =>
      columns <- table_columns table_data ;;
      build_tables rest
        (add_table catalog {| table_name := name; columns := columns |})
  end.

(** [_build_catalog_from_dict] *)
Definition _build_catalog_from_dict (data : list (string * json))
  : outcome SchemaCatalog :=
  build_tables data empty.

(** [_load_schema_from_disk]; [path] is [str(path)]. *)
Definition _load_schema_from_disk (path : string) (f : file)
  : outcome SchemaCatalog :=
  match f with
  | Unsearchable exc => Raise exc
  | Missing => Raise (mk_exn SchemaLoadError ("Schema file not found: " ++ path))
  | Unreadable exc =>
      if is_Exception exc
      then Raise (mk_exn SchemaLoadError
                    ("Failed to parse schema file: " ++ exn_msg exc))
      else Raise exc
  | Parsed (JDict data) => _build_catalog_from_dict data
  | Parsed _ =>
      Raise (mk_exn SchemaLoadError
               "Schema JSON must be a dictionary keyed by table name with a 'columns' list.")
  end.

End Loader.

(** *** The catalog that a well-typed file describes *)

(** A value that a [str] field takes as it is. *)
Definition is_text (value : json) : bool :=
  match value with JStr _ => true | _ => false end.

Definition is_optional_text (value : json) : bool :=
  match value with JStr _ | JNull => true | _ => false end.

Definition text_of (value : json) : string :=
  match value with JStr s => s | _ => "" end.

Definition optional_text_of (value : json) : option string :=
  match value with JStr s => Some s | _ => None end.

(** The entry of a column whose fields, where given, are texts. *)
Definition typed_column (item : json) : bool :=
  match item with
  | JDict column_data =>
      is_text (get_or column_data "name" (JStr "unknown"))
      && is_text (get_or column_data "type" (JStr "unknown"))
      && is_optional_text (get_or column_data "field_name" JNull)
      && is_optional_text (get_or column_data "description" JNull)
      && is_optional_text (get_or column_data "formula" JNull)
  | _ => true
  end.

(** A table given as an object whose ["columns"], where given, is a list of
    such entries. *)
Definition typed_table (table_data : json) : bool :=
  match table_data with
  | JDict d =>
      match get_or d "columns" (JList []) with
      | JList items => forallb typed_column items
      | _ => false
      end
  | _ => false
  end.

Definition is_dict (value : json) : bool :=
  match value with JDict _ => true | _ => false end.

Definition column_of (item : json) : SchemaColumn :=
  match item with
  | JDict column_data =>
      {| col_name := text_of (get_or column_data "name" (JStr "unknown"));
         col_type := text_of (get_or column_data "type" (JStr "unknown"));
         field_name := optional_text_of (get_or column_data "field_name" JNull);
         description := optional_text_of (get_or column_data "description" JNull);
         formula := optional_text_of (get_or column_data "formula" JNull) |}
  | _ => {| col_name := ""; col_type := ""; field_name := None;
            description := None; formula := None |}
  end.

(** The columns that the file gives for a table: one for each entry that is
    an object, in the order of the file. *)
Definition columns_of (table_data : json) : list SchemaColumn :=
  match table_data with
  | JDict d =>
      match get_or d "columns" (JList []) with
      | JList items => map column_of (filter is_dict items)
      | _ => []
      end
  | _ => []
  end.

Definition table_of (item : string * json) : string * SchemaTable :=
  (fst item, {| table_name := fst item; columns := columns_of (snd item) |}).

End SchemaFile.

(* ================================================================== *)
(** ** utils/cache.py *)
(* ================================================================== *)

Module Cache.

Import Catalog.

(** [d.pop(k, None)] on an insertion-ordered dict: the key is gone, the
    other items keep their order. *)
Definition dict_pop {V : Type} (d : list (string * V)) (k : string)
  : list (string * V) :=
  filter (fun item => negb (fst item =? k)) d.

(** [a or b] on two optional integers: [None] and [0] are falsy. *)
Definition int_or (a b : option Z) : option Z :=
  match a with
  | Some z => if (z =? 0)%Z then b else Some z
  | None => b
  end.

Section Clock.

(** The readings of [time.time()] are floats; the sum of a float and an
    integer and the comparison of two floats are those of the machine. *)
Variable Float : Type.
Variable float_add_int : Float -> Z -> Float.
Variable float_ge : Float -> Float -> bool.

(** The cached objects other than [None]. *)
Variable Value : Type.

Record CacheEntry : Type := mkCacheEntry {
  value : option Value;
  expires_at : option Float
}.

(** [CacheEntry.is_expired]; [now] is what [time.time()] reads, where it is
    read. *)
Definition is_expired (now : Float) (entry : CacheEntry) : bool :=
  match expires_at entry with
  | None => false
  | Some at_time => float_ge now at_time
  end.

Record InMemoryTTLCache : Type := mkInMemoryTTLCache {
  _default_ttl : option Z;
  _store : list (string * CacheEntry)
}.

(** [InMemoryTTLCache(default_ttl)] *)
Definition new (default_ttl : option Z) : InMemoryTTLCache :=
  {| _default_ttl := default_ttl; _store := [] |}.

(** [_compute_expiry] *)
Definition _compute_expiry (now : Float) (ttl_seconds : option Z)
  : option Float :=
  match ttl_seconds with
  | None => None
  | Some ttl => Some (float_add_int now ttl)
  end.

(** [get]: the value returned and the cache afterwards.  An entry object is
    always truthy. *)
Definition get (now : Float) (self : InMemoryTTLCache) (key : string)
  : option Value * InMemoryTTLCache :=
  match dict_get (_store self) key with
  | None => (None, self)
  | Some entry =>
      if is_expired now entry
      then (None, {| _default_ttl := _default_ttl self;
                     _store := dict_pop (_store self) key |})
      else (value entry, self)
  end.

(** [set] *)
Definition set (now : Float) (self : InMemoryTTLCache) (key : string)
    (v : option Value) (ttl_seconds : option Z) : InMemoryTTLCache :=
  let expires_at := _compute_expiry now (int_or ttl_seconds (_default_ttl self)) in
  {| _default_ttl := _default_ttl self;
     _store := dict_set (_store self) key
                 {| value := v; expires_at := expires_at |} |}.

(** [delete] *)
Definition delete (self : InMemoryTTLCache) (key : string) : InMemoryTTLCache :=
  {| _default_ttl := _default_ttl self; _store := dict_pop (_store self) key |}.

(** [clear] *)
Definition clear (self : InMemoryTTLCache) : InMemoryTTLCache :=
  {| _default_ttl := _default_ttl self; _store := [] |}.

(** The [wrapper] of [async_ttl_cache] for one call.  [cache_key] is the key
    that [_build_cache_key] gives for the arguments; [func] is the decorated
    function at these arguments, with whatever state [World] it works on;
    [now_get] and [now_set] are the readings of the clock inside [get] and
    [set].  With a text as key and an integer as lifetime [cache.set] does
    not raise. *)
Definition wrapper {World : Type} (ttl_seconds : option Z)
    (func : World -> outcome (option Value) * World) (cache_key : string)
    (now_get now_set : Float) (cache : InMemoryTTLCache) (world : World)
  : outcome (option Value) * InMemoryTTLCache * World :=
  match get now_get cache cache_key with
  | (Some cached_value, cache) => (Return (Some cached_value), cache, world)
  | (None, cache) =>
      match func world with
      | (Raise exc, world) => (Raise exc, cache, world)
      | (Return result, world) =>
          (Return result, set now_set cache cache_key result ttl_seconds, world)
      end
  end.

End Clock.

Arguments value {Float Value} _.
Arguments expires_at {Float Value} _.
Arguments _default_ttl {Float Value} _.
Arguments _store {Float Value} _.

End Cache.

(* ================================================================== *)
(** ** core/interactive_session.py *)
(* ================================================================== *)

Module InteractiveSession.

(** What a call of [input] does: it returns a line, the user interrupts, or
    it raises something else.  At the end of the input every call raises
    [EOFError]: the input is a list of events, and its end is the end of the
    stream. *)
Inductive input_event : Type :=
| Line (text : string)
| Interrupt
| InputFails (exc : exn).

(** What the session does that can be seen from outside. *)
Inductive action : Type :=
| Print (text : string)
| Process (request : QueryRequest).

(** [isinstance(exc, cls)] for a class known by its name. *)
Definition is_class (exc : exn) (name : string) : bool :=
  isinstance exc (OtherException name).

Definition rule : string :=
  "============================================================".

(** [_print_welcome_message] *)
Definition _print_welcome_message : list action :=
  [Print (Py.newline ++ rule); Print "AI Query System"; Print rule;
   Print "Ask questions in natural language."; Print "Type 'quit' to exit.";
   Print rule].

(** [_get_user_input], on the next event of the input ([None] at its end). *)
Definition _get_user_input (event : option input_event) : outcome string :=
  match event with
  | Some (Line text) => Return (Py.strip text)
  | None | Some Interrupt => Return "quit"
  | Some (InputFails exc) =>
      if is_class exc "EOFError" || is_class exc "KeyboardInterrupt"
      then Return "quit"
      else if is_Exception exc then Return ""
      else Raise exc
  end.

Definition EXIT_WORDS : list string := ["quit"; "exit"; "q"; "bye"].

(** [_should_exit] *)
Definition _should_exit (user_input : string) : bool :=
  existsb (String.eqb (Py.lower user_input)) EXIT_WORDS.

(** [_prompt_continue], on the next event of the input. *)
Definition _prompt_continue (event : option input_event) : outcome bool :=
  match event with
  | Some (Line answer) =>
      Return (existsb (String.eqb (Py.lower (Py.strip answer))) ["y"; "yes"])
  | None | Some Interrupt => Return false
  | Some (InputFails exc) =>
      if is_class exc "EOFError" || is_class exc "KeyboardInterrupt"
      then Return false
      else Raise exc
  end.

Definition GOODBYE : string := Py.newline ++ "Goodbye!".

Definition INTERRUPTED : string :=
  Py.newline ++ Py.newline ++ "Session interrupted. Goodbye!".

(** The line printed for a response. *)
Definition assistant_line (response : string) : string :=
  if response =? "" then Py.newline ++ "Assistant: (no response)"
  else Py.newline ++ "Assistant: " ++ response.

Section Session.

(** The processor behind the session: what its [process] does at the
    [n]-th call of the session; and the identifier that [uuid4] gives to the
    [n]-th request. *)
Variable process : nat -> QueryRequest -> outcome string.
Variable uuid4 : nat -> N.

(** The text that the model library gives to the [ValidationError] for a
    refused question. *)
Variable validation_text : string -> string.

(** The loop of [start], from the [calls]-th request on: what it does, and
    how it ends. *)
Fixpoint loop (calls : nat) (events : list input_event)
  : list action * outcome unit :=
  match events with
  | [] =>
      (* [EOFError] reads as ["quit"], an exit word *)
      ([Print GOODBYE], Return tt)
  | event :: rest =>
      match _get_user_input (Some event) with
      | Raise exc => ([], Raise exc)
      | Return user_input =>
          if user_input =? "" then loop calls rest
          else if _should_exit user_input then ([Print GOODBYE], Return tt)
          else
            match QueryRequest_init (uuid4 calls) user_input None [] with
            | None =>
                ([], Raise (mk_exn (OtherException "ValidationError")
                              (validation_text user_input)))
            | Some request =>
                match process calls request with
                | Return response =>
                    let (actions, result) := loop (S calls) rest in
                    (Process request :: Print (assistant_line response)
                       :: actions, result)
                | Raise exc =>
                    if is_class exc "KeyboardInterrupt"
                    then ([Process request; Print INTERRUPTED], Return tt)
                    else if is_class exc "EOFError"
                    then ([Process request; Print GOODBYE], Return tt)
                    else if is_Exception exc
                    then
                      let failed :=
                        [Process request;
                         Print (Py.newline ++ "Error: " ++ exn_msg exc)] in
                      match rest with
                      | [] =>
                          (* [EOFError] at the prompt reads as no *)
                          (failed, Return tt)
                      | answer :: rest' =>
                          match _prompt_continue (Some answer) with
                          | Raise exc' => (failed, Raise exc')
                          | Return true =>
                              let (actions, result) := loop (S calls) rest' in
                              ((failed ++ actions)%list, result)
                          | Return false => (failed, Return tt)
                          end
                      end
                    else ([Process request], Raise exc)
                end
            end
      end
  end.

(** [start] *)
Definition start (events : list input_event) : list action * outcome unit :=
  let (actions, result) := loop 0 events in
  ((_print_welcome_message ++ actions)%list, result).

End Session.

(** The requests that were handed to the processor, in order. *)
Definition requests (actions : list action) : list QueryRequest :=
  flat_map (fun a => match a with Process r => [r] | Print _ => [] end) actions.




End InteractiveSession.

(* ================================================================== *)
(** ** Further sample inputs *)
(* ================================================================== *)

Module MoreSamples.

(** The settings of the samples with execution disabled. *)
Definition preview_config : AppConfig :=
  {| presto_host := "presto.local"; presto_port := 8090;
     presto_user := "hadoop"; presto_catalog := "hive";
     presto_schema := "test"; deployment_query := "gpt-4.1";
     deployment_classification := "gpt-4.1";
     deployment_response := "gpt-4.1"; max_tokens_sql := 800;
     max_tokens_response := 500; max_results_display := 5;
     schema_json_path := "data/mapping.json"; execute_queries := false |}.

(** A remote service that answers the classification request with [label]
    and every other request with [text]. *)
Definition scripted_client (label text : string) : Client :=
  fun call =>
    if system_content call
       =? "You classify user queries. Reply with exactly one label."
    then Return [Some label] else Return [Some text].

(** A remote service that cannot be reached. *)
Definition failing_client : Client :=
  fun _ => Raise (mk_exn (OtherException "APIConnectionError") "Connection error.").

(** A schema source whose file is never there. *)
Definition broken_disk : SchemaGate.Disk :=
  fun _ => Raise (mk_exn SchemaLoadError "Schema file not found: data/mapping.json").

(** The validation of a [str] field that takes texts only. *)
Definition strict_str (value : SchemaFile.json) : option string :=
  match value with SchemaFile.JStr s => Some s | _ => None end.

Definition strict_optional_str (value : SchemaFile.json)
  : option (option string) :=
  match value with
  | SchemaFile.JStr s => Some (Some s)
  | SchemaFile.JNull => Some None
  | _ => None
  end.

Definition validation_text (arguments : list SchemaFile.json) : string :=
  "validation error for SchemaColumn".

(** A schema file with one table of two columns, between them an entry that
    is not an object. *)
Definition mapping_json : list (string * SchemaFile.json) :=
  [("sessions",
    SchemaFile.JDict
      [("columns",
        SchemaFile.JList
          [SchemaFile.JDict [("name", SchemaFile.JStr "user_id");
                             ("type", SchemaFile.JStr "bigint")];
           SchemaFile.JStr "a note";
           SchemaFile.JDict [("name", SchemaFile.JStr "au");
                             ("type", SchemaFile.JStr "bigint");
                             ("field_name", SchemaFile.JStr "active_users");
                             ("description", SchemaFile.JStr "users seen");
                             ("formula", SchemaFile.JStr "count(distinct user_id)")]])])].

(** A schema file whose one table is given as a list. *)
Definition list_table_json : list (string * SchemaFile.json) :=
  [("sessions", SchemaFile.JList [])].




(** The settings of the samples with a display limit below zero. *)
Definition negative_limit_config : AppConfig :=
  {| presto_host := "presto.local"; presto_port := 8090;
     presto_user := "hadoop"; presto_catalog := "hive";
     presto_schema := "test"; deployment_query := "gpt-4.1";
     deployment_classification := "gpt-4.1";
     deployment_response := "gpt-4.1"; max_tokens_sql := 800;
     max_tokens_response := 500; max_results_display := -1;
     schema_json_path := "data/mapping.json"; execute_queries := true |}.

Definition three_rows : list (list value) :=
  [ [VInt 1; VInt 10]; [VInt 2; VInt 20]; [VInt 3; VInt 30] ].

End MoreSamples.

(** ** Strings *)

Section StringFacts.

Lemma append_empty_r (s : string) : s ++ "" = s.
Proof. induction s as [| c s IH]; cbn [append]; congruence. Qed.

Lemma append_assoc (a b c : string) : (a ++ b) ++ c = a ++ b ++ c.
Proof. induction a as [| x a IH]; cbn [append]; congruence. Qed.

Lemma all_space_app (a b : string) :
  Py.all_space (a ++ b) = Py.all_space a && Py.all_space b.
Proof.
  unfold Py.all_space. induction a as [| c a IH]; [reflexivity |].
  cbn [append list_ascii_of_string forallb]. now rewrite IH, andb_assoc.
Qed.

Lemma lstrip_length (s : string) :
  String.length (Py.lstrip s) <= String.length s.
Proof.
  induction s as [| c s IH]; cbn [Py.lstrip]; [lia |].
  destruct (Py.is_space c); cbn [String.length]; lia.
Qed.

Lemma rstrip_length (s : string) :
  String.length (Py.rstrip s) <= String.length s.
Proof.
  induction s as [| c s IH]; cbn [Py.rstrip]; [cbn; lia |].
  destruct (Py.rstrip s) as [| c' r'].
  - destruct (Py.is_space c); cbn [String.length]; lia.
  - cbn [String.length] in *. lia.
Qed.

Lemma lstrip_fixed_of_length (s : string) :
  String.length (Py.lstrip s) = String.length s -> Py.lstrip s = s.
Proof.
  destruct s as [| c s]; [reflexivity |]. cbn [Py.lstrip].
  destruct (Py.is_space c); [| reflexivity].
  intros H. pose proof (lstrip_length s). cbn [String.length] in H. lia.
Qed.

(** A text that [strip] leaves alone is left alone on both sides. *)
Lemma strip_fixed (s : string) :
  Py.strip s = s -> Py.lstrip s = s /\ Py.rstrip s = s.
Proof.
  unfold Py.strip. intros H.
  assert (Hl : Py.lstrip s = s).
  { apply lstrip_fixed_of_length.
    pose proof (lstrip_length s). pose proof (rstrip_length (Py.lstrip s)).
    rewrite H in *. lia. }
  split; [assumption |]. now rewrite Hl in H.
Qed.

Lemma lstrip_space_app (a x : string) :
  Py.all_space a = true -> Py.lstrip (a ++ x) = Py.lstrip x.
Proof.
  unfold Py.all_space. induction a as [| c a IH]; [reflexivity |].
  cbn [append list_ascii_of_string forallb Py.lstrip].
  intros H. apply andb_true_iff in H. destruct H as [Hc Ha].
  rewrite Hc. now apply IH.
Qed.

Lemma rstrip_all_space (b : string) :
  Py.all_space b = true -> Py.rstrip b = "".
Proof.
  unfold Py.all_space. induction b as [| c b IH]; [reflexivity |].
  cbn [list_ascii_of_string forallb Py.rstrip].
  intros H. apply andb_true_iff in H. destruct H as [Hc Hb].
  rewrite (IH Hb), Hc. reflexivity.
Qed.

Lemma rstrip_app_space (x b : string) :
  Py.all_space b = true -> Py.rstrip (x ++ b) = Py.rstrip x.
Proof.
  intros Hb. induction x as [| c x IH].
  - cbn [append]. now rewrite rstrip_all_space.
  - cbn [append Py.rstrip]. now rewrite IH.
Qed.

(** [strip] removes the whitespace around a text that is itself trimmed. *)
Lemma strip_surrounded (a x b : string) :
  Py.all_space a = true -> Py.all_space b = true -> Py.strip x = x ->
  Py.strip (a ++ x ++ b) = x.
Proof.
  intros Ha Hb Hx. destruct (strip_fixed x Hx) as [Hl Hr].
  unfold Py.strip. rewrite (lstrip_space_app a _ Ha).
  destruct x as [| c x].
  - cbn [append]. apply rstrip_all_space.
    clear -Hb. unfold Py.all_space in *.
    induction b as [| c b IH]; [reflexivity |].
    cbn [list_ascii_of_string forallb Py.lstrip] in *.
    apply andb_true_iff in Hb. destruct Hb as [Hc Hb].
    rewrite Hc. now apply IH.
  - cbn [append Py.lstrip] in *.
    destruct (Py.is_space c) eqn:E.
    + pose proof (lstrip_length x). rewrite Hl in H. cbn [String.length] in H. lia.
    + change (String c (x ++ b)) with (String c x ++ b).
      now rewrite (rstrip_app_space _ _ Hb).
Qed.

Lemma rstrip_app_kept (x y : string) :
  Py.rstrip y <> "" -> Py.rstrip (x ++ y) = x ++ Py.rstrip y.
Proof.
  intros Hy. induction x as [| c x IH]; [reflexivity |].
  cbn [append Py.rstrip]. rewrite IH.
  destruct (x ++ Py.rstrip y) as [| c' r'] eqn:E; [| reflexivity].
  destruct x; cbn [append] in E; [contradiction | discriminate].
Qed.

(** A trimmed text stays trimmed when the terminator is appended. *)
Lemma strip_terminated (s : string) :
  Py.strip s = s -> Py.strip (s ++ ";") = s ++ ";".
Proof.
  intros Hs. destruct (strip_fixed s Hs) as [Hl _].
  unfold Py.strip.
  assert (Hlt : Py.lstrip (s ++ ";") = s ++ ";").
  { destruct s as [| c s]; [reflexivity |].
    cbn [append Py.lstrip] in *.
    destruct (Py.is_space c); [| reflexivity].
    pose proof (lstrip_length s). rewrite Hl in H. cbn [String.length] in H. lia. }
  rewrite Hlt. now rewrite rstrip_app_kept.
Qed.

Lemma endswith_char_app (s : string) (c : ascii) :
  Py.endswith_char (s ++ String c "") c = true.
Proof.
  induction s as [| a s IH].
  - cbn. apply Ascii.eqb_refl.
  - cbn [append Py.endswith_char].
    destruct (s ++ String c "") eqn:E; [| assumption].
    destruct s; discriminate.
Qed.

Lemma drop_last_app (s : string) (c : ascii) :
  Py.drop_last (s ++ String c "") = s.
Proof.
  induction s as [| a s IH]; [reflexivity |].
  cbn [append Py.drop_last].
  destruct (s ++ String c "") eqn:E.
  - destruct s; discriminate.
  - now rewrite IH.
Qed.

Lemma rstrip_app_blank (x y : string) :
  Py.rstrip y = "" -> Py.rstrip (x ++ y) = Py.rstrip x.
Proof.
  intros Hy. induction x as [| c x IH]; [assumption |].
  cbn [append Py.rstrip]. now rewrite IH.
Qed.

Lemma rstrip_idempotent (s : string) : Py.rstrip (Py.rstrip s) = Py.rstrip s.
Proof.
  induction s as [| c s IH]; [reflexivity |].
  cbn [Py.rstrip]. destruct (Py.rstrip s) as [| c' r'] eqn:E.
  - destruct (Py.is_space c) eqn:Ec; [reflexivity |].
    cbn [Py.rstrip]. now rewrite Ec.
  - cbn [Py.rstrip]. cbn [Py.rstrip] in IH. now rewrite IH.
Qed.

(** [rstrip] cuts a text behind its last character that is not whitespace. *)
Lemma rstrip_cut (s : string) : exists w, s = Py.rstrip s ++ w.
Proof.
  induction s as [| c s [w IH]]; [now exists "" |].
  cbn [Py.rstrip]. destruct (Py.rstrip s) as [| c' r'] eqn:E.
  - destruct (Py.is_space c).
    + now exists (String c s).
    + exists s. reflexivity.
  - exists w. cbn [append] in *. now rewrite <- IH.
Qed.

Lemma rstrip_visible (a b : string) (c : ascii) :
  Py.is_space c = false -> Py.rstrip (a ++ String c b) <> "".
Proof.
  intros Hc.
  assert (Htail : Py.rstrip (String c b) <> "").
  { cbn [Py.rstrip]. destruct (Py.rstrip b); [rewrite Hc |]; discriminate. }
  rewrite (rstrip_app_kept a _ Htail).
  destruct a; cbn [append]; [assumption | discriminate].
Qed.

(** A part that ends in a visible character survives [rstrip] of the text
    around it. *)
Lemma rstrip_keeps_part (a m c : string) :
  Py.rstrip m = m -> m <> "" ->
  exists c', Py.rstrip (a ++ m ++ c) = a ++ m ++ c'.
Proof.
  intros Hm Hne. destruct (Py.rstrip c) as [| x r] eqn:E.
  - exists "". rewrite append_empty_r.
    assert (Hmc : Py.rstrip (m ++ c) = m) by now rewrite rstrip_app_blank.
    rewrite rstrip_app_kept; rewrite Hmc; [reflexivity | assumption].
  - exists (String x r). rewrite <- E, <- append_assoc.
    rewrite rstrip_app_kept; [now rewrite append_assoc | ].
    rewrite E. discriminate.
Qed.

Lemma prefix_self_app (x b : string) : prefix x (x ++ b) = true.
Proof.
  induction x as [| c x IH]; [now destruct b |].
  cbn [append prefix]. destruct (ascii_dec c c); [assumption | contradiction].
Qed.

Lemma contains_app_r (x a s : string) :
  Py.contains x s = true -> Py.contains x (a ++ s) = true.
Proof.
  intros H. induction a as [| c a IH]; [assumption |].
  cbn [append Py.contains]. rewrite IH. apply orb_true_r.
Qed.

Lemma contains_prefix (x s : string) :
  prefix x s = true -> Py.contains x s = true.
Proof. intros H. destruct s; cbn [Py.contains]; now rewrite H. Qed.

(** A text contains each of its parts. *)
Lemma contains_part (x a b : string) : Py.contains x (a ++ x ++ b) = true.
Proof. apply contains_app_r, contains_prefix, prefix_self_app. Qed.

(** A joined text has each of its lines between what precedes and what
    follows. *)
Lemma join_part (sep line : string) (lines : list string) :
  In line lines -> exists a b, Py.join sep lines = a ++ line ++ b.
Proof.
  unfold Py.join. induction lines as [| l lines IH]; [contradiction |].
  intros [-> | Hin].
  - destruct lines as [| l' lines].
    + exists "", "". cbn [String.concat append]. now rewrite append_empty_r.
    + exists "", (sep ++ String.concat sep (l' :: lines)). reflexivity.
  - destruct (IH Hin) as (a & b & Hab).
    destruct lines as [| l' lines]; [contradiction |].
    exists (l ++ sep ++ a), b.
    change (String.concat sep (l :: l' :: lines))
      with (l ++ sep ++ String.concat sep (l' :: lines)).
    rewrite Hab. now rewrite !append_assoc.
Qed.

End StringFacts.

(** ** The model on concrete inputs *)

Section Examples.

Import Samples.

Example strip_trims_both_ends :
  Py.strip ("  a b " ++ Py.newline) = "a b".
Proof. reflexivity. Qed.

Example upper_of_reply : Py.upper (Py.strip " data_question ") = "DATA_QUESTION".
Proof. reflexivity. Qed.

Example slice_to_negative_bound :
  Py.slice_to [1; 2; 3] (-1) = [1; 2] /\ Py.slice_to [1; 2; 3] 5 = [1; 2; 3].
Proof. split; reflexivity. Qed.

Example classify_hello :
  TriageService.classify_query sample_config (constant_client (Some "DATA_QUESTION"))
    (sample_request "hello") = (Return "GREETING", []).
Proof. reflexivity. Qed.

Example classify_general :
  fst (TriageService.classify_query sample_config
         (constant_client (Some " general_question"))
         (sample_request "what does retention mean?"))
  = Return "GENERAL_QUESTION".
Proof. reflexivity. Qed.

Example clean_fenced_reply :
  AIService._clean_sql_query
    ("```sql" ++ Py.newline ++ "SELECT count(*) FROM daily;" ++ Py.newline ++ "```")
  = "SELECT count(*) FROM daily".
Proof. reflexivity. Qed.

Example clean_drops_one_terminator :
  AIService._clean_sql_query "SELECT 1;;" = "SELECT 1;".
Proof. reflexivity. Qed.

Example ids_only_hint :
  AIService.search_ids_only "list the user IDs" = true
  /\ AIService.search_ids_only "valid rows per day" = false.
Proof. split; reflexivity. Qed.

Example render_sessions :
  AIService._render_schema sessions_catalog
  = Py.join Py.newline
      [ "Table: sessions";
        "  Base Columns:";
        "    - user_id -> user_id (bigint)";
        "  Calculated Metrics:";
        "    - active_users := count(distinct user_id) - users seen" ].
Proof. reflexivity. Qed.

Example preview_mode_result :
  fst (DatabaseManager.execute
         {| presto_host := "presto.local"; presto_port := 8090;
            presto_user := "hadoop"; presto_catalog := "hive";
            presto_schema := "test"; deployment_query := "gpt-4.1";
            deployment_classification := "gpt-4.1";
            deployment_response := "gpt-4.1"; max_tokens_sql := 800;
            max_tokens_response := 500; max_results_display := 5;
            schema_json_path := "data/mapping.json"; execute_queries := false |}
         refusing_driver DatabaseManager.new_handles "DROP TABLE daily" (Some 7%N))
  = Return {| query_id := 7; sql := "DROP TABLE daily"; rows := []; result_columns := [];
              row_count := 0; execution_ms := None; cached := false |}.
Proof. reflexivity. Qed.

Example greeting_is_answered_conversationally :
  Container.process str_row sample_config (constant_client (Some " Hello! "))
    refusing_driver DatabaseManager.new_handles (Return empty_catalog)
    (sample_request "hello")
  = Return "Hello!".
Proof. reflexivity. Qed.

Example schema_missing_falls_back :
  Container.process str_row sample_config (constant_client (Some "DATA_QUESTION"))
    refusing_driver DatabaseManager.new_handles
    (Raise (mk_exn SchemaLoadError "Schema file not found: data/mapping.json"))
    views_question
  = Return QueryProcessor.SCHEMA_FALLBACK.
Proof. reflexivity. Qed.

Example gate_two_callers_one_load :
  option_map SchemaGate.loads
    (SchemaGate.run ready_disk [0; 0; 1]
       (SchemaGate.init [SchemaGate.GetSchema; SchemaGate.GetSchema]))
  = Some 1
  /\ SchemaGate.run ready_disk [0; 1]
       (SchemaGate.init [SchemaGate.GetSchema; SchemaGate.GetSchema])
     = None.
Proof. split; reflexivity. Qed.

End Examples.

(* ================================================================== *)
(** * Properties *)
(* ================================================================== *)

(** ** Classification *)

Section Classification.

Import TriageService Samples.

Lemma is_label_In (label : string) :
  is_label label = true <-> In label LABELS.
Proof.
  unfold is_label. rewrite existsb_exists. split.
  - intros [x [Hin Heq]]. apply String.eqb_eq in Heq. now subst.
  - intros Hin. exists label. split; [assumption | apply String.eqb_refl].
Qed.

Lemma normalise_label_In (content : option string) :
  In (normalise_label content) LABELS.
Proof.
  unfold normalise_label.
  destruct (is_label _) eqn:E.
  - now apply is_label_In.
  - simpl. auto.
Qed.

Lemma normalise_label_empty (content : option string) :
  Py.or_else content "" = "" -> normalise_label content = "DATA_QUESTION".
Proof.
  intros H. unfold normalise_label. rewrite H. reflexivity.
Qed.

(** C7.  Whatever text the remote classifier replies with (the content of
    the first choice, possibly absent), [classify_query] returns a label and
    does not raise: the reply trimmed and upper-cased when that is one of the
    four labels, and DATA_QUESTION otherwise, in particular for an empty or
    absent reply. *)
Theorem classify_query_defaults_to_data_question
    (config : AppConfig) (client : Client) (request : QueryRequest)
    (content : option string) (others : ChatResponse) :
  has_greeting_keyword (Py.lower (user_query request)) = false ->
  client (classification_request config request) = Return (content :: others) ->
  let reply := Py.upper (Py.strip (Py.or_else content "")) in
  exists label,
    fst (classify_query config client request) = Return label
    /\ In label LABELS
    /\ (In reply LABELS -> label = reply)
    /\ (~ In reply LABELS -> label = "DATA_QUESTION")
    /\ (Py.or_else content "" = "" -> label = "DATA_QUESTION").
Proof.
  intros Hkw Hcall reply.
  exists (normalise_label content).
  unfold classify_query. rewrite Hkw, Hcall. cbn [first_content bind fst].
  split; [reflexivity |].
  split; [apply normalise_label_In |].
  unfold normalise_label. fold reply.
  repeat split.
  - intros Hin. apply is_label_In in Hin. now rewrite Hin.
  - intros Hnot. destruct (is_label reply) eqn:E; [| reflexivity].
    apply is_label_In in E. contradiction.
  - intros Hempty. subst reply. rewrite Hempty. reflexivity.
Qed.

Lemma classify_query_defaults_to_data_question_witness :
  exists label,
    fst (classify_query sample_config (constant_client (Some " maybe "))
           (sample_request "total views per platform")) = Return label
    /\ In label LABELS
    /\ (In "MAYBE" LABELS -> label = "MAYBE")
    /\ (~ In "MAYBE" LABELS -> label = "DATA_QUESTION")
    /\ (Py.or_else (Some " maybe ") "" = "" -> label = "DATA_QUESTION").
Proof.
  apply (classify_query_defaults_to_data_question sample_config
           (constant_client (Some " maybe "))
           (sample_request "total views per platform")
           (Some " maybe ") []); reflexivity.
Defined.

(** C10.  The greeting shortcut tests substring containment: the question
    below contains no greeting keyword as a whole word, yet, through the
    letters "hi" inside "which", it is classified GREETING, and no request is
    sent to the remote classifier, whatever that service would answer. *)
Theorem greeting_shortcut_matches_inside_words :
  exists request,
    well_formed request
    /\ AIService.search_words GREETING_KEYWORDS false (user_query request) = false
    /\ Py.contains "hi" (Py.lower (user_query request)) = true
    /\ forall (config : AppConfig) (client : Client),
         classify_query config client request = (Return "GREETING", []).
Proof.
  exists (sample_request "which table has the most rows").
  split; [split; [reflexivity | discriminate] |].
  split; [reflexivity |].
  split; [reflexivity |].
  intros config client. reflexivity.
Qed.

End Classification.

(** ** Exceptions and results *)

Section ExceptionFacts.

Lemma exn_class_eqb_refl (c : exn_class) : exn_class_eqb c c = true.
Proof.
  induction c; cbn [exn_class_eqb]; try reflexivity.
  - apply String.eqb_refl.
  - now rewrite String.eqb_refl.
Qed.

Lemma exn_class_eqb_eq (a b : exn_class) :
  exn_class_eqb a b = true <-> a = b.
Proof.
  split.
  - revert b. induction a; destruct b; cbn [exn_class_eqb]; intros H;
      try reflexivity; try discriminate H.
    + apply String.eqb_eq in H. now subst.
    + apply andb_prop in H. destruct H as [Hname Hbase].
      apply String.eqb_eq in Hname. apply IHa in Hbase. now subst.
  - intros ->. apply exn_class_eqb_refl.
Qed.

Lemma derives_refl (c : exn_class) : derives c c = true.
Proof. destruct c; cbn [derives]; now rewrite exn_class_eqb_refl. Qed.

Lemma issubclass_refl (c : exn_class) : issubclass c c = true.
Proof. apply derives_refl. Qed.

Lemma isinstance_own_class (e : exn) (c : exn_class) :
  exn_cls e = c -> isinstance e c = true.
Proof. intros <-. apply issubclass_refl. Qed.

Lemma derives_from_Exception (a c : exn_class) :
  derives a c = true -> derives_Exception c = true ->
  derives_Exception a = true.
Proof.
  intros Hsub Hc. induction a; try reflexivity; cbn [derives] in Hsub;
    apply orb_true_iff in Hsub; destruct Hsub as [Heq | Hsub];
    try discriminate Hsub.
  - apply exn_class_eqb_eq in Heq. now subst c.
  - apply exn_class_eqb_eq in Heq. now subst c.
  - cbn [derives_Exception]. now apply IHa.
Qed.

(** A subclass of a class that derives from [Exception] derives from it. *)
Lemma issubclass_Exception (a c : exn_class) :
  issubclass a c = true -> is_Exception_class c = true ->
  is_Exception_class a = true.
Proof. apply derives_from_Exception. Qed.

Lemma isinstance_is_Exception (e : exn) (c : exn_class) :
  isinstance e c = true -> is_Exception_class c = true -> is_Exception e = true.
Proof. apply issubclass_Exception. Qed.

(** What is no [Exception] is an instance of none of the classes that the
    [except] clauses of the sources name. *)
Lemma not_Exception_isinstance (e : exn) (c : exn_class) :
  is_Exception e = false -> is_Exception_class c = true ->
  isinstance e c = false.
Proof.
  intros Hbase Hc. destruct (isinstance e c) eqn:E; [| reflexivity].
  rewrite (isinstance_is_Exception e c E Hc) in Hbase. discriminate Hbase.
Qed.

(** The three [except] clauses of [_execute_sync] do the same, and the two
    driver errors are instances of [Exception]: together they are one
    [except Exception] clause. *)
Lemma except_clauses_Exception {A : Type} (exc : exn) (caught passed : A) :
  (if isinstance exc PrestoUserError then caught
   else if isinstance exc PrestoQueryError then caught
   else if is_Exception exc then caught else passed)
  = if is_Exception exc then caught else passed.
Proof.
  destruct (isinstance exc PrestoUserError) eqn:Euser.
  - now rewrite (isinstance_is_Exception exc _ Euser eq_refl).
  - destruct (isinstance exc PrestoQueryError) eqn:Equery; [| reflexivity].
    now rewrite (isinstance_is_Exception exc _ Equery eq_refl).
Qed.

End ExceptionFacts.

(** ** QueryResult *)

Section QueryResultFacts.

(** C9 (as the code has it).  The [row_count] of a constructed [QueryResult]
    is the supplied value when one is supplied and is not zero; when none is
    supplied, or zero is supplied, it is [len(rows)]. *)
Theorem row_count_defaults_to_len_rows
    (query_id : N) (sql : string) (rows : option (list Row))
    (columns : option (list string)) (supplied : option Z)
    (execution_ms : option Z) (cached : option bool) :
  let result :=
    QueryResult_init query_id sql rows columns supplied execution_ms cached in
  row_count result =
    match supplied with
    | Some n => if (n =? 0)%Z then Z.of_nat (List.length (Models.rows result)) else n
    | None => Z.of_nat (List.length (Models.rows result))
    end.
Proof.
  cbv zeta. unfold QueryResult_init, _default_row_count. cbn [row_count Models.rows].
  destruct supplied as [n |]; reflexivity.
Qed.

(** C9, the claim as stated, fails: a row count of 0 supplied together with
    one row is not kept. *)
Lemma row_count_zero_not_kept :
  row_count (QueryResult_init 7 "SELECT 1" (Some [[("n", VInt 1)]]) (Some ["n"])
               (Some 0%Z) None None) = 1%Z
  /\ row_count (QueryResult_init 7 "SELECT 1" (Some [[("n", VInt 1)]]) (Some ["n"])
                  (Some 0%Z) None None) <> 0%Z.
Proof. split; [reflexivity | discriminate]. Qed.

End QueryResultFacts.

(** ** DatabaseManager.execute *)

(** Splits the [except] clauses of [_execute_sync] for the exception [e]. *)
Ltac except_clauses e :=
  destruct (isinstance e PrestoUserError);
  [| destruct (isinstance e PrestoQueryError);
     [| let E := fresh "Hexception" in destruct (is_Exception e) eqn:E]].

Section ExecuteFacts.

Import DatabaseManager.

Lemma _execute_sync_raises (config : AppConfig) (driver : Driver)
    (self : Handles) (sql : string) (qid : option N) (exc : exn) :
  fst (_execute_sync config driver self sql qid) = Raise exc ->
  exn_cls exc = QueryExecutionError \/ is_Exception exc = false.
Proof.
  unfold _execute_sync.
  destruct (_execute_body _ _ _ _ _) as [[result | e] self'].
  - discriminate.
  - except_clauses e; cbn [fst]; intros H; injection H as <-;
      [left | left | left | right]; (reflexivity || assumption).
Qed.

(** An exception that leaves [execute] is a [QueryExecutionError], unless
    it is no [Exception] at all. *)
Lemma execute_raises_only_QueryExecutionError (config : AppConfig)
    (driver : Driver) (self : Handles) (sql : string) (qid : option N)
    (exc : exn) :
  fst (execute config driver self sql qid) = Raise exc ->
  exn_cls exc = QueryExecutionError \/ is_Exception exc = false.
Proof.
  unfold execute. destruct (negb (execute_queries config)).
  - discriminate.
  - apply _execute_sync_raises.
Qed.

Lemma _ensure_connection_connect_fails (config : AppConfig) (driver : Driver)
    (self : Handles) (exc : exn) :
  _connection self = None \/ _cursor self = None ->
  connect driver config = Raise exc ->
  _ensure_connection config driver self
  = (Raise (if is_Exception exc
            then mk_exn DatabaseConnectionError (exn_msg exc)
            else exc), self).
Proof.
  intros Hnone Hconnect. unfold _ensure_connection. rewrite Hconnect.
  destruct Hnone as [-> | ->]; [now destruct (is_Exception exc) |].
  destruct (_connection self); now destruct (is_Exception exc).
Qed.

(** C2 (what the code does).  With execution enabled and no connection
    open, when [connect] fails with an [Exception], [_ensure_connection]
    raises [DatabaseConnectionError], but the call sits inside the [try]
    block of [_execute_sync], whose last clause catches it: [execute] raises
    [QueryExecutionError] with the same message.  What is no [Exception]
    passes through both as it is. *)
Theorem execute_connection_failure_raises_QueryExecutionError
    (config : AppConfig) (driver : Driver) (self : Handles) (sql : string)
    (qid : option N) (exc : exn) :
  execute_queries config = true ->
  _connection self = None \/ _cursor self = None ->
  connect driver config = Raise exc ->
  fst (_ensure_connection config driver self)
  = Raise (if is_Exception exc
           then mk_exn DatabaseConnectionError (exn_msg exc)
           else exc)
  /\ fst (execute config driver self sql qid)
     = Raise (if is_Exception exc
              then mk_exn QueryExecutionError (exn_msg exc)
              else exc).
Proof.
  intros Hexec Hnone Hconnect.
  pose proof (_ensure_connection_connect_fails config driver self exc
                Hnone Hconnect) as Hensure.
  split; [now rewrite Hensure |].
  unfold execute. rewrite Hexec. cbn [negb].
  unfold _execute_sync, _execute_body. rewrite Hensure.
  rewrite except_clauses_Exception.
  destruct (is_Exception exc) eqn:Hexception; cbn [is_Exception exn_cls fst].
  - reflexivity.
  - now rewrite Hexception.
Qed.

Lemma execute_connection_failure_raises_QueryExecutionError_witness :
  fst (_ensure_connection Samples.sample_config Samples.refusing_driver new_handles)
  = Raise (mk_exn DatabaseConnectionError "connection refused")
  /\ fst (execute Samples.sample_config Samples.refusing_driver new_handles
            "SELECT 1" (Some 7%N))
     = Raise (mk_exn QueryExecutionError "connection refused").
Proof.
  apply (execute_connection_failure_raises_QueryExecutionError
           Samples.sample_config Samples.refusing_driver new_handles "SELECT 1"
           (Some 7%N) (mk_exn (OtherException "ConnectionError") "connection refused")).
  - reflexivity.
  - left. reflexivity.
  - reflexivity.
Defined.

(** The engine's own errors and any other fault of the driver that is an
    [Exception] come out as [QueryExecutionError] as well. *)
Lemma execute_engine_failure (config : AppConfig) (driver : Driver)
    (self : Handles) (sql : string) (qid : option N) (cur : N) (exc : exn) :
  execute_queries config = true ->
  fst (_ensure_connection config driver self) = Return tt ->
  _cursor (snd (_ensure_connection config driver self)) = Some cur ->
  cursor_execute driver cur sql = Raise exc ->
  is_Exception exc = true ->
  fst (execute config driver self sql qid)
  = Raise (mk_exn QueryExecutionError (exn_msg exc)).
Proof.
  intros Hexec Hok Hcur Hrun Hexception.
  unfold execute. rewrite Hexec. cbn [negb].
  unfold _execute_sync, _execute_body.
  destruct (_ensure_connection config driver self) as [[[] | e] self'];
    cbn [fst snd] in *; [| discriminate].
  rewrite Hcur, Hrun. cbn [bind fst]. rewrite Hexception.
  destruct (isinstance exc PrestoUserError);
    [| destruct (isinstance exc PrestoQueryError)]; reflexivity.
Qed.

(** A result of [execute] counts its own rows and carries the SQL it ran. *)
Lemma execute_row_count (config : AppConfig) (driver : Driver)
    (self : Handles) (sql : string) (qid : option N) (result : QueryResult) :
  fst (execute config driver self sql qid) = Return result ->
  row_count result = Z.of_nat (List.length (rows result))
  /\ Models.sql result = sql.
Proof.
  unfold execute. destruct (negb (execute_queries config)).
  - cbn [fst]. intros H. injection H as <-. split; reflexivity.
  - unfold _execute_sync, _execute_body.
    destruct (_ensure_connection config driver self) as [[[] | e] self'].
    + destruct (_cursor self') as [cur |].
      * destruct (cursor_execute driver cur sql) as [executed | e]; cbn [bind].
        -- destruct (cursor_description executed) as [columns |].
           ++ destruct (fetchall executed) as [fetched | e]; cbn [bind fst].
              ** intros H. injection H as <-.
                 unfold QueryResult_init, _default_row_count.
                 cbn [row_count rows Models.sql]. split; [| reflexivity].
                 destruct (Z.eqb_spec (Z.of_nat (List.length (map (row_dict columns) fetched))) 0);
                   congruence.
              ** except_clauses e; discriminate.
           ++ cbn [fst]. intros H. injection H as <-. split; reflexivity.
        -- cbn [fst]. except_clauses e; discriminate.
      * cbn [fst]. discriminate.
    + cbn [fst]. except_clauses e; discriminate.
Qed.

End ExecuteFacts.

(** ** QueryProcessor *)

Section ProcessorFacts.

Import Interfaces QueryProcessor.

Variable str_row : Row -> string.

Lemma _handle_general_question_returns (ai : AIServiceProtocol)
    (request : QueryRequest) :
  (forall exc, answer_general_question ai request = Raise exc ->
               isinstance exc QueryGenerationError = true) ->
  returns (_handle_general_question ai request).
Proof.
  intros Htyped. unfold _handle_general_question, returns.
  destruct (answer_general_question ai request) as [text | exc] eqn:E.
  - now exists text.
  - rewrite (Htyped exc eq_refl). now exists GENERAL_FALLBACK.
Qed.

(** What the data path answers when the schema stage raises an [Exception]
    that is no [AttributeError]. *)
Lemma _handle_data_question_schema_failure (ai : AIServiceProtocol)
    (db : DatabaseExecutorProtocol) (config : AppConfig)
    (request : QueryRequest) (exc : exn) :
  get_schema db = Raise exc ->
  isinstance exc AttributeError = false ->
  is_Exception exc = true ->
  _handle_data_question str_row ai db config request
  = Return (if isinstance exc SchemaLoadError
            then SCHEMA_FALLBACK else SCHEMA_UNEXPECTED).
Proof.
  intros Hschema Hattr Hexception. unfold _handle_data_question.
  rewrite Hschema, Hattr, Hexception.
  now destruct (isinstance exc SchemaLoadError).
Qed.

(** What the data path answers when the execution stage raises an
    [Exception]. *)
Lemma _handle_data_question_execution_failure (ai : AIServiceProtocol)
    (db : DatabaseExecutorProtocol) (config : AppConfig)
    (request : QueryRequest) (schema : SchemaCatalog) (sql : string)
    (exc : exn) :
  get_schema db = Return schema ->
  generate_sql_query ai request schema = Return sql ->
  execute db sql (user_query request) (id request) = Raise exc ->
  is_Exception exc = true ->
  _handle_data_question str_row ai db config request
  = Return (if isinstance exc QueryExecutionError then EXECUTION_FALLBACK sql
            else if isinstance exc DatabaseConnectionError
                 then CONNECTION_FALLBACK
                 else EXECUTION_UNEXPECTED sql).
Proof.
  intros Hschema Hsql Hexec Hexception. unfold _handle_data_question.
  rewrite Hschema, Hsql, Hexec, Hexception.
  destruct (isinstance exc QueryExecutionError);
    [| destruct (isinstance exc DatabaseConnectionError)]; reflexivity.
Qed.

(** What is no [Exception] leaves the data path as it is, from the schema
    stage and from the execution stage. *)
Lemma _handle_data_question_passes_base_exceptions (ai : AIServiceProtocol)
    (db : DatabaseExecutorProtocol) (config : AppConfig)
    (request : QueryRequest) (exc : exn) :
  is_Exception exc = false ->
  (get_schema db = Raise exc ->
   _handle_data_question str_row ai db config request = Raise exc)
  /\ (forall schema sql,
        get_schema db = Return schema ->
        generate_sql_query ai request schema = Return sql ->
        execute db sql (user_query request) (id request) = Raise exc ->
        _handle_data_question str_row ai db config request = Raise exc).
Proof.
  intros Hbase. unfold _handle_data_question. split.
  - intros ->.
    rewrite (not_Exception_isinstance exc AttributeError Hbase eq_refl),
      (not_Exception_isinstance exc SchemaLoadError Hbase eq_refl).
    now rewrite Hbase.
  - intros schema sql -> -> ->.
    rewrite (not_Exception_isinstance exc QueryExecutionError Hbase eq_refl),
      (not_Exception_isinstance exc DatabaseConnectionError Hbase eq_refl).
    now rewrite Hbase.
Qed.

Lemma _handle_data_question_returns (ai : AIServiceProtocol)
    (db : DatabaseExecutorProtocol) (config : AppConfig)
    (request : QueryRequest) :
  (forall schema exc, generate_sql_query ai request schema = Raise exc ->
                      isinstance exc QueryGenerationError = true) ->
  (forall exc, get_schema db = Raise exc ->
               isinstance exc AttributeError = false
               /\ is_Exception exc = true) ->
  (forall sql exc,
     execute db sql (user_query request) (id request) = Raise exc ->
     is_Exception exc = true) ->
  returns (_handle_data_question str_row ai db config request).
Proof.
  intros Hgen Hattr Hrun. unfold returns.
  destruct (get_schema db) as [schema | exc] eqn:Eschema.
  - destruct (generate_sql_query ai request schema) as [sql | exc] eqn:Esql.
    + destruct (execute db sql (user_query request) (id request))
        as [result | exc] eqn:Eexec.
      * unfold _handle_data_question. rewrite Eschema, Esql, Eexec. eauto.
      * erewrite _handle_data_question_execution_failure; eauto.
    + unfold _handle_data_question. rewrite Eschema, Esql.
      rewrite (Hgen schema exc Esql). eauto.
  - destruct (Hattr exc eq_refl) as [Hno Hexception].
    erewrite _handle_data_question_schema_failure; eauto.
Qed.

(** C1 (as the code has it).  [process] returns a text whenever the
    classification stage raises nothing but [ClassificationError], the
    conversational and the generation stage raise nothing but
    [QueryGenerationError], the schema stage raises nothing but instances of
    [Exception] that are no [AttributeError], and the execution stage
    raises nothing but instances of [Exception].  On the data path such an
    exception of the schema stage or of the execution stage is caught, and
    an unexpected one gets a text of its own, not the text of the stage's
    typed error. *)
Theorem process_returns_when_stage_errors_are_typed
    (ai : AIServiceProtocol) (triage : TriageServiceProtocol)
    (db : DatabaseExecutorProtocol) (config : AppConfig)
    (request : QueryRequest) :
  (forall exc, classify_query triage request = Raise exc ->
               isinstance exc ClassificationError = true) ->
  (forall exc, answer_general_question ai request = Raise exc ->
               isinstance exc QueryGenerationError = true) ->
  (forall schema exc, generate_sql_query ai request schema = Raise exc ->
                      isinstance exc QueryGenerationError = true) ->
  (forall exc, get_schema db = Raise exc ->
               isinstance exc AttributeError = false
               /\ is_Exception exc = true) ->
  (forall sql exc,
     execute db sql (user_query request) (id request) = Raise exc ->
     is_Exception exc = true) ->
  returns (process str_row ai triage db config request)
  /\ (forall category,
        classify_query triage request = Return category ->
        category <> "OUT_OF_SCOPE" -> category <> "GREETING" ->
        category <> "GENERAL_QUESTION" ->
      (forall exc, get_schema db = Raise exc ->
         process str_row ai triage db config request
         = Return (if isinstance exc SchemaLoadError
                   then SCHEMA_FALLBACK else SCHEMA_UNEXPECTED))
      /\ (forall schema sql exc,
            get_schema db = Return schema ->
            generate_sql_query ai request schema = Return sql ->
            execute db sql (user_query request) (id request) = Raise exc ->
            process str_row ai triage db config request
            = Return (if isinstance exc QueryExecutionError
                      then EXECUTION_FALLBACK sql
                      else if isinstance exc DatabaseConnectionError
                           then CONNECTION_FALLBACK
                           else EXECUTION_UNEXPECTED sql)))
  /\ SCHEMA_UNEXPECTED <> SCHEMA_FALLBACK
  /\ (forall sql, EXECUTION_UNEXPECTED sql <> EXECUTION_FALLBACK sql).
Proof.
  intros Hclass Hgeneral Hgen Hattr Hrun.
  split; [| split; [| split]].
  - unfold process.
    destruct (classify_query triage request) as [category | exc] eqn:E.
    + destruct (category =? "OUT_OF_SCOPE"); [now exists OUT_OF_SCOPE_TEXT |].
      destruct ((category =? "GREETING") || (category =? "GENERAL_QUESTION")).
      * now apply _handle_general_question_returns.
      * destruct (category =? "DATA_QUESTION");
          now apply _handle_data_question_returns.
    + rewrite (Hclass exc eq_refl). now exists CLASSIFY_FALLBACK.
  - intros category Hdata Hscope Hgreeting Hquestion.
    assert (Hpath : process str_row ai triage db config request
                    = _handle_data_question str_row ai db config request).
    { unfold process. rewrite Hdata.
      apply String.eqb_neq in Hscope, Hgreeting, Hquestion.
      rewrite Hscope, Hgreeting, Hquestion. cbn [orb].
      now destruct (category =? "DATA_QUESTION"). }
    rewrite Hpath. split.
    + intros exc Hschema. destruct (Hattr exc Hschema) as [Hno Hexception].
      now apply _handle_data_question_schema_failure.
    + intros schema sql exc Hschema Hsql Hexec.
      apply _handle_data_question_execution_failure with (schema := schema);
        try assumption.
      now apply (Hrun sql).
  - discriminate.
  - intros sql H. unfold EXECUTION_UNEXPECTED, EXECUTION_FALLBACK in H.
    induction (sql_heading sql) as [| c s IH]; simpl in H.
    + discriminate.
    + injection H as H. auto.
Qed.

End ProcessorFacts.

Lemma process_returns_when_stage_errors_are_typed_witness :
  Container.process Samples.str_row Samples.sample_config
    (Samples.constant_client (Some "SELECT platform FROM daily;"))
    (Samples.answering_driver Samples.seven_rows) DatabaseManager.new_handles
    (Raise (mk_exn (OtherException "PermissionError") "permission denied"))
    Samples.views_question
  = Return QueryProcessor.SCHEMA_UNEXPECTED.
Proof.
  unfold Container.process.
  refine (proj1 (proj1 (proj2
    (process_returns_when_stage_errors_are_typed Samples.str_row
       (Container.ai_service Samples.sample_config
          (Samples.constant_client (Some "SELECT platform FROM daily;")))
       (Container.triage_service Samples.sample_config
          (Samples.constant_client (Some "SELECT platform FROM daily;")))
       (Container.database Samples.sample_config
          (Samples.answering_driver Samples.seven_rows)
          DatabaseManager.new_handles
          (Raise (mk_exn (OtherException "PermissionError") "permission denied")))
       Samples.sample_config Samples.views_question _ _ _ _ _))
       "DATA_QUESTION" _ _ _ _) _ eq_refl).
  - intros exc H. vm_compute in H. discriminate H.
  - intros exc H. vm_compute in H. discriminate H.
  - intros schema exc H. cbn in H. discriminate H.
  - intros exc H. cbn in H. injection H as <-. split; reflexivity.
  - intros sql exc H. cbn in H. discriminate H.
  - reflexivity.
  - discriminate.
  - discriminate.
  - discriminate.
Defined.

(** C1, the claim as stated, fails.  With the services of the container: a
    reply without content makes the generation stage raise [AttributeError],
    and a reply without choices makes the classification stage raise
    [IndexError]; [process] lets both through.  An unexpected exception of
    the schema stage is caught, but its text is not the text that
    [SchemaLoadError] gets.  An [AttributeError] of the schema stage, or an
    instance of a subclass of it, comes out of [process] as a
    [QueryGenerationError], and what is no [Exception] comes out as it
    is. *)
Lemma process_propagates_unexpected_exceptions :
  well_formed Samples.views_question
  /\ Container.process Samples.str_row Samples.sample_config
       (Samples.constant_client None)
       (Samples.answering_driver Samples.seven_rows) DatabaseManager.new_handles
       (Return Samples.empty_catalog) Samples.views_question
     = Raise (mk_exn AttributeError "'NoneType' object has no attribute 'strip'")
  /\ Container.process Samples.str_row Samples.sample_config
       (fun _ => Return [])
       (Samples.answering_driver Samples.seven_rows) DatabaseManager.new_handles
       (Return Samples.empty_catalog) Samples.views_question
     = Raise (mk_exn IndexError "list index out of range")
  /\ Container.process Samples.str_row Samples.sample_config
       (Samples.constant_client (Some "SELECT platform FROM daily;"))
       (Samples.answering_driver Samples.seven_rows) DatabaseManager.new_handles
       (Raise (mk_exn (OtherException "PermissionError") "permission denied"))
       Samples.views_question
     <> Container.process Samples.str_row Samples.sample_config
          (Samples.constant_client (Some "SELECT platform FROM daily;"))
          (Samples.answering_driver Samples.seven_rows) DatabaseManager.new_handles
          (Raise (mk_exn SchemaLoadError "Schema file not found: data/mapping.json"))
          Samples.views_question
  /\ Container.process Samples.str_row Samples.sample_config
       (Samples.constant_client (Some "SELECT platform FROM daily;"))
       (Samples.answering_driver Samples.seven_rows) DatabaseManager.new_handles
       (Raise (mk_exn (OtherException "FrozenInstanceError")
                 "cannot assign to field 'tables'"))
       Samples.views_question
     = Raise (mk_exn QueryGenerationError
                "Database manager does not expose schema retrieval.")
  /\ Container.process Samples.str_row Samples.sample_config
       (Samples.constant_client (Some "SELECT platform FROM daily;"))
       (Samples.answering_driver Samples.seven_rows) DatabaseManager.new_handles
       (Raise (mk_exn (OtherException "CancelledError") ""))
       Samples.views_question
     = Raise (mk_exn (OtherException "CancelledError") "").
Proof.
  split; [split; [reflexivity | discriminate] |].
  split; [reflexivity |].
  split; [reflexivity |].
  split; [vm_compute; discriminate |].
  split; reflexivity.
Qed.

(** ** Response formatting *)

Section FormatFacts.

Import QueryProcessor.

Variable str_row : Row -> string.

Lemma numbered_nth (preview_rows : list Row) :
  forall (idx : Z) (k : nat) (row : Row),
    nth_error preview_rows k = Some row ->
    nth_error (numbered str_row idx preview_rows) k
    = Some (Py.str_int (idx + Z.of_nat k) ++ ". " ++ str_row row).
Proof.
  induction preview_rows as [| r rest IH]; intros idx k row Hk.
  - destruct k; discriminate.
  - destruct k as [| k]; cbn [numbered nth_error] in *.
    + injection Hk as ->. now rewrite Z.add_0_r.
    + rewrite (IH (idx + 1)%Z k row Hk).
      do 3 f_equal. lia.
Qed.

Lemma numbered_length (preview_rows : list Row) (idx : Z) :
  List.length (numbered str_row idx preview_rows) = List.length preview_rows.
Proof.
  revert idx. induction preview_rows as [| r rest IH]; intros idx; simpl; auto.
Qed.

Lemma slice_to_nonneg {A : Type} (xs : list A) (n : Z) :
  (0 <= n)%Z -> Py.slice_to xs n = firstn (Z.to_nat n) xs.
Proof.
  intros Hn. unfold Py.slice_to.
  destruct (Z.leb_spec 0 n); [reflexivity | lia].
Qed.

(** With [row_count = len(rows)] the rows left out of the preview are those
    beyond the display limit. *)
Lemma remaining_rows (n : nat) (limit : Z) :
  (0 <= limit)%Z ->
  let remaining := (Z.of_nat n - Z.of_nat (Nat.min (Z.to_nat limit) n))%Z in
  (0 <? remaining)%Z = (limit <? Z.of_nat n)%Z
  /\ ((limit < Z.of_nat n)%Z -> remaining = (Z.of_nat n - limit)%Z).
Proof.
  intros Hlimit remaining. subst remaining. split.
  - destruct (Z.ltb_spec limit (Z.of_nat n)); destruct (Z.ltb_spec 0 (Z.of_nat n - Z.of_nat (Nat.min (Z.to_nat limit) n))); lia.
  - intros Hlt. lia.
Qed.

(** C8 (as the code has it).  For a result that [DatabaseManager.execute]
    returned, and a display limit that is not negative: without rows the
    response is the heading, the SQL and the no-results sentence, and no row
    list; with rows it is the heading, the SQL, the count line, the first
    rows up to the limit, numbered from 1 upwards, and, exactly when
    [row_count] exceeds the limit, a last line that tells how many rows are
    left. *)
Theorem format_success_response_preview
    (config : AppConfig) (driver : DatabaseManager.Driver)
    (self : DatabaseManager.Handles) (sql : string) (qid : option N)
    (result : QueryResult) :
  fst (DatabaseManager.execute config driver self sql qid) = Return result ->
  (0 <= max_results_display config)%Z ->
  let limit := max_results_display config in
  let response := _format_success_response str_row config sql result in
  let shown := firstn (Z.to_nat limit) (rows result) in
  (rows result = [] ->
   response
   = "Generated SQL Query:" ++ Py.newline ++ Py.newline ++ sql
     ++ Py.newline ++ Py.newline ++ "No results were returned.")
  /\ (rows result <> [] ->
      response
      = Py.join Py.newline
          ([ "Generated SQL Query:"; ""; sql; "";
             ("Results (" ++ Py.str_int (row_count result) ++ " row"
              ++ (if (row_count result =? 1)%Z then "" else "s")
              ++ "):")%string;
             "" ]
           ++ numbered str_row 1 shown
           ++ (if (limit <? row_count result)%Z
               then [ "";
                      ("... and " ++ Py.str_int (row_count result - limit)
                       ++ " more row(s).")%string ]
               else []))%list)
  /\ (Z.of_nat (List.length (numbered str_row 1 shown)) <= limit)%Z
  /\ List.length (numbered str_row 1 shown) = List.length shown
  /\ (forall k row,
        nth_error shown k = Some row ->
        nth_error (numbered str_row 1 shown) k
        = Some (Py.str_int (1 + Z.of_nat k) ++ ". " ++ str_row row)).
Proof.
  intros Hexec Hlimit limit response shown.
  destruct (execute_row_count _ _ _ _ _ _ Hexec) as [Hcount _].
  split; [| split; [| split; [| split]]].
  - intros Hrows. subst response. unfold _format_success_response, sql_heading.
    rewrite Hrows. now rewrite !append_assoc.
  - intros Hrows. subst response.
    assert (Hlines : _format_success_response str_row config sql result
                     = Py.join Py.newline (output_lines str_row config sql result)).
    { unfold _format_success_response.
      destruct (rows result); [contradiction | reflexivity]. }
    rewrite Hlines. unfold output_lines, results_line, more_rows_line.
    rewrite (slice_to_nonneg _ _ Hlimit). fold limit. fold shown.
    assert (Hlen : List.length shown = Nat.min (Z.to_nat limit) (List.length (rows result)))
      by (subst shown; apply length_firstn).
    rewrite Hlen, Hcount.
    destruct (remaining_rows (List.length (rows result)) limit Hlimit) as [Hiff Hval].
    rewrite Hiff.
    destruct (Z.ltb_spec limit (Z.of_nat (List.length (rows result)))) as [Hlt | Hge].
    + now rewrite (Hval Hlt).
    + reflexivity.
  - rewrite numbered_length. subst shown. rewrite length_firstn. lia.
  - apply numbered_length.
  - intros k row Hk. now apply numbered_nth.
Qed.

End FormatFacts.

Lemma format_success_response_preview_witness :
  (exists result,
     fst (DatabaseManager.execute Samples.sample_config
            (Samples.answering_driver Samples.seven_rows)
            DatabaseManager.new_handles "SELECT platform, views FROM daily"
            (Some 7%N)) = Return result
     /\ QueryProcessor._format_success_response Samples.str_row
          Samples.sample_config "SELECT platform, views FROM daily" result
        = Py.join Py.newline
            [ "Generated SQL Query:"; ""; "SELECT platform, views FROM daily"; "";
              "Results (7 rows):"; "";
              "1. {'platform': 1, 'views': 10}";
              "2. {'platform': 2, 'views': 20}";
              "3. {'platform': 3, 'views': 30}";
              "4. {'platform': 4, 'views': 40}";
              "5. {'platform': 5, 'views': 50}";
              "";
              "... and 2 more row(s)." ])
  /\ (exists result,
        fst (DatabaseManager.execute Samples.sample_config
               (Samples.answering_driver [])
               DatabaseManager.new_handles "SELECT platform, views FROM daily"
               (Some 7%N)) = Return result
        /\ QueryProcessor._format_success_response Samples.str_row
             Samples.sample_config "SELECT platform, views FROM daily" result
           = "Generated SQL Query:" ++ Py.newline ++ Py.newline
             ++ "SELECT platform, views FROM daily" ++ Py.newline ++ Py.newline
             ++ "No results were returned.").
Proof.
  split.
  - eexists. split; [reflexivity |].
    destruct (format_success_response_preview Samples.str_row
                Samples.sample_config
                (Samples.answering_driver Samples.seven_rows)
                DatabaseManager.new_handles "SELECT platform, views FROM daily"
                (Some 7%N) _ eq_refl) as (_ & Hrows & _).
    + vm_compute. discriminate.
    + rewrite Hrows; [reflexivity | discriminate].
  - eexists. split; [reflexivity |].
    destruct (format_success_response_preview Samples.str_row
                Samples.sample_config
                (Samples.answering_driver [])
                DatabaseManager.new_handles "SELECT platform, views FROM daily"
                (Some 7%N) _ eq_refl) as (Hnone & _).
    + vm_compute. discriminate.
    + now apply Hnone.
Defined.

(** C8, the claim as stated, fails for a display limit below zero, which
    the settings do not exclude: Python's slice [rows[:-1]] leaves out the
    last row only.  With a limit of [-1] a result of three rows is shown with
    two of them, more than the configured maximum. *)
Lemma format_success_response_negative_limit :
  max_results_display MoreSamples.negative_limit_config = (-1)%Z
  /\ exists result,
       fst (DatabaseManager.execute MoreSamples.negative_limit_config
              (Samples.answering_driver MoreSamples.three_rows)
              DatabaseManager.new_handles "SELECT platform, views FROM daily"
              (Some 7%N)) = Return result
       /\ QueryProcessor._format_success_response Samples.str_row
            MoreSamples.negative_limit_config
            "SELECT platform, views FROM daily" result
          = Py.join Py.newline
              [ "Generated SQL Query:"; ""; "SELECT platform, views FROM daily";
                ""; "Results (3 rows):"; "";
                "1. {'platform': 1, 'views': 10}";
                "2. {'platform': 2, 'views': 20}";
                "";
                "... and 1 more row(s)." ]
       /\ ~ (Z.of_nat (List.length
               (Py.slice_to (rows result)
                  (max_results_display MoreSamples.negative_limit_config)))
             <= max_results_display MoreSamples.negative_limit_config)%Z.
Proof.
  split; [reflexivity |].
  eexists. split; [reflexivity |]. split; [reflexivity |].
  vm_compute. intros H. now apply H.
Qed.

(** ** Schema rendering *)

Section RenderFacts.

Import AIService.

Lemma _format_column_calculated (column : SchemaColumn) (f : string) :
  formula column = Some f -> f <> "" ->
  _format_column column
  = label column ++ " := " ++ f ++ description_part column.
Proof.
  intros Hf Hne. unfold _format_column, is_calculated, Py.truthy, Py.or_else.
  rewrite Hf. destruct (String.eqb_spec f ""); [contradiction | reflexivity].
Qed.

Lemma _format_column_base (column : SchemaColumn) :
  formula column = None \/ formula column = Some "" ->
  _format_column column
  = label column ++ " -> " ++ col_name column
    ++ " (" ++ col_type column ++ ")" ++ description_part column.
Proof.
  intros [Hf | Hf]; unfold _format_column, is_calculated, Py.truthy;
    rewrite Hf; reflexivity.
Qed.

(** The loop over the columns keeps the order of the columns inside each of
    its two lists. *)
Lemma sort_columns_filter (cols : list SchemaColumn) :
  forall base_columns metrics,
    fold_left sort_column cols (base_columns, metrics)
    = ((base_columns
        ++ map _format_column (filter (fun c => negb (is_calculated c)) cols))%list,
       (metrics ++ map _format_column (filter is_calculated cols))%list).
Proof.
  induction cols as [| c cols IH]; intros base_columns metrics.
  - cbn. now rewrite !app_nil_r.
  - cbn [fold_left filter]. unfold sort_column at 2.
    destruct (is_calculated c); cbn [negb]; rewrite IH; cbn [map];
      now rewrite <- app_assoc.
Qed.

Lemma render_table_block (lines : list string) (item : string * SchemaTable) :
  render_table lines item = (lines ++ Rendering.table_block item)%list.
Proof.
  destruct item as [name table]. unfold render_table, Rendering.table_block.
  rewrite sort_columns_filter. cbn [app]. reflexivity.
Qed.

(** The rendered lines are the blocks of the tables, in the order of the
    catalog. *)
Lemma _render_schema_lines_blocks (schema : SchemaCatalog) :
  _render_schema_lines schema
  = List.concat (map Rendering.table_block (tables schema)).
Proof.
  unfold _render_schema_lines.
  enough (H : forall items lines,
             fold_left render_table items lines
             = (lines ++ List.concat (map Rendering.table_block items))%list)
    by apply (H (tables schema) []).
  induction items as [| item items IH]; intros lines.
  - cbn. now rewrite app_nil_r.
  - cbn [fold_left map List.concat]. rewrite IH, render_table_block.
    now rewrite <- app_assoc.
Qed.

Lemma group_lines_In (heading entry : string) (entries : list string) :
  In entry entries -> In (bullet entry) (Rendering.group_lines heading entries).
Proof.
  intros Hin. unfold Rendering.group_lines.
  destruct entries as [| e entries]; [contradiction |].
  right. now apply in_map.
Qed.

(** Every column has its item among the rendered lines. *)
Lemma column_line_rendered (schema : SchemaCatalog) (name : string)
    (table : SchemaTable) (column : SchemaColumn) :
  In (name, table) (tables schema) ->
  In column (columns table) ->
  In (bullet (_format_column column)) (_render_schema_lines schema).
Proof.
  intros Htable Hcolumn.
  rewrite _render_schema_lines_blocks. apply in_concat.
  exists (Rendering.table_block (name, table)).
  split; [now apply in_map |].
  unfold Rendering.table_block. cbn [In app]. right.
  apply in_or_app.
  destruct (is_calculated column) eqn:E.
  - right. apply in_or_app. left.
    apply group_lines_In, in_map, filter_In. now split.
  - left. apply group_lines_In, in_map, filter_In. split; [assumption |].
    now rewrite E.
Qed.

(** An item always shows a character that is not whitespace. *)
Lemma _format_column_visible (column : SchemaColumn) :
  Py.rstrip (_format_column column) <> "".
Proof.
  unfold _format_column.
  destruct (is_calculated column && Py.truthy (formula column)).
  - replace (label column ++ " := " ++ Py.or_else (formula column) ""
             ++ description_part column)
      with ((label column ++ " ")
            ++ String ":" ("= " ++ Py.or_else (formula column) ""
                           ++ description_part column))
      by now rewrite append_assoc.
    now apply rstrip_visible.
  - replace (label column ++ " -> " ++ col_name column ++ " ("
             ++ col_type column ++ ")" ++ description_part column)
      with ((label column ++ " ")
            ++ String "-" ("> " ++ col_name column ++ " ("
                           ++ col_type column ++ ")"
                           ++ description_part column))
      by now rewrite append_assoc.
    now apply rstrip_visible.
Qed.

(** The rendered text begins with the first table line, so [strip] removes
    nothing in front. *)
Lemma _render_schema_lstrip (schema : SchemaCatalog) :
  Py.lstrip (Py.join Py.newline (_render_schema_lines schema))
  = Py.join Py.newline (_render_schema_lines schema).
Proof.
  rewrite _render_schema_lines_blocks.
  destruct (tables schema) as [| [name table] items]; [reflexivity |].
  cbn [map List.concat].
  assert (Hhead : exists rest,
            (Rendering.table_block (name, table)
             ++ List.concat (map Rendering.table_block items))%list
            = ("Table: " ++ name) :: rest).
  { unfold Rendering.table_block. cbn [app]. eauto. }
  destruct Hhead as [rest ->]. unfold Py.join.
  destruct rest; reflexivity.
Qed.

(** In the text that [_render_schema] returns, every column has its item;
    the final [strip] can only take whitespace from the very end of the
    text, that is from the end of the last item. *)
Lemma render_schema_text_has_column (schema : SchemaCatalog) (name : string)
    (table : SchemaTable) (column : SchemaColumn) :
  In (name, table) (tables schema) ->
  In column (columns table) ->
  Py.contains (bullet (Py.rstrip (_format_column column)))
    (_render_schema schema) = true.
Proof.
  intros Htable Hcolumn.
  destruct (join_part Py.newline _ _
              (column_line_rendered schema name table column Htable Hcolumn))
    as (a & b & Hjoin).
  destruct (rstrip_cut (_format_column column)) as [w Hcut].
  pose proof (_format_column_visible column) as Hvisible.
  set (item := bullet (Py.rstrip (_format_column column))).
  assert (Hitem : Py.rstrip item = item /\ item <> "").
  { subst item. unfold bullet. split; [| discriminate].
    rewrite rstrip_app_kept; rewrite rstrip_idempotent; [reflexivity | assumption]. }
  destruct Hitem as [Hfixed Hne].
  assert (Hsplit : Py.join Py.newline (_render_schema_lines schema)
                   = a ++ item ++ (w ++ b)).
  { rewrite Hjoin. subst item. unfold bullet. rewrite Hcut at 1.
    now rewrite !append_assoc. }
  unfold _render_schema, Py.strip. rewrite _render_schema_lstrip, Hsplit.
  destruct (rstrip_keeps_part a item (w ++ b) Hfixed Hne) as [c' ->].
  apply contains_part.
Qed.

(** C5.  Every column of every table of a catalog has its own item among the
    rendered lines, and the item is part of the text that [_render_schema]
    returns (up to whitespace at the very end of the text, which the final
    [strip] removes).  For a column with a non-empty formula the item reads
    [label := formula] and stands under the calculated metrics; for a column
    whose formula is empty or absent it reads [label -> name (type)] and
    stands under the base columns.  In both forms a description, when there
    is one, follows after [" - "]. *)
Theorem render_schema_column_forms
    (schema : SchemaCatalog) (name : string) (table : SchemaTable)
    (column : SchemaColumn) :
  In (name, table) (tables schema) ->
  In column (columns table) ->
  In (bullet (_format_column column)) (_render_schema_lines schema)
  /\ Py.contains (bullet (Py.rstrip (_format_column column)))
       (_render_schema schema) = true
  /\ (forall f, formula column = Some f -> f <> "" ->
        _format_column column
        = label column ++ " := " ++ f ++ description_part column
        /\ In (bullet (_format_column column))
              (Rendering.group_lines "  Calculated Metrics:"
                 (map _format_column (filter is_calculated (columns table)))))
  /\ (formula column = None \/ formula column = Some "" ->
        _format_column column
        = label column ++ " -> " ++ col_name column
          ++ " (" ++ col_type column ++ ")" ++ description_part column
        /\ In (bullet (_format_column column))
              (Rendering.group_lines "  Base Columns:"
                 (map _format_column
                    (filter (fun c => negb (is_calculated c)) (columns table))))).
Proof.
  intros Htable Hcolumn.
  assert (Hcalc : forall f, formula column = Some f -> f <> "" ->
                            is_calculated column = true).
  { intros f Hf Hne. unfold is_calculated, Py.truthy. rewrite Hf.
    now destruct (String.eqb_spec f ""). }
  assert (Hbase : formula column = None \/ formula column = Some "" ->
                  is_calculated column = false).
  { intros [Hf | Hf]; unfold is_calculated, Py.truthy; now rewrite Hf. }
  assert (Hmetric_group : is_calculated column = true ->
            In (bullet (_format_column column))
              (Rendering.group_lines "  Calculated Metrics:"
                 (map _format_column (filter is_calculated (columns table))))).
  { intros H. apply group_lines_In, in_map, filter_In. now split. }
  assert (Hbase_group : is_calculated column = false ->
            In (bullet (_format_column column))
              (Rendering.group_lines "  Base Columns:"
                 (map _format_column
                    (filter (fun c => negb (is_calculated c)) (columns table))))).
  { intros H. apply group_lines_In, in_map, filter_In. split; [assumption |].
    now rewrite H. }
  split; [| split; [| split]].
  - now apply (column_line_rendered schema name table).
  - now apply (render_schema_text_has_column schema name table).
  - intros f Hf Hne. split.
    + now apply _format_column_calculated.
    + apply Hmetric_group. now apply (Hcalc f).
  - intros Hf. split.
    + now apply _format_column_base.
    + apply Hbase_group. now apply Hbase.
Qed.

End RenderFacts.

Lemma render_schema_column_forms_witness :
  In (AIService.bullet "active_users := count(distinct user_id) - users seen")
     (AIService._render_schema_lines Samples.sessions_catalog).
Proof.
  exact (proj1 (render_schema_column_forms Samples.sessions_catalog "sessions"
                  Samples.sessions_table Samples.active_users
                  (or_introl eq_refl) (or_intror (or_introl eq_refl)))).
Defined.

(** ** SQL sanitisation *)

Section CleanFacts.

Import AIService Fences.

Lemma prefix_app_l (a b x : string) :
  prefix (a ++ b) x = true -> prefix a x = true.
Proof.
  revert x. induction a as [| c a IH]; intros x H.
  - now destruct x.
  - destruct x as [| d x]; cbn [append prefix] in *; [congruence |].
    destruct (ascii_dec c d); [now apply IH | congruence].
Qed.

Lemma sub_fence_unfold (c : ascii) (r : string) :
  sub_fence 0 (String c r)
  = if prefix "```sql" (String c r) then sub_fence 5 r
    else if prefix "```" (String c r) then sub_fence 2 r
         else String c (sub_fence 0 r).
Proof. reflexivity. Qed.

Lemma sub_fence_skip (k : nat) (c : ascii) (r : string) :
  sub_fence (S k) (String c r) = sub_fence k r.
Proof. reflexivity. Qed.

(** Where no match starts, [re.sub] copies the character. *)
Lemma sub_fence_copy (c : ascii) (r : string) :
  prefix "```" (String c r) = false ->
  sub_fence 0 (String c r) = String c (sub_fence 0 r).
Proof.
  intros H. rewrite sub_fence_unfold.
  assert (Hsql : prefix "```sql" (String c r) = false).
  { destruct (prefix "```sql" (String c r)) eqn:E; [| reflexivity].
    apply (prefix_app_l "```" "sql") in E. congruence. }
  now rewrite Hsql, H.
Qed.

Lemma sub_fence_sql (t : string) :
  sub_fence 0 ("```sql" ++ t) = sub_fence 0 t.
Proof.
  cbn [append]. rewrite sub_fence_unfold.
  replace (prefix "```sql" (String "`" (String "`" (String "`"
             (String "s" (String "q" (String "l" t)))))))
    with true by (cbn; now destruct t).
  now rewrite !sub_fence_skip.
Qed.

Lemma sub_fence_bare (t : string) :
  prefix "sql" t = false -> sub_fence 0 ("```" ++ t) = sub_fence 0 t.
Proof.
  intros H. cbn [append]. rewrite sub_fence_unfold.
  replace (prefix "```sql" (String "`" (String "`" (String "`" t))))
    with (prefix "sql" t) by reflexivity.
  rewrite H.
  replace (prefix "```" (String "`" (String "`" (String "`" t))))
    with true by (cbn; now destruct t).
  now rewrite !sub_fence_skip.
Qed.

Lemma prefix_empty (x : string) : prefix "" x = true.
Proof. now destruct x. Qed.

(** Settles a goal about [prefix] on strings whose heads are known, by
    comparing the leading characters one after the other. *)
Ltac prefix_heads :=
  repeat (cbn [prefix append] in *; rewrite ?prefix_empty in *;
          match goal with
          | |- context [ascii_dec ?a ?b] => destruct (ascii_dec a b); subst
          | H : context [ascii_dec ?a ?b] |- _ => destruct (ascii_dec a b); subst
          end);
  cbn [prefix append] in *; rewrite ?prefix_empty in *;
  try congruence; try reflexivity.

Lemma space_is_no_tick (c : ascii) :
  Py.is_space c = true -> forall r, prefix "`" (String c r) = false.
Proof.
  intros Hc r. cbn [prefix]. destruct (ascii_dec "`" c) as [<- |]; [| reflexivity].
  vm_compute in Hc. discriminate Hc.
Qed.

Lemma no_tick_no_fence (x : string) :
  prefix "`" x = false -> prefix "```" x = false.
Proof. destruct x as [| c r]; intros H; prefix_heads. Qed.

Lemma sub_fence_space (w x : string) :
  Py.all_space w = true -> sub_fence 0 (w ++ x) = w ++ sub_fence 0 x.
Proof.
  unfold Py.all_space. induction w as [| c w IH]; [reflexivity |].
  cbn [list_ascii_of_string forallb]. intros H.
  apply andb_true_iff in H. destruct H as [Hc Hw].
  cbn [append]. rewrite sub_fence_copy.
  - now rewrite (IH Hw).
  - apply no_tick_no_fence. now apply space_is_no_tick.
Qed.

Lemma sub_fence_only_space (w : string) :
  Py.all_space w = true -> sub_fence 0 w = w.
Proof.
  intros Hw. pose proof (sub_fence_space w "" Hw) as H.
  now rewrite !append_empty_r in H.
Qed.

Lemma space_head (w x : string) :
  Py.all_space w = true -> w <> "" -> forall p c,
  Py.is_space c = false -> prefix (String c p) (w ++ x) = false.
Proof.
  intros Hw Hne p c Hc. destruct w as [| a w]; [contradiction |].
  unfold Py.all_space in Hw. cbn [list_ascii_of_string forallb] in Hw.
  apply andb_true_iff in Hw. destruct Hw as [Ha _].
  cbn [append prefix]. destruct (ascii_dec c a) as [-> |]; [| reflexivity].
  congruence.
Qed.

Lemma only_space_head (w : string) :
  Py.all_space w = true -> forall p c,
  Py.is_space c = false -> prefix (String c p) w = false.
Proof.
  intros Hw p c Hc. destruct w as [| a w]; [reflexivity |].
  pose proof (space_head (String a w) "" Hw ltac:(discriminate) p c Hc) as H.
  now rewrite append_empty_r in H.
Qed.

(** A text without a fence has none across its end either, when what
    follows does not begin with a backtick. *)
Lemma no_fence_across (s rest : string) :
  prefix "```" s = false -> prefix "`" rest = false ->
  prefix "```" (s ++ rest) = false.
Proof.
  intros Hs Hrest.
  destruct s as [| c0 [| c1 [| c2 s]]]; destruct rest as [| r0 rest];
    prefix_heads.
Qed.

(** A text without a fence keeps all its characters when what follows
    does not begin with a backtick. *)
Lemma sub_fence_keeps (s rest : string) :
  Py.contains "```" s = false -> prefix "`" rest = false ->
  sub_fence 0 (s ++ rest) = s ++ sub_fence 0 rest.
Proof.
  intros Hs Hrest. induction s as [| c s IH]; [reflexivity |].
  cbn [Py.contains] in Hs. apply orb_false_iff in Hs. destruct Hs as [Hhere Hs].
  change (String c s ++ rest) with (String c (s ++ rest)).
  rewrite sub_fence_copy; [now rewrite (IH Hs) |].
  now apply (no_fence_across (String c s)).
Qed.

Lemma sub_fence_ticks_1 (w : string) :
  prefix "`" w = false ->
  sub_fence 0 ("`" ++ "```" ++ w) = "`" ++ sub_fence 0 w.
Proof.
  intros Hw. cbn [append]. rewrite sub_fence_unfold.
  replace (prefix "```sql" (String "`" (String "`" (String "`" (String "`" w)))))
    with false by (destruct w; prefix_heads).
  replace (prefix "```" (String "`" (String "`" (String "`" (String "`" w)))))
    with true by prefix_heads.
  rewrite !sub_fence_skip. apply sub_fence_copy.
  destruct w; prefix_heads.
Qed.

Lemma sub_fence_ticks_2 (w : string) :
  prefix "`" w = false ->
  sub_fence 0 ("``" ++ "```" ++ w) = "``" ++ sub_fence 0 w.
Proof.
  intros Hw. cbn [append]. rewrite sub_fence_unfold.
  replace (prefix "```sql"
             (String "`" (String "`" (String "`" (String "`" (String "`" w))))))
    with false by (destruct w; prefix_heads).
  replace (prefix "```"
             (String "`" (String "`" (String "`" (String "`" (String "`" w))))))
    with true by prefix_heads.
  rewrite !sub_fence_skip.
  rewrite sub_fence_copy by (destruct w; prefix_heads).
  rewrite sub_fence_copy by (destruct w; prefix_heads).
  reflexivity.
Qed.

(** A text without a fence keeps all its characters in front of a closing
    fence, also when it ends in backticks itself. *)
Lemma sub_fence_before_closing (s w : string) :
  Py.contains "```" s = false -> prefix "`" w = false -> prefix "sql" w = false ->
  sub_fence 0 (s ++ "```" ++ w) = s ++ sub_fence 0 w.
Proof.
  intros Hs Hw Hsql. induction s as [| c s IH].
  - now apply sub_fence_bare.
  - cbn [Py.contains] in Hs. apply orb_false_iff in Hs. destruct Hs as [Hhere Hs].
    specialize (IH Hs).
    destruct (prefix "```" (String c s ++ "```" ++ w)) eqn:E.
    + (* the text ends in one or two backticks that run into the fence *)
      destruct s as [| c1 [| c2 s]].
      * assert (c = "`"%char) as -> by prefix_heads.
        now apply sub_fence_ticks_1.
      * assert (c = "`"%char /\ c1 = "`"%char) as [-> ->] by (split; prefix_heads).
        now apply sub_fence_ticks_2.
      * exfalso. prefix_heads.
    + change (String c s ++ "```" ++ w) with (String c (s ++ "```" ++ w)) in *.
      rewrite (sub_fence_copy _ _ E). now rewrite IH.
Qed.

(** The head of what follows the SQL text in a reply. *)
Lemma tail_head (terminated closed : bool) (ws2 ws3 : string) :
  Py.all_space ws2 = true -> Py.all_space ws3 = true ->
  forall c p,
    Py.is_space c = false -> c <> ";"%char ->
    (closed = true -> c <> "`"%char) ->
    prefix (String c p)
      (terminator_text terminated ++ ws2 ++ closing_text closed ++ ws3) = false.
Proof.
  intros H2 H3 c p Hspace Hsemi Htick.
  destruct terminated; cbn [terminator_text append].
  - prefix_heads.
  - destruct ws2 as [| a ws2].
    + destruct closed; cbn [closing_text append].
      * specialize (Htick eq_refl). prefix_heads.
      * now apply only_space_head.
    + now apply space_head.
Qed.

Lemma sql_not_across (s rest : string) :
  prefix "sql" s = false ->
  (forall c p, Py.is_space c = false -> c <> ";"%char -> c <> "`"%char ->
               prefix (String c p) rest = false) ->
  prefix "sql" (s ++ rest) = false.
Proof.
  intros Hs Hrest.
  assert (Hletter : forall c p, (c = "s" \/ c = "q" \/ c = "l")%char ->
                                prefix (String c p) rest = false).
  { intros c p [-> | [-> | ->]]; apply Hrest; (reflexivity || discriminate). }
  destruct s as [| c0 [| c1 [| c2 s]]]; cbn [append].
  - apply Hletter. now left.
  - cbn [prefix]. destruct (ascii_dec "s" c0); [| reflexivity].
    apply Hletter. right. now left.
  - cbn [prefix]. destruct (ascii_dec "s" c0); [| reflexivity].
    destruct (ascii_dec "q" c1); [| reflexivity].
    apply Hletter. right. now right.
  - prefix_heads.
Qed.

Lemma closing_clean (closed : bool) (ws3 : string) :
  Py.all_space ws3 = true ->
  sub_fence 0 (closing_text closed ++ ws3) = ws3.
Proof.
  intros H3. destruct closed; cbn [closing_text].
  - rewrite sub_fence_bare by (now apply only_space_head).
    now apply sub_fence_only_space.
  - now apply sub_fence_only_space.
Qed.

(** Removing the fences from the SQL text and what follows it. *)
Lemma tail_clean (s : string) (terminated closed : bool) (ws2 ws3 : string) :
  Py.contains "```" s = false ->
  Py.all_space ws2 = true -> Py.all_space ws3 = true ->
  sub_fence 0 (s ++ terminator_text terminated ++ ws2 ++ closing_text closed ++ ws3)
  = s ++ terminator_text terminated ++ ws2 ++ ws3.
Proof.
  intros Hs H2 H3. destruct terminated; cbn [terminator_text].
  - rewrite sub_fence_keeps by (assumption || reflexivity).
    cbn [append]. rewrite sub_fence_copy by reflexivity.
    rewrite (sub_fence_space ws2 _ H2). now rewrite closing_clean.
  - cbn [append]. destruct ws2 as [| a ws2].
    + cbn [append]. destruct closed; cbn [closing_text].
      * rewrite sub_fence_before_closing;
          try assumption; try (now apply only_space_head).
        now rewrite sub_fence_only_space.
      * cbn [append]. rewrite sub_fence_keeps;
          try assumption; try (now apply only_space_head).
        now rewrite sub_fence_only_space.
    + rewrite sub_fence_keeps;
        try assumption; try (now apply space_head).
      rewrite (sub_fence_space _ _ H2). now rewrite closing_clean.
Qed.

(** C6 (as the code has it).  Let [s] be an SQL text without a fence marker,
    without whitespace at either end and not ending in the terminator.  Put
    around it, in this order: whitespace, nothing or a fence or a fence
    tagged sql, whitespace, then [s], the terminator or nothing right after
    it, whitespace, a closing fence or nothing, whitespace.  Unless a bare
    fence is directly followed by an [s] that begins with the letters sql,
    [_clean_sql_query] gives back exactly [s]. *)
Theorem clean_sql_query_round_trip
    (s ws0 ws1 ws2 ws3 : string) (o : opening) (terminated closed : bool) :
  Py.contains "```" s = false ->
  Py.strip s = s ->
  Py.endswith_char s ";" = false ->
  Py.all_space ws0 = true -> Py.all_space ws1 = true ->
  Py.all_space ws2 = true -> Py.all_space ws3 = true ->
  (o = BareFence -> ws1 = "" -> prefix "sql" s = false) ->
  _clean_sql_query (wrap ws0 o ws1 s terminated ws2 closed ws3) = s.
Proof.
  intros Hfence Hstrip Hterm H0 H1 H2 H3 Hbare.
  set (tail := terminator_text terminated ++ ws2 ++ closing_text closed ++ ws3).
  assert (Hsub : sub_fence 0 (wrap ws0 o ws1 s terminated ws2 closed ws3)
                 = ws0 ++ ws1 ++ s ++ terminator_text terminated ++ ws2 ++ ws3).
  { unfold wrap. fold tail. rewrite (sub_fence_space ws0 _ H0). f_equal.
    assert (Hrest : sub_fence 0 (ws1 ++ s ++ tail)
                    = ws1 ++ s ++ terminator_text terminated ++ ws2 ++ ws3).
    { rewrite (sub_fence_space ws1 _ H1). f_equal. now apply tail_clean. }
    destruct o; cbn [opening_text].
    - exact Hrest.
    - rewrite sub_fence_bare; [exact Hrest |].
      destruct ws1 as [| a ws1].
      + cbn [append]. apply sql_not_across; [now apply Hbare |].
        intros c p Hc Hsemi Htick. now apply tail_head.
      + now apply space_head.
    - rewrite sub_fence_sql. exact Hrest. }
  assert (Htrim : Py.strip (sub_fence 0 (wrap ws0 o ws1 s terminated ws2 closed ws3))
                  = s ++ terminator_text terminated).
  { rewrite Hsub.
    replace (ws0 ++ ws1 ++ s ++ terminator_text terminated ++ ws2 ++ ws3)
      with ((ws0 ++ ws1) ++ (s ++ terminator_text terminated) ++ (ws2 ++ ws3))
      by now rewrite !append_assoc.
    apply strip_surrounded.
    - rewrite all_space_app. now rewrite H0, H1.
    - rewrite all_space_app. now rewrite H2, H3.
    - destruct terminated; cbn [terminator_text].
      + now apply strip_terminated.
      + now rewrite append_empty_r. }
  unfold _clean_sql_query. rewrite Htrim.
  destruct terminated; cbn [terminator_text].
  - rewrite (endswith_char_app s ";"). apply drop_last_app.
  - rewrite append_empty_r. now rewrite Hterm.
Qed.

End CleanFacts.

Lemma clean_sql_query_round_trip_witness :
  AIService._clean_sql_query
    (Fences.wrap " " Fences.SqlFence Py.newline "SELECT `day` FROM daily" true
       Py.newline true Py.newline)
  = "SELECT `day` FROM daily".
Proof.
  apply (clean_sql_query_round_trip "SELECT `day` FROM daily"
           " " Py.newline Py.newline Py.newline Fences.SqlFence true true);
    reflexivity.
Defined.

(** C6, the claim as stated, fails.  None of the three texts holds a fence
    marker or ends in the terminator.  The first has a leading blank, which
    sanitising removes.  The second gets the terminator after a blank; the
    blank stays.  The third begins with the letters sql and loses them
    behind a bare fence. *)
Lemma clean_sql_query_not_round_trip :
  (Py.contains "```" " SELECT 1" = false
   /\ Py.endswith_char " SELECT 1" ";" = false
   /\ AIService._clean_sql_query (" SELECT 1" ++ ";") <> " SELECT 1")
  /\ (Py.contains "```" "SELECT 1" = false
      /\ Py.endswith_char "SELECT 1" ";" = false
      /\ AIService._clean_sql_query ("SELECT 1" ++ " " ++ ";") <> "SELECT 1")
  /\ (Py.contains "```" "sql_mode" = false
      /\ Py.endswith_char "sql_mode" ";" = false
      /\ AIService._clean_sql_query ("```" ++ "sql_mode" ++ "```") <> "sql_mode").
Proof.
  repeat split; try reflexivity; vm_compute; discriminate.
Qed.

(** ** The schema gate *)

Section GateFacts.

Import SchemaGate.

Variable disk : Disk.

(** *** Updating one task *)

Lemma In_set_nth {A : Type} (l : list A) :
  forall i x t, In t (set_nth i x l) -> t = x \/ In t l.
Proof.
  induction l as [| a l IH]; intros i x t H; [now destruct i |].
  destruct i as [| i]; cbn [set_nth] in H; destruct H as [H | H]; subst.
  - now left.
  - right. now right.
  - right. now left.
  - destruct (IH _ _ _ H) as [-> | Hin]; [now left | right; now right].
Qed.

Lemma nth_error_set_nth_same {A : Type} (l : list A) :
  forall i x old, nth_error l i = Some old -> nth_error (set_nth i x l) i = Some x.
Proof.
  induction l as [| a l IH]; intros [| i] x old H; try discriminate H.
  - reflexivity.
  - cbn [set_nth nth_error] in *. now apply (IH i x old).
Qed.

Lemma nth_error_set_nth_other {A : Type} (l : list A) :
  forall i j x, i <> j -> nth_error (set_nth i x l) j = nth_error l j.
Proof.
  induction l as [| a l IH]; intros [| i] [| j] x Hne; try reflexivity.
  - contradiction.
  - cbn [set_nth nth_error]. apply IH. congruence.
Qed.

Lemma filter_length_set_nth {A : Type} (p : A -> bool) (l : list A) :
  forall i x old,
    nth_error l i = Some old ->
    List.length (filter p (set_nth i x l)) + Nat.b2n (p old)
    = List.length (filter p l) + Nat.b2n (p x).
Proof.
  induction l as [| a l IH]; intros [| i] x old H; try discriminate H.
  - injection H as ->. cbn [set_nth filter].
    destruct (p old), (p x); cbn [List.length Nat.b2n]; lia.
  - cbn [set_nth filter nth_error] in *. specialize (IH i x old H).
    destruct (p a); cbn [List.length]; lia.
Qed.

Lemma list_sum_set_nth {A : Type} (w : A -> nat) (l : list A) :
  forall i x old,
    nth_error l i = Some old ->
    list_sum (map w (set_nth i x l)) + w old = list_sum (map w l) + w x.
Proof.
  unfold list_sum.
  induction l as [| a l IH]; intros [| i] x old H; try discriminate H.
  - injection H as ->. cbn [set_nth map fold_right]. lia.
  - cbn [set_nth map fold_right nth_error] in *. specialize (IH i x old H). lia.
Qed.

Lemma map_set_nth_same {A B : Type} (f : A -> B) (l : list A) :
  forall i x old,
    nth_error l i = Some old -> f x = f old ->
    map f (set_nth i x l) = map f l.
Proof.
  induction l as [| a l IH]; intros [| i] x old H Hf; try discriminate H.
  - injection H as ->. cbn [set_nth map]. now rewrite Hf.
  - cbn [set_nth map nth_error] in *. now rewrite (IH i x old H Hf).
Qed.

Lemma filter_none {A : Type} (p : A -> bool) (l : list A) (t : A) :
  List.length (filter p l) = 0 -> In t l -> p t = false.
Proof.
  intros Hlen Hin. destruct (p t) eqn:E; [| reflexivity].
  assert (Hf : In t (filter p l)) by (apply filter_In; now split).
  destruct (filter p l); [contradiction | discriminate Hlen].
Qed.

Lemma filter_some {A : Type} (p : A -> bool) (l : list A) :
  0 < List.length (filter p l) ->
  exists i t, nth_error l i = Some t /\ p t = true.
Proof.
  intros Hlen. destruct (filter p l) as [| t r] eqn:E; [cbn in Hlen; lia |].
  assert (Hin : In t (filter p l)) by (rewrite E; now left).
  apply filter_In in Hin. destruct Hin as [Hin Hp].
  destruct (In_nth_error _ _ Hin) as [i Hi]. now exists i, t.
Qed.

(** *** The invariant of the gate *)

Lemma gate_inv_init (calls : list call) : gate_inv disk (init calls).
Proof.
  assert (Hnone : forall p, (forall c, p (mkTask c Invoked) = false) ->
                            count p (init calls) = 0).
  { intros p Hp. unfold count, init. cbn [tasks].
    induction calls as [| c calls IH]; [reflexivity |].
    cbn [map filter]. now rewrite Hp. }
  constructor; unfold is_loaded; cbn [init _schema_loaded _loaded_schema
    _schema_load_lock loads Nat.b2n].
  - reflexivity.
  - now apply Hnone.
  - rewrite !Hnone by reflexivity. reflexivity.
  - intros j Hj. lia.
  - intros schema H. discriminate H.
  - intros t Hin. cbn [init tasks] in Hin. apply in_map_iff in Hin.
    destruct Hin as [c [<- _]]. exact I.
Qed.

(** The counts of a state whose task [i] was replaced. *)
Lemma count_set_nth (p : task -> bool) (st st' : state) (i : nat)
    (old new : task) :
  nth_error (tasks st) i = Some old ->
  tasks st' = set_nth i new (tasks st) ->
  count p st' + Nat.b2n (p old) = count p st + Nat.b2n (p new).
Proof.
  intros Hold Htasks. unfold count. rewrite Htasks.
  now apply filter_length_set_nth.
Qed.

Lemma no_task_in_load (st : state) (t : task) :
  count in_load st = 0 -> In t (tasks st) -> in_load t = false.
Proof. unfold count. apply filter_none. Qed.

(** Unfolds the invariant of the state before a step and the counting
    equations of the replaced task. *)
Ltac gate_step Hinv Hold new :=
  let Hin := fresh "Hin" in
  let Hra := fresh "Hra" in
  match type of Hold with
  | nth_error (tasks ?st) ?i = Some ?old =>
      match goal with
      | |- gate_inv _ ?st' =>
          pose proof (count_set_nth in_load st st' i old new Hold eq_refl) as Hin;
          pose proof (count_set_nth has_raised st st' i old new Hold eq_refl) as Hra
      end
  end;
  destruct Hinv as [Hevent Hlock Hloads Hfailed Hloaded Htasks];
  unfold is_loaded in *;
  cbn [in_load has_raised at_pc Nat.b2n] in Hin, Hra.

(** Every resumption keeps the invariant. *)
Lemma gate_inv_step (i : nat) (st st' : state) :
  gate_inv disk st -> step disk i st = Some st' -> gate_inv disk st'.
Proof.
  intros Hinv Hstep. unfold step in Hstep.
  destruct (nth_error (tasks st) i) as [[w p] |] eqn:Hold; [| discriminate].
  destruct w; destruct p as [| k | o]; try discriminate.
  - (* get_schema reaches the lock *)
    destruct (_schema_load_lock st) eqn:Elock; [discriminate |].
    destruct (_loaded_schema st) as [schema |] eqn:Eloaded;
      injection Hstep as <-.
    + (* the catalog is there: return it *)
      gate_step Hinv Hold (mkTask GetSchema (Finished (Return schema))).
      constructor; unfold is_loaded;
        cbn [_schema_loaded _loaded_schema _schema_load_lock loads tasks];
        rewrite ?Eloaded, ?Elock in *; cbn [Nat.b2n] in *.
      * assumption.
      * lia.
      * lia.
      * intros j Hj. apply Hfailed. lia.
      * intros schema' H. destruct (Hloaded schema' H) as [_ Hk]. now split.
      * intros t Ht. apply In_set_nth in Ht. destruct Ht as [-> | Ht].
        -- reflexivity.
        -- pose proof (Htasks t Ht) as Hok.
           unfold task_ok in *. cbn [_loaded_schema loads].
           destruct (at_pc t) as [| k | [schema' | exc]];
             try assumption; congruence.
    + (* no catalog yet: take the lock and start a load *)
      gate_step Hinv Hold (mkTask GetSchema (InLoad (loads st))).
      constructor; unfold is_loaded;
        cbn [_schema_loaded _loaded_schema _schema_load_lock loads tasks];
        rewrite ?Eloaded, ?Elock in *; cbn [Nat.b2n] in *.
      * assumption.
      * lia.
      * lia.
      * intros j Hj. apply Hfailed. lia.
      * intros schema' H. discriminate H.
      * intros t Ht. apply In_set_nth in Ht. destruct Ht as [-> | Ht].
        -- split; reflexivity.
        -- pose proof (Htasks t Ht) as Hok.
           pose proof (no_task_in_load st t Hlock Ht) as Hno.
           unfold task_ok, in_load in *. cbn [_loaded_schema loads].
           destruct (at_pc t) as [| k | [schema | exc]];
             try assumption; try discriminate; congruence.
  - (* the load ends *)
    assert (Hmine : S k = loads st /\ _schema_load_lock st = true
                    /\ _loaded_schema st = None /\ count in_load st = 1).
    { pose proof (inv_tasks _ _ Hinv _ (nth_error_In _ _ Hold)) as Hok.
      destruct Hok as [_ Hk].
      pose proof (inv_lock _ _ Hinv) as Hlock.
      assert (Hpos : 0 < count in_load st).
      { unfold count.
        assert (Hin : In (mkTask GetSchema (InLoad k)) (filter in_load (tasks st)))
          by (apply filter_In; split; [now apply (nth_error_In _ i) | reflexivity]).
        destruct (filter in_load (tasks st)); [contradiction | cbn; lia]. }
      destruct (_schema_load_lock st) eqn:Elock; cbn [Nat.b2n] in Hlock; [| lia].
      repeat split; try assumption.
      destruct (_loaded_schema st) as [schema |] eqn:Eloaded; [| reflexivity].
      destruct (inv_loaded _ _ Hinv schema Eloaded) as [Hfree _]. congruence. }
    destruct Hmine as (Hk & Elock & Eloaded & Hone).
    destruct (disk k) as [schema | exc] eqn:Edisk; injection Hstep as <-.
    + (* it succeeded: publish the catalog, set the event *)
      gate_step Hinv Hold (mkTask GetSchema (Finished (Return schema))).
      constructor; unfold is_loaded;
        cbn [_schema_loaded _loaded_schema _schema_load_lock loads tasks];
        rewrite ?Eloaded, ?Elock in *; cbn [Nat.b2n] in *.
      * reflexivity.
      * lia.
      * lia.
      * intros j Hj. apply Hfailed. lia.
      * intros schema' H. injection H as <-. split; [reflexivity |].
        exists k. now split.
      * intros t Ht.
        assert (Hzero : List.length (filter in_load
                  (set_nth i (mkTask GetSchema (Finished (Return schema))) (tasks st))) = 0)
          by (unfold count in *; cbn [tasks] in *; lia).
        pose proof (filter_none _ _ t Hzero Ht) as Hno.
        apply In_set_nth in Ht. destruct Ht as [-> | Ht]; [reflexivity |].
        pose proof (Htasks t Ht) as Hok.
        unfold task_ok, in_load in *. cbn [_loaded_schema loads].
        destruct (at_pc t) as [| k' | [schema' | exc]];
          try assumption; try discriminate; congruence.
    + (* it failed: the exception goes to this task alone *)
      gate_step Hinv Hold (mkTask GetSchema (Finished (Raise exc))).
      constructor; unfold is_loaded;
        cbn [_schema_loaded _loaded_schema _schema_load_lock loads tasks];
        rewrite ?Eloaded, ?Elock in *; cbn [Nat.b2n] in *.
      * assumption.
      * lia.
      * lia.
      * intros j Hj.
        destruct (Nat.eq_dec j k) as [-> | Hne]; [now exists exc |].
        apply Hfailed. lia.
      * intros schema' H. discriminate H.
      * intros t Ht.
        assert (Hzero : List.length (filter in_load
                  (set_nth i (mkTask GetSchema (Finished (Raise exc))) (tasks st))) = 0)
          by (unfold count in *; cbn [tasks] in *; lia).
        pose proof (filter_none _ _ t Hzero Ht) as Hno.
        apply In_set_nth in Ht. destruct Ht as [-> | Ht]; [reflexivity |].
        pose proof (Htasks t Ht) as Hok.
        unfold task_ok, in_load in *. cbn [_loaded_schema loads].
        destruct (at_pc t) as [| k' | [schema' | exc']];
          try assumption; try discriminate; congruence.
  - (* wait_for_schema wakes up: the event is set *)
    destruct (_schema_loaded st) eqn:Eevent; [| discriminate].
    injection Hstep as <-.
    pose proof (inv_event _ _ Hinv) as Hev. unfold is_loaded in Hev.
    destruct (_loaded_schema st) as [schema |] eqn:Eloaded; [| congruence].
    gate_step Hinv Hold (mkTask WaitForSchema (Finished (Return schema))).
    constructor; unfold is_loaded;
      cbn [_schema_loaded _loaded_schema _schema_load_lock loads tasks];
      rewrite ?Eloaded, ?Elock in *; cbn [Nat.b2n] in *.
    + reflexivity.
    + lia.
    + lia.
    + intros j Hj. apply Hfailed. lia.
    + intros schema' H. now apply Hloaded.
    + intros t Ht. apply In_set_nth in Ht. destruct Ht as [-> | Ht].
      * reflexivity.
      * pose proof (Htasks t Ht) as Hok.
        unfold task_ok in *. cbn [_loaded_schema loads].
        destruct (at_pc t) as [| k | [schema' | exc]];
          try assumption; congruence.
Qed.

Lemma gate_inv_run (schedule : list nat) :
  forall st st',
    gate_inv disk st -> run disk schedule st = Some st' -> gate_inv disk st'.
Proof.
  induction schedule as [| i rest IH]; intros st st' Hinv Hrun.
  - injection Hrun as <-. assumption.
  - cbn [run] in Hrun. destruct (step disk i st) as [st1 |] eqn:E; [| discriminate].
    apply (IH st1); [| assumption]. now apply (gate_inv_step i st).
Qed.

(** *** Which calls the tasks are *)

Lemma step_what (i : nat) (st st' : state) :
  step disk i st = Some st' -> map what (tasks st') = map what (tasks st).
Proof.
  unfold step.
  destruct (nth_error (tasks st) i) as [[w p] |] eqn:Hold; [| discriminate].
  destruct w; destruct p as [| k | o]; try discriminate.
  - destruct (_schema_load_lock st); [discriminate |].
    destruct (_loaded_schema st); intros H; injection H as <-; cbn [tasks];
      now apply (map_set_nth_same what _ _ _ _ Hold).
  - destruct (disk k); intros H; injection H as <-; cbn [tasks];
      now apply (map_set_nth_same what _ _ _ _ Hold).
  - destruct (_schema_loaded st); [| discriminate].
    intros H; injection H as <-; cbn [tasks];
      now apply (map_set_nth_same what _ _ _ _ Hold).
Qed.

Lemma run_what (schedule : list nat) :
  forall st st',
    run disk schedule st = Some st' -> map what (tasks st') = map what (tasks st).
Proof.
  induction schedule as [| i rest IH]; intros st st' Hrun.
  - now injection Hrun as <-.
  - cbn [run] in Hrun. destruct (step disk i st) as [st1 |] eqn:E; [| discriminate].
    rewrite (IH st1 st' Hrun). now apply (step_what i).
Qed.

Lemma init_what (calls : list call) : map what (tasks (init calls)) = calls.
Proof.
  cbn [init tasks]. rewrite map_map. cbn [what]. apply map_id.
Qed.

Lemma task_call (calls : list call) (st : state) (t : task) :
  map what (tasks st) = calls -> In t (tasks st) -> In (what t) calls.
Proof. intros <- Hin. now apply in_map. Qed.

(** *** Without a [get_schema] call nothing ever moves *)

Lemma waiters_stuck (st : state) (i : nat) :
  ~ In GetSchema (map what (tasks st)) -> _schema_loaded st = false ->
  step disk i st = None.
Proof.
  intros Hnone Hevent. unfold step.
  destruct (nth_error (tasks st) i) as [[w p] |] eqn:Hold; [| reflexivity].
  destruct w.
  - exfalso. apply Hnone.
    apply nth_error_In in Hold. now apply (in_map what) in Hold.
  - rewrite Hevent. now destruct p.
Qed.

Lemma run_without_get_schema (calls : list call) (schedule : list nat)
    (st : state) :
  ~ In GetSchema calls ->
  run disk schedule (init calls) = Some st -> st = init calls.
Proof.
  intros Hnone Hrun. destruct schedule as [| i rest].
  - now injection Hrun as <-.
  - cbn [run] in Hrun. rewrite waiters_stuck in Hrun; [discriminate | | reflexivity].
    now rewrite init_what.
Qed.

(** *** Progress of the [get_schema] calls *)

Lemma unfinished_task (l : list task) :
  forallb is_finished l = false ->
  exists i t, nth_error l i = Some t /\ is_finished t = false.
Proof.
  induction l as [| a l IH]; [discriminate |].
  cbn [forallb]. destruct (is_finished a) eqn:E; cbn [andb].
  - intros H. destruct (IH H) as (i & t & Hi & Ht). now exists (S i), t.
  - intros _. now exists 0, a.
Qed.

Lemma get_schema_progress (st : state) :
  gate_inv disk st ->
  ~ In WaitForSchema (map what (tasks st)) ->
  all_finished st = false ->
  exists i st', step disk i st = Some st'.
Proof.
  intros Hinv Hcalls Hopen.
  assert (Hget : forall j t, nth_error (tasks st) j = Some t -> what t = GetSchema).
  { intros j t Hj. destruct (what t) eqn:E; [reflexivity |].
    exfalso. apply Hcalls. rewrite <- E. apply in_map. now apply (nth_error_In _ j). }
  assert (Hloading : forall j k, nth_error (tasks st) j = Some (mkTask GetSchema (InLoad k)) ->
                                 exists st', step disk j st = Some st').
  { intros j k Hj. unfold step. rewrite Hj. destruct (disk k); eauto. }
  destruct (unfinished_task _ Hopen) as (i & [w p] & Hi & Hp).
  pose proof (Hget i _ Hi) as Hw. cbn [what] in Hw. subst w.
  destruct p as [| k | o]; [| | discriminate Hp].
  - destruct (_schema_load_lock st) eqn:Elock.
    + pose proof (inv_lock _ _ Hinv) as Hlock. rewrite Elock in Hlock.
      destruct (filter_some in_load (tasks st)) as (j & [w p] & Hj & Hin).
      { unfold count in Hlock. rewrite Hlock. cbn. lia. }
      pose proof (Hget j _ Hj) as Hw. cbn [what] in Hw. subst w.
      destruct p as [| k | o]; try discriminate Hin.
      destruct (Hloading j k Hj) as [st' Hst']. now exists j, st'.
    + exists i. unfold step. rewrite Hi, Elock.
      destruct (_loaded_schema st); eauto.
  - destruct (Hloading i k Hi) as [st' Hst']. now exists i, st'.
Qed.

Lemma step_work_left (i : nat) (st st' : state) :
  step disk i st = Some st' -> work_left st' < work_left st.
Proof.
  unfold step, work_left.
  destruct (nth_error (tasks st) i) as [[w p] |] eqn:Hold; [| discriminate].
  destruct w; destruct p as [| k | o]; try discriminate.
  - destruct (_schema_load_lock st); [discriminate |].
    destruct (_loaded_schema st); intros H; injection H as <-; cbn [tasks].
    + pose proof (list_sum_set_nth resumptions_left _ i
                    (mkTask GetSchema (Finished (Return s))) _ Hold) as Hsum.
      cbn [resumptions_left at_pc] in Hsum. lia.
    + pose proof (list_sum_set_nth resumptions_left _ i
                    (mkTask GetSchema (InLoad (loads st))) _ Hold) as Hsum.
      cbn [resumptions_left at_pc] in Hsum. lia.
  - destruct (disk k) as [schema | exc]; intros H; injection H as <-; cbn [tasks].
    + pose proof (list_sum_set_nth resumptions_left _ i
                    (mkTask GetSchema (Finished (Return schema))) _ Hold) as Hsum.
      cbn [resumptions_left at_pc] in Hsum. lia.
    + pose proof (list_sum_set_nth resumptions_left _ i
                    (mkTask GetSchema (Finished (Raise exc))) _ Hold) as Hsum.
      cbn [resumptions_left at_pc] in Hsum. lia.
  - destruct (_schema_loaded st); [| discriminate].
    intros H; injection H as <-; cbn [tasks].
    match goal with
    | |- context [set_nth i ?new _] =>
        pose proof (list_sum_set_nth resumptions_left _ i new _ Hold) as Hsum
    end.
    cbn [resumptions_left at_pc] in Hsum. lia.
Qed.

(** From every state the [get_schema] calls can all be run to their end. *)
Lemma get_schema_completes (bound : nat) :
  forall st,
    work_left st <= bound ->
    gate_inv disk st ->
    ~ In WaitForSchema (map what (tasks st)) ->
    exists rest st', run disk rest st = Some st' /\ all_finished st' = true.
Proof.
  induction bound as [| bound IH]; intros st Hwork Hinv Hcalls;
    destruct (all_finished st) eqn:Hopen;
    try (exists [], st; now split).
  - destruct (get_schema_progress st Hinv Hcalls Hopen) as (i & st1 & Hstep).
    pose proof (step_work_left i st st1 Hstep). lia.
  - destruct (get_schema_progress st Hinv Hcalls Hopen) as (i & st1 & Hstep).
    pose proof (step_work_left i st st1 Hstep) as Hless.
    destruct (IH st1) as (rest & st' & Hrun & Hdone).
    + lia.
    + now apply (gate_inv_step i st).
    + now rewrite (step_what i st st1 Hstep).
    + exists (i :: rest), st'. cbn [run]. rewrite Hstep. now split.
Qed.

(** *** The claims about the gate *)

Lemma all_equal_repeat {A : Type} (x : A) (l : list A) :
  (forall t, In t l -> t = x) -> l = repeat x (List.length l).
Proof.
  induction l as [| a l IH]; intros H; [reflexivity |].
  cbn [List.length repeat]. rewrite (H a) by now left.
  f_equal. apply IH. intros t Ht. apply H. now right.
Qed.

(** When the first load succeeds, it is the only one. *)
Lemma first_load_only (st : state) (schema : SchemaCatalog) :
  gate_inv disk st -> disk 0 = Return schema ->
  loads st <= 1
  /\ count has_raised st = 0
  /\ (forall published, _loaded_schema st = Some published ->
        published = schema /\ loads st = 1).
Proof.
  intros [Hevent Hlock Hloads Hfailed Hloaded Htasks] Hfirst.
  assert (Hfew : loads st <= count in_load st + Nat.b2n (is_loaded st)).
  { destruct (Nat.le_gt_cases (loads st)
                (count in_load st + Nat.b2n (is_loaded st))) as [H | H];
      [assumption |].
    destruct (Hfailed 0) as [exc Hexc]; [lia | congruence]. }
  unfold is_loaded in *.
  destruct (_loaded_schema st) as [published |] eqn:Eloaded; cbn [Nat.b2n] in *.
  - destruct (Hloaded published eq_refl) as [Hfree (k & Hk & Hdisk)].
    rewrite Hfree in Hlock. cbn [Nat.b2n] in Hlock.
    assert (k = 0) as -> by lia.
    split; [lia | split; [lia |]].
    intros p Hp. injection Hp as <-. split; [congruence | lia].
  - destruct (_schema_load_lock st); cbn [Nat.b2n] in Hlock;
      (split; [lia | split; [lia |]]); intros p Hp; discriminate Hp.
Qed.

(** C3 (as the code has it).  [n] tasks call [get_schema] on a fresh
    manager and are resumed in any order.  Every load is accounted for by
    one task: a failed load by the one task that its exception was raised to,
    the running load by the task inside it, the published load by the catalog.
    When the first load succeeds, no second load starts and every task that
    has finished returned the catalog of that load; when all have finished,
    exactly one load ran and all [n] tasks hold that catalog.  From every
    reachable state the tasks can be run to their end. *)
Theorem get_schema_single_flight (n : nat) (schedule : list nat) (st : state) :
  run disk schedule (init (repeat GetSchema n)) = Some st ->
  loads st = count has_raised st + count in_load st + Nat.b2n (is_loaded st)
  /\ (forall schema, disk 0 = Return schema ->
        loads st <= 1
        /\ (forall i o,
              nth_error (tasks st) i = Some (mkTask GetSchema (Finished o)) ->
              o = Return schema)
        /\ (all_finished st = true -> 0 < n ->
            loads st = 1
            /\ tasks st = repeat (mkTask GetSchema (Finished (Return schema))) n))
  /\ (exists rest st', run disk rest st = Some st' /\ all_finished st' = true).
Proof.
  intros Hrun.
  pose proof (gate_inv_run schedule _ _ (gate_inv_init _) Hrun) as Hinv.
  pose proof (run_what schedule _ _ Hrun) as Hwhat. rewrite init_what in Hwhat.
  assert (Hcalls : ~ In WaitForSchema (map what (tasks st))).
  { rewrite Hwhat. intros Hin. apply repeat_spec in Hin. discriminate Hin. }
  split; [apply (inv_loads _ _ Hinv) | split].
  - intros schema Hfirst.
    destruct (first_load_only st schema Hinv Hfirst) as (Hfew & Hnone & Hpub).
    assert (Hdone : forall t o, In t (tasks st) -> at_pc t = Finished o ->
                                o = Return schema /\ loads st = 1).
    { intros t o Ht Ho. pose proof (inv_tasks _ _ Hinv t Ht) as Hok.
      unfold task_ok in Hok. rewrite Ho in Hok. destruct o as [published | exc].
      - destruct (Hpub published Hok) as [-> Hone]. now split.
      - exfalso. pose proof (filter_none has_raised _ t Hnone Ht) as Hno.
        unfold has_raised in Hno. rewrite Ho in Hno. discriminate Hno. }
    split; [assumption | split].
    + intros i o Hi. apply nth_error_In in Hi.
      now apply (Hdone _ o Hi).
    + intros Hall Hpos.
      assert (Hlen : List.length (tasks st) = n).
      { rewrite <- (length_map what), Hwhat. apply repeat_length. }
      assert (Heach : forall t, In t (tasks st) ->
                                t = mkTask GetSchema (Finished (Return schema))).
      { intros [w p] Ht.
        assert (Hw : w = GetSchema).
        { destruct w; [reflexivity |]. exfalso. apply Hcalls.
          now apply (in_map what) in Ht. }
        unfold all_finished in Hall. rewrite forallb_forall in Hall.
        pose proof (Hall _ Ht) as Hfin. unfold is_finished in Hfin. cbn [at_pc] in Hfin.
        destruct p as [| k | o]; try discriminate Hfin.
        destruct (Hdone _ o Ht eq_refl) as [-> _]. now subst w. }
      split.
      * destruct (tasks st) as [| t l] eqn:E; [cbn in Hlen; lia |].
        assert (Ht : In t (t :: l)) by now left.
        pose proof (Heach t Ht) as Heq.
        apply (Hdone t (Return schema) Ht). now rewrite Heq.
      * rewrite <- Hlen. now apply all_equal_repeat.
  - apply (get_schema_completes (work_left st)); auto.
Qed.

(** What [wait_for_schema] does in every state that the tasks can reach.
    The raise that follows the wait is never reached: a task finishes only
    by returning the published catalog.  While no catalog is published,
    because no load was started, or one is running, or every load so far
    failed, the task cannot be resumed; once a catalog is published its next
    resumption returns it.  Where no task calls [get_schema] at all, the
    task stays where it was created. *)
Lemma wait_for_schema_waits_for_publication
    (calls : list call) (schedule : list nat) (st : state) (i : nat) (p : pc) :
  run disk schedule (init calls) = Some st ->
  nth_error (tasks st) i = Some (mkTask WaitForSchema p) ->
  (forall o, p = Finished o ->
             exists schema, o = Return schema /\ _loaded_schema st = Some schema)
  /\ (p = Invoked ->
      match _loaded_schema st with
      | None => step disk i st = None
      | Some schema =>
          exists st',
            step disk i st = Some st'
            /\ nth_error (tasks st') i
               = Some (mkTask WaitForSchema (Finished (Return schema)))
      end)
  /\ (forall k, p <> InLoad k)
  /\ (~ In GetSchema calls -> p = Invoked /\ _loaded_schema st = None).
Proof.
  intros Hrun Hi.
  pose proof (gate_inv_run schedule _ _ (gate_inv_init _) Hrun) as Hinv.
  pose proof (inv_tasks _ _ Hinv _ (nth_error_In _ _ Hi)) as Hok.
  unfold task_ok in Hok. cbn [at_pc what] in Hok.
  split; [| split; [| split]].
  - intros o ->. destruct o as [schema | exc]; [now exists schema | discriminate Hok].
  - intros ->. pose proof (inv_event _ _ Hinv) as Hevent. unfold is_loaded in Hevent.
    unfold step. rewrite Hi, Hevent.
    destruct (_loaded_schema st) as [schema |]; [| reflexivity].
    eexists. split; [reflexivity |]. cbn [tasks].
    now apply (nth_error_set_nth_same _ _ _ _ Hi).
  - intros k ->. destruct Hok as [Hw _]. discriminate Hw.
  - intros Hnone. rewrite (run_without_get_schema calls schedule st Hnone Hrun) in Hi |- *.
    split; [| reflexivity].
    cbn [init tasks] in Hi. rewrite nth_error_map in Hi.
    destruct (nth_error calls i); [| discriminate Hi]. now injection Hi.
Qed.

End GateFacts.

Lemma get_schema_single_flight_witness :
  exists st,
    SchemaGate.run Samples.ready_disk [0; 0; 1; 2]
      (SchemaGate.init (repeat SchemaGate.GetSchema 3)) = Some st
    /\ SchemaGate.loads st = 1
    /\ SchemaGate.tasks st
       = repeat (SchemaGate.mkTask SchemaGate.GetSchema
                   (SchemaGate.Finished (Return Samples.sessions_catalog))) 3.
Proof.
  eexists. split; [reflexivity |].
  destruct (get_schema_single_flight Samples.ready_disk 3 [0; 0; 1; 2] _ eq_refl)
    as (_ & Hfirst & _).
  destruct (Hfirst Samples.sessions_catalog eq_refl) as (_ & _ & Hall).
  apply Hall; [reflexivity | apply Nat.lt_0_succ].
Defined.

(** C3, the claim as stated, fails when a load fails.  Two tasks call
    [get_schema] on a fresh manager whose schema file is missing at first.
    The first task runs a load and gets its [SchemaLoadError]; nothing is
    kept, so the second task runs a load of its own and returns a catalog:
    two loads, two different outcomes. *)
Lemma get_schema_failure_not_shared :
  exists st,
    SchemaGate.run Samples.late_disk [0; 0; 1; 1]
      (SchemaGate.init [SchemaGate.GetSchema; SchemaGate.GetSchema]) = Some st
    /\ SchemaGate.all_finished st = true
    /\ SchemaGate.loads st = 2
    /\ nth_error (SchemaGate.tasks st) 0
       = Some (SchemaGate.mkTask SchemaGate.GetSchema
                 (SchemaGate.Finished
                    (Raise (mk_exn SchemaLoadError
                              "Schema file not found: data/mapping.json"))))
    /\ nth_error (SchemaGate.tasks st) 1
       = Some (SchemaGate.mkTask SchemaGate.GetSchema
                 (SchemaGate.Finished (Return Samples.sessions_catalog))).
Proof. eexists. repeat split; reflexivity. Qed.

Lemma wait_for_schema_waits_for_publication_witness :
  exists st,
    SchemaGate.run Samples.ready_disk [0]
      (SchemaGate.init [SchemaGate.GetSchema; SchemaGate.WaitForSchema]) = Some st
    /\ SchemaGate.step Samples.ready_disk 1 st = None.
Proof.
  eexists. split; [reflexivity |].
  exact (proj1 (proj2
    (wait_for_schema_waits_for_publication Samples.ready_disk
       [SchemaGate.GetSchema; SchemaGate.WaitForSchema] [0] _ 1
       SchemaGate.Invoked eq_refl eq_refl)) eq_refl).
Defined.

(** C4 (a defect of the code).  [wait_for_schema] is written to fail when
    no load was initiated: after the wait it raises [SchemaLoadError] when
    no catalog is there.  But the wait has no way out: on a manager where
    nothing calls [get_schema], a [wait_for_schema] task never finishes,
    whatever the order of resumptions; it neither raises nor returns. *)
Theorem wait_for_schema_without_load_never_ends :
  ~ (exists schedule st o,
       SchemaGate.run Samples.ready_disk schedule
         (SchemaGate.init [SchemaGate.WaitForSchema]) = Some st
       /\ nth_error (SchemaGate.tasks st) 0
          = Some (SchemaGate.mkTask SchemaGate.WaitForSchema
                    (SchemaGate.Finished o))).
Proof.
  intros (schedule & st & o & Hrun & Hdone).
  rewrite (run_without_get_schema Samples.ready_disk
             [SchemaGate.WaitForSchema] schedule st) in Hdone.
  - discriminate Hdone.
  - intros [H | []]. discriminate H.
  - exact Hrun.
Qed.

(* ================================================================== *)
(** * Further properties of the code *)
(* ================================================================== *)

(** ** Schema lookups *)

Section CatalogFacts.

Import Catalog.

Lemma dict_get_set_same {V : Type} (d : list (string * V)) (k : string) (v : V) :
  dict_get (dict_set d k v) k = Some v.
Proof.
  induction d as [| [k' v'] d IH]; cbn [dict_set dict_get].
  - now rewrite String.eqb_refl.
  - destruct (String.eqb_spec k' k) as [-> | Hne]; cbn [dict_get].
    + now rewrite String.eqb_refl.
    + apply String.eqb_neq in Hne. now rewrite Hne.
Qed.

Lemma dict_get_set_other {V : Type} (d : list (string * V)) (k k' : string) (v : V) :
  k' <> k -> dict_get (dict_set d k v) k' = dict_get d k'.
Proof.
  intros Hne. induction d as [| [k0 v0] d IH]; cbn [dict_set dict_get].
  - destruct (String.eqb_spec k k'); [congruence | reflexivity].
  - destruct (String.eqb_spec k0 k) as [-> | Hk]; cbn [dict_get].
    + destruct (String.eqb_spec k k'); [congruence | reflexivity].
    + now rewrite IH.
Qed.

Lemma dict_set_keys {V : Type} (d : list (string * V)) (k : string) (v : V) :
  map fst (dict_set d k v)
  = if existsb (String.eqb k) (map fst d) then map fst d
    else (map fst d ++ [k])%list.
Proof.
  induction d as [| [k' v'] d IH]; cbn [dict_set map fst existsb app];
    [reflexivity |].
  rewrite (String.eqb_sym k k').
  destruct (String.eqb_spec k' k) as [-> | Hne]; cbn [map fst orb].
  - reflexivity.
  - rewrite IH. now destruct (existsb (String.eqb k) (map fst d)).
Qed.

Lemma dict_set_NoDup {V : Type} (d : list (string * V)) (k : string) (v : V) :
  NoDup (map fst d) -> NoDup (map fst (dict_set d k v)).
Proof.
  intros Hd. rewrite dict_set_keys.
  destruct (existsb (String.eqb k) (map fst d)) eqn:E; [assumption |].
  apply NoDup_app; [assumption | |].
  - constructor; [intros [] | constructor].
  - intros x Hx [<- | []].
    assert (Hex : existsb (String.eqb k) (map fst d) = true).
    { apply existsb_exists. exists k. split; [assumption | apply String.eqb_refl]. }
    congruence.
Qed.

Lemma dict_get_In {V : Type} (d : list (string * V)) (k : string) (v : V) :
  dict_get d k = Some v -> In (k, v) d.
Proof.
  induction d as [| [k' v'] d IH]; cbn [dict_get]; [discriminate |].
  destruct (String.eqb_spec k' k) as [-> | Hne].
  - intros H. injection H as ->. now left.
  - intros H. right. now apply IH.
Qed.

End CatalogFacts.

Section LookupFacts.

Import Catalog.

Lemma get_column_first_match_aux (table : SchemaTable) (name : string) :
  match get_column table name with
  | Some col =>
      exists before after,
        columns table = (before ++ col :: after)%list
        /\ column_matches (Py.lower name) col = true
        /\ (forall c, In c before -> column_matches (Py.lower name) c = false)
  | None =>
      forall c, In c (columns table) -> column_matches (Py.lower name) c = false
  end.
Proof.
  unfold get_column. generalize (Py.lower name) as lowered. intros lowered.
  induction (columns table) as [| c cols IH]; cbn [find].
  - intros c [].
  - destruct (column_matches lowered c) eqn:E.
    + exists [], cols. repeat split; [assumption | intros x []].
    + destruct (find (column_matches lowered) cols) as [col |].
      * destruct IH as (before & after & -> & Hcol & Hbefore).
        exists (c :: before), after. repeat split; [assumption |].
        intros x [<- | Hx]; [assumption | now apply Hbefore].
      * intros x [<- | Hx]; [assumption | now apply IH].
Qed.

(** A non-empty label is the label, whatever the fallback. *)
Lemma truthy_or_else (o : option string) (d : string) :
  Py.truthy o = true -> Py.or_else o d = Py.or_else o "".
Proof.
  unfold Py.truthy, Py.or_else. destruct o as [f |]; [| discriminate].
  now destruct (f =? "").
Qed.

(** X1.  [SchemaTable.get_column] returns the first column, in the order of the
    table, whose physical name or non-empty label equals the key when both
    are lower-cased, and [None] exactly when there is no such column.  So
    every column of a table is reachable by its physical name and by its
    label, in any letter case (the column found may be an earlier one that
    carries the same name or label). *)
Theorem get_column_first_match (table : SchemaTable) (name : string) :
  match get_column table name with
  | Some col =>
      exists before after,
        columns table = (before ++ col :: after)%list
        /\ (Py.lower (col_name col) = Py.lower name
            \/ (Py.truthy (field_name col) = true
                /\ Py.lower (label col) = Py.lower name))
        /\ (forall c, In c before -> column_matches (Py.lower name) c = false)
  | None =>
      forall c, In c (columns table) ->
        Py.lower (col_name c) <> Py.lower name
        /\ (Py.truthy (field_name c) = true ->
            Py.lower (label c) <> Py.lower name)
  end
  /\ (forall col,
        In col (columns table) ->
        Py.lower name = Py.lower (col_name col)
        \/ (Py.truthy (field_name col) = true
            /\ Py.lower name = Py.lower (label col)) ->
        exists found, get_column table name = Some found).
Proof.
  assert (Hiff : forall c,
            column_matches (Py.lower name) c = true
            <-> (Py.lower (col_name c) = Py.lower name
                 \/ (Py.truthy (field_name c) = true
                     /\ Py.lower (label c) = Py.lower name))).
  { intros c. unfold column_matches, label.
    rewrite orb_true_iff, andb_true_iff, !String.eqb_eq.
    split; (intros [H | [Ht H]]; [now left | right; split; [assumption |]]).
    - now rewrite (truthy_or_else _ _ Ht).
    - now rewrite <- (truthy_or_else _ (col_name c) Ht). }
  assert (Hspec :
    match get_column table name with
    | Some col =>
        exists before after,
          columns table = (before ++ col :: after)%list
          /\ column_matches (Py.lower name) col = true
          /\ (forall c, In c before -> column_matches (Py.lower name) c = false)
    | None =>
        forall c, In c (columns table) -> column_matches (Py.lower name) c = false
    end).
  { unfold get_column. generalize (Py.lower name) as lowered. intros lowered.
    induction (columns table) as [| c cols IH]; cbn [find].
    - intros c [].
    - destruct (column_matches lowered c) eqn:E.
      + exists [], cols. repeat split; [assumption | intros x []].
      + destruct (find (column_matches lowered) cols) as [col |].
        * destruct IH as (before & after & -> & Hcol & Hbefore).
          exists (c :: before), after. repeat split; [assumption |].
          intros x [<- | Hx]; [assumption | now apply Hbefore].
        * intros x [<- | Hx]; [assumption | now apply IH]. }
  split.
  - destruct (get_column table name) as [found |].
    + destruct Hspec as (before & after & Hcols & Hfound & Hbefore).
      exists before, after. repeat split; try assumption. now apply Hiff.
    + intros c Hc. specialize (Hspec c Hc).
      split.
      * intros H. assert (column_matches (Py.lower name) c = true)
          by (apply Hiff; now left). congruence.
      * intros Ht H. assert (column_matches (Py.lower name) c = true)
          by (apply Hiff; right; now split). congruence.
  - intros col Hin Hkey.
    destruct (get_column table name) as [found |]; [now exists found |].
    assert (column_matches (Py.lower name) col = true).
    { apply Hiff. destruct Hkey as [H | [Ht H]]; [left | right; split]; auto. }
    rewrite (Hspec col Hin) in H. discriminate.
Qed.

(** X2.  [add_table] followed by [get_table]: the table is found under its own
    name; a lookup under a name that neither is this name nor lower-cases to
    it is not affected; the keys stay distinct.  [get_table] itself finds a
    table only under the exact key or under the lower-cased form of the
    requested name. *)
Theorem add_table_get_table (catalog : SchemaCatalog) (table : SchemaTable) :
  get_table (add_table catalog table) (table_name table) = Some table
  /\ (forall name,
        name <> table_name table -> Py.lower name <> table_name table ->
        get_table (add_table catalog table) name = get_table catalog name)
  /\ (unique_keys catalog -> unique_keys (add_table catalog table))
  /\ (forall name found,
        get_table catalog name = Some found ->
        In (name, found) (tables catalog)
        \/ In (Py.lower name, found) (tables catalog)).
Proof.
  unfold get_table, add_table, unique_keys. cbn [tables].
  split; [| split; [| split]].
  - now rewrite dict_get_set_same.
  - intros name Hname Hlower.
    now rewrite !dict_get_set_other by assumption.
  - apply dict_set_NoDup.
  - intros name found.
    destruct (dict_get (tables catalog) name) as [t |] eqn:E.
    + intros H. injection H as <-. left. now apply dict_get_In.
    + intros H. right. now apply dict_get_In.
Qed.

End LookupFacts.

(** ** Request validation *)

Section RequestFacts.

Lemma lstrip_all_space (s : string) :
  Py.all_space s = true -> Py.lstrip s = "".
Proof.
  unfold Py.all_space. induction s as [| c s IH]; [reflexivity |].
  cbn [list_ascii_of_string forallb Py.lstrip]. intros H.
  apply andb_true_iff in H. destruct H as [-> Hs]. now apply IH.
Qed.

Lemma lstrip_cut (s : string) :
  exists w, s = w ++ Py.lstrip s /\ Py.all_space w = true.
Proof.
  induction s as [| c s (w & Hw & Hspace)]; [now exists "" |].
  cbn [Py.lstrip]. destruct (Py.is_space c) eqn:E.
  - exists (String c w). cbn [append]. split; [now rewrite <- Hw |].
    unfold Py.all_space in *. cbn [list_ascii_of_string forallb]. now rewrite E.
  - now exists "".
Qed.

Lemma rstrip_empty (s : string) :
  Py.rstrip s = "" -> Py.all_space s = true.
Proof.
  unfold Py.all_space. induction s as [| c s IH]; [reflexivity |].
  cbn [Py.rstrip list_ascii_of_string forallb].
  destruct (Py.rstrip s) as [| c' r']; [| discriminate].
  destruct (Py.is_space c); [| discriminate]. intros _. now apply IH.
Qed.

(** [strip] gives the empty text exactly for texts of whitespace. *)
Lemma strip_empty_iff (s : string) :
  Py.strip s = "" <-> Py.all_space s = true.
Proof.
  unfold Py.strip. split.
  - intros H. apply rstrip_empty in H.
    destruct (lstrip_cut s) as (w & Hw & Hspace).
    rewrite Hw, all_space_app, Hspace. exact H.
  - intros H. now rewrite (lstrip_all_space s H).
Qed.

Lemma lstrip_rstrip (x : string) :
  Py.lstrip x = x -> Py.lstrip (Py.rstrip x) = Py.rstrip x.
Proof.
  destruct x as [| c r]; [reflexivity |]. cbn [Py.lstrip Py.rstrip].
  destruct (Py.is_space c) eqn:E.
  - intros H. pose proof (lstrip_length r) as Hlen. rewrite H in Hlen.
    cbn [String.length] in Hlen. lia.
  - intros _. destruct (Py.rstrip r); cbn [Py.lstrip]; now rewrite E.
Qed.

Lemma lstrip_idempotent (s : string) : Py.lstrip (Py.lstrip s) = Py.lstrip s.
Proof.
  induction s as [| c s IH]; [reflexivity |]. cbn [Py.lstrip].
  destruct (Py.is_space c) eqn:E; [assumption |]. cbn [Py.lstrip]. now rewrite E.
Qed.

Lemma strip_idempotent (s : string) : Py.strip (Py.strip s) = Py.strip s.
Proof.
  unfold Py.strip.
  rewrite (lstrip_rstrip (Py.lstrip s) (lstrip_idempotent s)).
  apply rstrip_idempotent.
Qed.

(** X3.  The validator of [QueryRequest]: a text of whitespace only is rejected;
    every other text gives a request that carries the trimmed text, is
    well-formed, and passes the validator again unchanged. *)
Theorem QueryRequest_init_validates (id : N) (text : string)
    (previous_error : option string) (metadata : list (string * string)) :
  match QueryRequest_init id text previous_error metadata with
  | Some request =>
      Py.all_space text = false
      /\ user_query request = Py.strip text
      /\ well_formed request
      /\ QueryRequest_init id (user_query request) previous_error metadata
         = Some request
  | None => Py.all_space text = true
  end.
Proof.
  unfold QueryRequest_init.
  destruct (String.eqb_spec (Py.strip text) "") as [Hempty | Hfull].
  - now apply strip_empty_iff.
  - cbn [user_query]. rewrite strip_idempotent.
    destruct (String.eqb_spec (Py.strip text) ""); [contradiction |].
    repeat split.
    + destruct (Py.all_space text) eqn:E; [| reflexivity].
      apply strip_empty_iff in E. contradiction.
    + cbn [user_query]. apply strip_idempotent.
    + assumption.
Qed.

End RequestFacts.

(** ** The connection and the results of a query *)

Section ConnectionFacts.

Import DatabaseManager DatabaseClose.

Lemma _ensure_connection_handles (config : AppConfig) (driver : Driver)
    (self : Handles) :
  fst (_ensure_connection config driver self) = Return tt ->
  exists connection cur,
    snd (_ensure_connection config driver self)
    = {| _connection := Some connection; _cursor := Some cur |}.
Proof.
  unfold _ensure_connection.
  destruct self as [[connection |] [cur |]]; cbn [_connection _cursor fst snd];
    try (intros _; now eauto);
    (destruct (connect driver config) as [c | e]; cbn [fst snd];
       [| destruct (is_Exception e); cbn [fst]; intros H; discriminate H];
     destruct (cursor driver c) as [k | e]; cbn [fst snd];
       [| destruct (is_Exception e); cbn [fst]; intros H; discriminate H];
     intros _; now eauto).
Qed.

Lemma _execute_sync_handles (config : AppConfig) (driver : Driver)
    (self : Handles) (sql : string) (qid : option N) :
  snd (_execute_sync config driver self sql qid)
  = snd (_ensure_connection config driver self).
Proof.
  unfold _execute_sync, _execute_body.
  destruct (_ensure_connection config driver self) as [[[] | exc] self'];
    cbn [snd].
  - destruct (_cursor self') as [cur |].
    + destruct (_ <- _ ;; _) as [result | exc]; [reflexivity |].
      except_clauses exc; reflexivity.
    + reflexivity.
  - except_clauses exc; reflexivity.
Qed.

(** X4.  The connection is made on first use and then kept.  With execution
    enabled, [execute] leaves the two handles exactly as [_ensure_connection]
    left them, whether the query succeeded or the engine reported an error:
    nothing is closed or reset after a failure.  Once both handles are set,
    [_ensure_connection] changes nothing and does not consult the driver, so
    a later query runs on the same cursor. *)
Theorem connection_is_kept (config : AppConfig) (driver : Driver)
    (self : Handles) (sql : string) (qid : option N) :
  (execute_queries config = true ->
   snd (execute config driver self sql qid)
   = snd (_ensure_connection config driver self))
  /\ (fst (_ensure_connection config driver self) = Return tt ->
      exists connection cur,
        snd (_ensure_connection config driver self)
        = {| _connection := Some connection; _cursor := Some cur |}
        /\ forall config' driver',
             _ensure_connection config' driver'
               {| _connection := Some connection; _cursor := Some cur |}
             = (Return tt, {| _connection := Some connection; _cursor := Some cur |}))
  /\ (forall result,
        execute_queries config = true ->
        fst (execute config driver self sql qid) = Return result ->
        forall config' driver',
          _ensure_connection config' driver' (snd (execute config driver self sql qid))
          = (Return tt, snd (execute config driver self sql qid))).
Proof.
  assert (Hexec : execute_queries config = true ->
                  snd (execute config driver self sql qid)
                  = snd (_ensure_connection config driver self)).
  { intros Hon. unfold execute. rewrite Hon. cbn [negb].
    apply _execute_sync_handles. }
  split; [assumption | split].
  - intros Hok. destruct (_ensure_connection_handles _ _ _ Hok)
      as (connection & cur & Hset).
    exists connection, cur. split; [assumption | reflexivity].
  - intros result Hon Hres config' driver'. rewrite (Hexec Hon).
    assert (Hok : fst (_ensure_connection config driver self) = Return tt).
    { unfold execute in Hres. rewrite Hon in Hres. cbn [negb] in Hres.
      unfold _execute_sync, _execute_body in Hres.
      destruct (_ensure_connection config driver self) as [[[] | exc] self'];
        [reflexivity |].
      except_clauses exc; cbn [fst] in Hres; discriminate Hres. }
    destruct (_ensure_connection_handles _ _ _ Hok) as (connection & cur & ->).
    reflexivity.
Qed.

End ConnectionFacts.

Section ShapingFacts.

Import DatabaseManager DatabaseClose.

Lemma dict_set_fresh {V : Type} (d : list (string * V)) (k : string) (v : V) :
  ~ In k (map fst d) -> dict_set d k v = (d ++ [(k, v)])%list.
Proof.
  induction d as [| [k' v'] d IH]; cbn [dict_set map fst In app];
    [reflexivity |].
  intros Hfresh. destruct (String.eqb_spec k' k) as [-> | Hne].
  - exfalso. apply Hfresh. now left.
  - rewrite IH; [reflexivity |]. intros Hin. apply Hfresh. now right.
Qed.

Lemma row_dict_from (columns : list string) :
  forall (row : list value) (d : Row),
    NoDup (map fst d ++ columns) ->
    fold_left (fun d kv => dict_set d (fst kv) (snd kv)) (combine columns row) d
    = (d ++ combine columns row)%list.
Proof.
  induction columns as [| k columns IH]; intros row d Hnodup.
  - cbn. now rewrite app_nil_r.
  - destruct row as [| v row]; [cbn; now rewrite app_nil_r |].
    cbn [combine fold_left fst snd].
    rewrite dict_set_fresh.
    + rewrite IH.
      * now rewrite <- app_assoc.
      * rewrite map_app. cbn [map fst]. rewrite <- app_assoc. exact Hnodup.
    + intros Hin. apply NoDup_remove_2 in Hnodup. apply Hnodup.
      apply in_or_app. now left.
Qed.

(** With distinct column names, [dict(zip(columns, row))] lists the names
    with their values in column order. *)
Lemma row_dict_distinct (columns : list string) (row : list value) :
  NoDup columns -> row_dict columns row = combine columns row.
Proof.
  intros Hnodup. unfold row_dict. now rewrite row_dict_from.
Qed.

(** X5.  The shape of a result.  Execution is enabled, the connection is there
    and the engine accepts the query.  Without a description (a statement
    that returns no columns) the result is empty with [row_count = 0], and
    [fetchall] is not consulted.  With a description, the result has one row
    per fetched row, in the same order, [row_count] counts them, the columns
    are the names of the description and, the names being distinct, every
    row pairs the names with the fetched values in column order.  When
    [fetchall] raises an [Exception], [execute] raises
    [QueryExecutionError] with its text; what is no [Exception] passes
    through as it is. *)
Theorem execute_shapes_rows (config : AppConfig) (driver : Driver)
    (self : Handles) (sql : string) (qid : option N) (executed : Executed) :
  execute_queries config = true ->
  fst (_ensure_connection config driver self) = Return tt ->
  (forall cur, _cursor (snd (_ensure_connection config driver self)) = Some cur ->
               cursor_execute driver cur sql = Return executed) ->
  match cursor_description executed with
  | None =>
      exists result,
        fst (execute config driver self sql qid) = Return result
        /\ rows result = [] /\ result_columns result = []
        /\ row_count result = 0%Z /\ Models.sql result = sql
  | Some columns =>
      match fetchall executed with
      | Return fetched =>
          exists result,
            fst (execute config driver self sql qid) = Return result
            /\ result_columns result = columns
            /\ rows result = map (row_dict columns) fetched
            /\ row_count result = Z.of_nat (List.length fetched)
            /\ (NoDup columns -> rows result = map (combine columns) fetched)
      | Raise exc =>
          fst (execute config driver self sql qid)
          = Raise (if is_Exception exc
                   then mk_exn QueryExecutionError (exn_msg exc)
                   else exc)
      end
  end.
Proof.
  intros Hon Hok Hrun.
  destruct (_ensure_connection_handles _ _ _ Hok) as (connection & cur & Hset).
  specialize (Hrun cur). rewrite Hset in Hrun. specialize (Hrun eq_refl).
  unfold execute. rewrite Hon. cbn [negb].
  unfold _execute_sync, _execute_body.
  destruct (_ensure_connection config driver self) as [[[] | exc] self'];
    cbn [fst snd] in *; [| discriminate Hok].
  subst self'. cbn [_cursor]. rewrite Hrun. cbn [bind].
  destruct (cursor_description executed) as [columns |].
  - destruct (fetchall executed) as [fetched | exc]; cbn [bind fst].
    + eexists. split; [reflexivity |].
      unfold QueryResult_init, _default_row_count.
      cbn [rows result_columns row_count].
      rewrite length_map. repeat split.
      * now destruct (Z.eqb_spec (Z.of_nat (List.length fetched)) 0).
      * intros Hnodup. apply map_ext. intros row.
        now apply row_dict_distinct.
    + rewrite except_clauses_Exception. now destruct (is_Exception exc).
  - cbn [fst]. eexists. split; [reflexivity |]. repeat split.
Qed.

Lemma execute_shapes_rows_witness :
  exists result,
    fst (execute Samples.sample_config
           (Samples.answering_driver Samples.seven_rows) new_handles
           "SELECT platform, views FROM daily" (Some 7%N)) = Return result
    /\ result_columns result = ["platform"; "views"]
    /\ rows result = map (row_dict ["platform"; "views"]) Samples.seven_rows
    /\ row_count result = 7%Z
    /\ (NoDup ["platform"; "views"] ->
        rows result = map (combine ["platform"; "views"]) Samples.seven_rows).
Proof.
  exact (execute_shapes_rows Samples.sample_config
           (Samples.answering_driver Samples.seven_rows) new_handles
           "SELECT platform, views FROM daily" (Some 7%N)
           (mkExecuted (Some ["platform"; "views"]) (Return Samples.seven_rows))
           eq_refl eq_refl (fun cur _ => eq_refl)).
Defined.

(** X6.  [_close_sync] ends with both handles reset, whether it returns
    or raises.  An [Exception] raised by a [close] of the driver is
    swallowed and [_close_sync] returns; what is no [Exception] leaves
    [_close_sync] as it is.  The cursor is closed first; when that raises,
    the connection's [close] is not called at all.  Closing again makes no
    call to the driver, and the next query connects anew, exactly as on a
    fresh manager. *)
Theorem close_resets_handles (closer : Closer) (self : Handles) :
  let '(result, calls, closed) := _close_sync closer self in
  closed = new_handles
  /\ (forall cur exc,
        _cursor self = Some cur -> cursor_close closer cur = Raise exc ->
        result = (if is_Exception exc then Return tt else Raise exc)
        /\ calls = [CursorClose cur])
  /\ (forall connection exc,
        _connection self = Some connection ->
        (forall cur, _cursor self = Some cur ->
                     cursor_close closer cur = Return tt) ->
        connection_close closer connection = Raise exc ->
        result = (if is_Exception exc then Return tt else Raise exc))
  /\ ((forall cur exc,
         cursor_close closer cur = Raise exc -> is_Exception exc = true) ->
      (forall connection exc,
         connection_close closer connection = Raise exc ->
         is_Exception exc = true) ->
      result = Return tt)
  /\ _close_sync closer closed = (Return tt, [], new_handles)
  /\ (forall cur connection,
        _cursor self = Some cur -> _connection self = Some connection ->
        cursor_close closer cur = Return tt ->
        calls = [CursorClose cur; ConnectionClose connection])
  /\ (forall config driver sql qid,
        execute config driver closed sql qid
        = execute config driver new_handles sql qid).
Proof.
  unfold _close_sync, close_body.
  destruct self as [[connection |] [cur |]]; cbn [_connection _cursor];
    try destruct (cursor_close closer cur) as [[] | exc] eqn:Ecur;
    try destruct (connection_close closer connection) as [[] | exc'] eqn:Econ;
    try destruct (is_Exception exc) eqn:Eexc;
    try destruct (is_Exception exc') eqn:Eexc';
    (split; [reflexivity |]);
    (split; [intros c e Hc He; try discriminate Hc; injection Hc as <-;
             try congruence;
             rewrite Ecur in He; injection He as <-; rewrite Eexc;
             split; reflexivity |]);
    (split; [intros k e Hk Hfine He; try discriminate Hk; injection Hk as <-;
             try (specialize (Hfine _ eq_refl); congruence);
             try congruence;
             rewrite Econ in He; injection He as <-; rewrite Eexc';
             reflexivity |]);
    (split; [intros Hcur Hcon; try reflexivity;
             try (rewrite (Hcur _ _ Ecur) in Eexc; discriminate Eexc);
             try (rewrite (Hcon _ _ Econ) in Eexc'; discriminate Eexc') |]);
    (split; [reflexivity |]);
    (split; [| intros; reflexivity]);
    try (intros c k H H' Hfine; injection H as <-; injection H' as <-;
         reflexivity);
    try (intros c k H H' Hfine; injection H as <-; congruence);
    try (intros c k H H' Hfine; discriminate H);
    try (intros c k H H' Hfine; discriminate H').
Qed.

End ShapingFacts.

(** ** What sanitising guarantees for every reply *)

Section SanitiseFacts.

Import AIService.

(** Compares the leading characters of the strings under [prefix]. *)
Ltac heads :=
  repeat (cbn [prefix append] in *; rewrite ?prefix_empty in *;
          match goal with
          | |- context [ascii_dec ?a ?b] => destruct (ascii_dec a b); subst
          | H : context [ascii_dec ?a ?b] |- _ => destruct (ascii_dec a b); subst
          end);
  cbn [prefix append] in *; rewrite ?prefix_empty in *;
  try congruence; try reflexivity.

Lemma sub_fence_no_new_tick (r : string) :
  prefix "`" r = false -> prefix "`" (sub_fence 0 r) = false.
Proof.
  destruct r as [| c r]; [reflexivity |]. intros H.
  rewrite sub_fence_copy by (now apply no_tick_no_fence).
  heads.
Qed.

Lemma sub_fence_no_new_pair (r : string) :
  prefix "``" r = false -> prefix "``" (sub_fence 0 r) = false.
Proof.
  destruct r as [| c r]; [reflexivity |]. intros H.
  assert (Hfence : prefix "```" (String c r) = false).
  { destruct (prefix "```" (String c r)) eqn:E; [| reflexivity].
    apply (prefix_app_l "``" "`") in E. congruence. }
  rewrite (sub_fence_copy _ _ Hfence).
  cbn [prefix] in *. destruct (ascii_dec "`" c); [| reflexivity].
  change (prefix "`" (sub_fence 0 r) = false). apply sub_fence_no_new_tick.
  destruct r; heads.
Qed.

(** Removing the fences never leaves a fence behind, nor puts one together
    from what remains. *)
Lemma sub_fence_leaves_no_fence (s : string) :
  forall skip, Py.contains "```" (sub_fence skip s) = false.
Proof.
  induction s as [| c r IH]; intros skip; [now destruct skip |].
  destruct skip as [| k]; [| rewrite sub_fence_skip; apply IH].
  rewrite sub_fence_unfold.
  destruct (prefix "```sql" (String c r)); [apply IH |].
  destruct (prefix "```" (String c r)) eqn:E; [apply IH |].
  cbn [Py.contains]. rewrite IH, orb_false_r.
  cbn [prefix] in *. destruct (ascii_dec "`" c); [| reflexivity].
  change (prefix "``" (sub_fence 0 r) = false). apply sub_fence_no_new_pair.
  exact E.
Qed.

Lemma prefix_app_r (x s b : string) :
  prefix x s = true -> prefix x (s ++ b) = true.
Proof.
  revert s. induction x as [| c x IH]; intros s H; [apply prefix_empty |].
  destruct s as [| d s]; [discriminate H |]. cbn [append prefix] in *.
  destruct (ascii_dec c d); [now apply IH | discriminate H].
Qed.

Lemma contains_app_l (x s b : string) :
  Py.contains x s = true -> Py.contains x (s ++ b) = true.
Proof.
  induction s as [| c s IH]; intros H.
  - cbn [Py.contains] in H. rewrite orb_false_r in H.
    destruct x; [| discriminate H]. apply contains_prefix, prefix_empty.
  - cbn [Py.contains append] in *. apply orb_true_iff in H.
    destruct H as [H | H].
    + change (String c (s ++ b)) with (String c s ++ b).
      now rewrite (prefix_app_r _ _ b H).
    + rewrite (IH H). apply orb_true_r.
Qed.

(** What does not occur in a text does not occur in a part of it. *)
Lemma contains_part_false (x a s b : string) :
  Py.contains x (a ++ s ++ b) = false -> Py.contains x s = false.
Proof.
  intros H. destruct (Py.contains x s) eqn:E; [| reflexivity].
  rewrite <- H. symmetry. now apply contains_app_r, contains_app_l.
Qed.

Lemma strip_is_part (s : string) : exists a b, s = a ++ Py.strip s ++ b.
Proof.
  unfold Py.strip. destruct (lstrip_cut s) as (a & Ha & _).
  destruct (rstrip_cut (Py.lstrip s)) as [b Hb].
  exists a, b. now rewrite <- Hb.
Qed.

Lemma drop_last_is_part (s : string) : exists b, s = Py.drop_last s ++ b.
Proof.
  induction s as [| c s [b IH]]; [now exists "" |].
  cbn [Py.drop_last]. destruct s as [| d s].
  - now exists (String c "").
  - exists b. cbn [append]. now rewrite <- IH.
Qed.

Lemma strip_lstrip_fixed (s : string) : Py.lstrip (Py.strip s) = Py.strip s.
Proof. unfold Py.strip. apply lstrip_rstrip, lstrip_idempotent. Qed.

Lemma drop_last_lstrip_fixed (s : string) :
  Py.lstrip s = s -> Py.lstrip (Py.drop_last s) = Py.drop_last s.
Proof.
  destruct s as [| c s]; [reflexivity |]. cbn [Py.lstrip Py.drop_last].
  destruct (Py.is_space c) eqn:E.
  - intros H. pose proof (lstrip_length s) as Hlen. rewrite H in Hlen.
    cbn [String.length] in Hlen. lia.
  - intros _. destruct s; cbn [Py.lstrip]; [reflexivity | now rewrite E].
Qed.

(** X7.  Whatever text the model replies with, the SQL that [_clean_sql_query]
    returns, and so the SQL that [generate_sql_query] hands on, holds no
    code-fence marker and does not begin with whitespace. *)
Theorem clean_sql_query_has_no_fence (config : AppConfig) (client : Client)
    (request : QueryRequest) (schema : SchemaCatalog) :
  (forall reply,
     Py.contains "```" (_clean_sql_query reply) = false
     /\ Py.lstrip (_clean_sql_query reply) = _clean_sql_query reply)
  /\ (forall sql,
        generate_sql_query config client request schema = Return sql ->
        Py.contains "```" sql = false /\ Py.lstrip sql = sql).
Proof.
  assert (Hclean : forall reply,
            Py.contains "```" (_clean_sql_query reply) = false
            /\ Py.lstrip (_clean_sql_query reply) = _clean_sql_query reply).
  { intros reply. unfold _clean_sql_query.
    set (bare := sub_fence 0 reply).
    assert (Hbare : Py.contains "```" bare = false)
      by apply sub_fence_leaves_no_fence.
    assert (Hstrip : Py.contains "```" (Py.strip bare) = false).
    { destruct (strip_is_part bare) as (a & b & Hab).
      rewrite Hab in Hbare. now apply contains_part_false in Hbare. }
    destruct (Py.endswith_char (Py.strip bare) ";").
    - split.
      + destruct (drop_last_is_part (Py.strip bare)) as [b Hb].
        rewrite Hb in Hstrip.
        apply (contains_part_false _ "" _ b). exact Hstrip.
      + apply drop_last_lstrip_fixed, strip_lstrip_fixed.
    - split; [assumption | apply strip_lstrip_fixed]. }
  split; [assumption |].
  intros sql. unfold generate_sql_query.
  destruct (client _) as [response | exc];
    [| destruct (is_Exception exc); discriminate].
  destruct (first_content response) as [content | exc]; [| discriminate].
  cbn [bind]. destruct (content_strip content) as [text | exc]; [| discriminate].
  cbn [bind]. intros H. injection H as <-. apply Hclean.
Qed.

End SanitiseFacts.

(** ** The pipeline over the services of the container *)

Section PipelineFacts.

Import QueryProcessor.

(** Once the classifier has put a request on the data path. *)
Lemma process_data_path (str_row : Row -> string)
    (ai : Interfaces.AIServiceProtocol) (triage : Interfaces.TriageServiceProtocol)
    (db : Interfaces.DatabaseExecutorProtocol) (config : AppConfig)
    (request : QueryRequest) :
  Interfaces.classify_query triage request = Return "DATA_QUESTION" ->
  process str_row ai triage db config request
  = _handle_data_question str_row ai db config request.
Proof. intros H. unfold process. now rewrite H. Qed.

(** X8.  Preview mode.  With execution disabled, a data question is
    answered with the heading, the generated SQL and the no-results
    sentence, whatever the driver and the connection are: the driver is not
    consulted and the handles stay as they were. *)
Theorem preview_mode_runs_nothing (str_row : Row -> string)
    (config : AppConfig) (client : Client) (driver : DatabaseManager.Driver)
    (self : DatabaseManager.Handles) (schema : SchemaCatalog)
    (request : QueryRequest) (sql : string) :
  execute_queries config = false ->
  fst (TriageService.classify_query config client request)
  = Return "DATA_QUESTION" ->
  AIService.generate_sql_query config client request schema = Return sql ->
  Container.process str_row config client driver self (Return schema) request
  = Return ("Generated SQL Query:" ++ Py.newline ++ Py.newline ++ sql
            ++ Py.newline ++ Py.newline ++ "No results were returned.")
  /\ snd (DatabaseManager.execute config driver self sql (Some (id request)))
     = self.
Proof.
  intros Hoff Hclass Hsql.
  assert (Hexec : DatabaseManager.execute config driver self sql
                    (Some (id request))
                  = (Return {| query_id := id request; sql := sql; rows := [];
                               result_columns := []; row_count := 0;
                               execution_ms := None; cached := false |},
                     self)).
  { unfold DatabaseManager.execute. now rewrite Hoff. }
  split.
  - unfold Container.process.
    rewrite process_data_path by exact Hclass.
    unfold _handle_data_question.
    cbn [Interfaces.get_schema Interfaces.generate_sql_query Interfaces.execute
         Container.database Container.ai_service].
    rewrite Hsql, Hexec. cbn [fst].
    unfold _format_success_response, sql_heading. cbn [rows].
    now rewrite !append_assoc.
  - now rewrite Hexec.
Qed.

Lemma preview_mode_runs_nothing_witness :
  Container.process Samples.str_row MoreSamples.preview_config
    (MoreSamples.scripted_client "DATA_QUESTION" "SELECT count(*) FROM daily;")
    Samples.refusing_driver DatabaseManager.new_handles
    (Return Samples.sessions_catalog) Samples.views_question
  = Return ("Generated SQL Query:" ++ Py.newline ++ Py.newline
            ++ "SELECT count(*) FROM daily"
            ++ Py.newline ++ Py.newline ++ "No results were returned.").
Proof.
  exact (proj1 (preview_mode_runs_nothing Samples.str_row
                  MoreSamples.preview_config
                  (MoreSamples.scripted_client "DATA_QUESTION"
                     "SELECT count(*) FROM daily;")
                  Samples.refusing_driver DatabaseManager.new_handles
                  Samples.sessions_catalog Samples.views_question
                  "SELECT count(*) FROM daily" eq_refl eq_refl eq_refl)).
Defined.

(** X9.  With the [DatabaseManager] behind the pipeline, a data question
    whose execution fails is never answered with the sentence that the
    database cannot be reached.  When [execute] raises an [Exception], a
    refused connection included, it is a [QueryExecutionError], and the
    answer is the heading, the generated SQL and the sentence that the query
    failed to execute; what is no [Exception] leaves [process] as it is. *)
Theorem execution_failure_shows_sql (str_row : Row -> string)
    (config : AppConfig) (client : Client) (driver : DatabaseManager.Driver)
    (self : DatabaseManager.Handles) (schema : SchemaCatalog)
    (request : QueryRequest) (sql : string) (exc : exn) :
  fst (TriageService.classify_query config client request)
  = Return "DATA_QUESTION" ->
  AIService.generate_sql_query config client request schema = Return sql ->
  fst (DatabaseManager.execute config driver self sql (Some (id request)))
  = Raise exc ->
  (if is_Exception exc
   then exn_cls exc = QueryExecutionError
        /\ Container.process str_row config client driver self (Return schema)
             request
           = Return ("Generated SQL Query:" ++ Py.newline ++ Py.newline ++ sql
                     ++ Py.newline ++ Py.newline
                     ++ "The query failed to execute. Please review the SQL and try again.")
   else Container.process str_row config client driver self (Return schema)
          request
        = Raise exc)
  /\ Container.process str_row config client driver self (Return schema) request
     <> Return "Unable to connect to the database right now. Please try again later.".
Proof.
  intros Hclass Hsql Hexec.
  pose proof (execute_raises_only_QueryExecutionError _ _ _ _ _ _ Hexec) as Hcls.
  unfold Container.process. rewrite process_data_path by exact Hclass.
  destruct (is_Exception exc) eqn:Hexception.
  - destruct Hcls as [Hcls | Hbase]; [| discriminate Hbase].
    assert (Hanswer : _handle_data_question str_row
                        (Container.ai_service config client)
                        (Container.database config driver self (Return schema))
                        config request
                      = Return ("Generated SQL Query:" ++ Py.newline
                                ++ Py.newline ++ sql ++ Py.newline ++ Py.newline
                                ++ "The query failed to execute. Please review the SQL and try again.")).
    { unfold _handle_data_question.
      cbn [Interfaces.get_schema Interfaces.generate_sql_query
           Interfaces.execute Container.database Container.ai_service].
      rewrite Hsql, Hexec, (isinstance_own_class exc _ Hcls).
      unfold EXECUTION_FALLBACK, sql_heading. now rewrite !append_assoc. }
    rewrite Hanswer. split; [now split |]. intros H. discriminate H.
  - assert (Hanswer : _handle_data_question str_row
                        (Container.ai_service config client)
                        (Container.database config driver self (Return schema))
                        config request
                      = Raise exc).
    { apply (proj2 (_handle_data_question_passes_base_exceptions str_row
                      (Container.ai_service config client)
                      (Container.database config driver self (Return schema))
                      config request exc Hexception) schema sql);
        [reflexivity | exact Hsql | exact Hexec]. }
    rewrite Hanswer. split; [reflexivity | discriminate].
Qed.

Lemma execution_failure_shows_sql_witness :
  Container.process Samples.str_row Samples.sample_config
    (MoreSamples.scripted_client "DATA_QUESTION" "SELECT count(*) FROM daily;")
    Samples.refusing_driver DatabaseManager.new_handles
    (Return Samples.sessions_catalog) Samples.views_question
  = Return ("Generated SQL Query:" ++ Py.newline ++ Py.newline
            ++ "SELECT count(*) FROM daily" ++ Py.newline ++ Py.newline
            ++ "The query failed to execute. Please review the SQL and try again.").
Proof.
  exact (proj2 (proj1
    (execution_failure_shows_sql Samples.str_row Samples.sample_config
       (MoreSamples.scripted_client "DATA_QUESTION" "SELECT count(*) FROM daily;")
       Samples.refusing_driver DatabaseManager.new_handles
       Samples.sessions_catalog Samples.views_question
       "SELECT count(*) FROM daily"
       (mk_exn QueryExecutionError "connection refused")
       eq_refl eq_refl eq_refl))).
Defined.

(** X10.  When every request to the remote service fails with an
    [Exception], [process] still answers: a question that holds a greeting
    keyword gets the apology of the conversational path, every other
    question the request to rephrase.  The schema and the database play no
    part in the answer. *)
Theorem remote_failure_is_answered (str_row : Row -> string)
    (config : AppConfig) (client : Client) (driver : DatabaseManager.Driver)
    (self : DatabaseManager.Handles) (schema : outcome SchemaCatalog)
    (request : QueryRequest) :
  (forall call, exists exc, client call = Raise exc /\ is_Exception exc = true) ->
  Container.process str_row config client driver self schema request
  = Return (if TriageService.has_greeting_keyword
                 (Py.lower (user_query request))
            then "I ran into an issue while answering that. Please try again shortly."
            else "I could not determine how to handle that question. Please try rephrasing.").
Proof.
  intros Hdown. unfold Container.process, process.
  cbn [Interfaces.classify_query Container.triage_service].
  unfold TriageService.classify_query.
  destruct (TriageService.has_greeting_keyword _).
  - cbn [fst]. cbn [String.eqb Ascii.eqb Bool.eqb orb].
    unfold _handle_general_question.
    cbn [Interfaces.answer_general_question Container.ai_service].
    unfold AIService.answer_general_question.
    destruct (Hdown (AIService.general_request config request))
      as (exc & -> & ->).
    reflexivity.
  - destruct (Hdown (TriageService.classification_request config request))
      as (exc & -> & ->).
    reflexivity.
Qed.

Lemma remote_failure_is_answered_witness :
  Container.process Samples.str_row Samples.sample_config MoreSamples.failing_client
    Samples.refusing_driver DatabaseManager.new_handles
    (Return Samples.sessions_catalog) Samples.views_question
  = Return "I could not determine how to handle that question. Please try rephrasing.".
Proof.
  apply (remote_failure_is_answered Samples.str_row Samples.sample_config
           MoreSamples.failing_client Samples.refusing_driver
           DatabaseManager.new_handles (Return Samples.sessions_catalog)
           Samples.views_question).
  intros call. eexists. split; reflexivity.
Defined.

End PipelineFacts.

(** ** The schema gate with both kinds of callers *)

Section GateOrder.

Import SchemaGate.

Variable disk : Disk.

Lemma filter_at_most_one {A : Type} (p : A -> bool) (l : list A) :
  forall i j a b,
    List.length (filter p l) <= 1 ->
    nth_error l i = Some a -> nth_error l j = Some b ->
    p a = true -> p b = true -> i = j.
Proof.
  induction l as [| x l IH]; intros [| i] [| j] a b Hlen Hi Hj Ha Hb;
    try discriminate Hi; try discriminate Hj; try reflexivity;
    cbn [nth_error] in Hi, Hj; cbn [filter] in Hlen.
  - injection Hi as ->. rewrite Ha in Hlen. cbn [List.length] in Hlen.
    apply nth_error_In in Hj.
    rewrite (filter_none p l b) in Hb; [discriminate Hb | lia | assumption].
  - injection Hj as ->. rewrite Hb in Hlen. cbn [List.length] in Hlen.
    apply nth_error_In in Hi.
    rewrite (filter_none p l a) in Ha; [discriminate Ha | lia | assumption].
  - f_equal. apply (IH i j a b); try assumption.
    destruct (p x); cbn [List.length] in Hlen; lia.
Qed.

Lemma filter_inhabited {A : Type} (p : A -> bool) (l : list A) (t : A) :
  In t l -> p t = true -> 0 < List.length (filter p l).
Proof.
  intros Hin Hp.
  destruct (List.length (filter p l)) as [| n] eqn:E; [| lia].
  rewrite (filter_none p l t E Hin) in Hp. discriminate Hp.
Qed.

(** A task inside the load holds the lock, and nothing is published. *)
Lemma in_load_holds_lock (st : state) (i : nat) (w : call) (k : nat) :
  gate_inv disk st ->
  nth_error (tasks st) i = Some (mkTask w (InLoad k)) ->
  w = GetSchema /\ S k = loads st /\ _schema_load_lock st = true
  /\ _loaded_schema st = None /\ count in_load st = 1.
Proof.
  intros Hinv Hi.
  pose proof (inv_tasks _ _ Hinv _ (nth_error_In _ _ Hi)) as Hok.
  unfold task_ok in Hok. cbn [at_pc what] in Hok. destruct Hok as [Hw Hk].
  pose proof (filter_inhabited in_load _ _ (nth_error_In _ _ Hi) eq_refl) as Hpos.
  pose proof (inv_lock _ _ Hinv) as Hlock. unfold count in Hlock.
  destruct (_schema_load_lock st) eqn:El; cbn [Nat.b2n] in Hlock; [| lia].
  repeat (split; [assumption || reflexivity |]). split; [| exact Hlock].
  destruct (_loaded_schema st) as [schema |] eqn:Es; [| reflexivity].
  destruct (inv_loaded _ _ Hinv schema Es) as [Hfree _]. congruence.
Qed.

(** A step from a state with a published catalog finishes a task that was
    just created, with that catalog, and changes nothing else. *)
Lemma step_after_publication (i : nat) (st st' : state) (schema : SchemaCatalog) :
  gate_inv disk st -> _loaded_schema st = Some schema ->
  step disk i st = Some st' ->
  _loaded_schema st' = Some schema /\ loads st' = loads st
  /\ exists w, nth_error (tasks st) i = Some (mkTask w Invoked)
               /\ tasks st'
                  = set_nth i (mkTask w (Finished (Return schema))) (tasks st).
Proof.
  intros Hinv Hs. unfold step.
  destruct (nth_error (tasks st) i) as [[w p] |] eqn:Hold; [| discriminate].
  destruct (inv_loaded _ _ Hinv schema Hs) as [Hfree _].
  destruct w; destruct p as [| k | o]; try discriminate.
  - rewrite Hfree, Hs. intros H. injection H as <-. cbn [_loaded_schema loads tasks].
    repeat split; try assumption. now exists GetSchema.
  - destruct (in_load_holds_lock st i GetSchema k Hinv Hold) as (_ & _ & _ & Hnone & _).
    congruence.
  - pose proof (inv_event _ _ Hinv) as Hevent. unfold is_loaded in Hevent.
    rewrite Hs in Hevent. rewrite Hevent, Hs.
    intros H. injection H as <-. cbn [_loaded_schema loads tasks].
    repeat split; try assumption. now exists WaitForSchema.
Qed.

Lemma run_after_publication (later : list nat) (schema : SchemaCatalog) :
  forall st st',
    gate_inv disk st -> _loaded_schema st = Some schema ->
    run disk later st = Some st' ->
    _loaded_schema st' = Some schema /\ loads st' = loads st
    /\ forall i t, nth_error (tasks st') i = Some t ->
                   nth_error (tasks st) i = Some t
                   \/ at_pc t = Finished (Return schema).
Proof.
  induction later as [| n rest IH]; intros st st' Hinv Hs Hrun.
  - injection Hrun as <-. repeat split; try assumption. intros i t Hi. now left.
  - cbn [run] in Hrun.
    destruct (step disk n st) as [st1 |] eqn:Hstep; [| discriminate Hrun].
    destruct (step_after_publication n st st1 schema Hinv Hs Hstep)
      as (Hs1 & Hl1 & w & Hold & Htasks).
    destruct (IH st1 st' (gate_inv_step disk n st st1 Hinv Hstep) Hs1 Hrun)
      as (Hs' & Hl' & Hkept).
    split; [assumption | split; [congruence |]].
    intros i t Hi. destruct (Hkept i t Hi) as [Hsame | Hdone]; [| now right].
    rewrite Htasks in Hsame. destruct (Nat.eq_dec n i) as [-> | Hne].
    + rewrite (nth_error_set_nth_same _ _ _ _ Hold) in Hsame.
      injection Hsame as <-. now right.
    + rewrite (nth_error_set_nth_other _ _ _ _ Hne) in Hsame. now left.
Qed.

(** X11.  The load is exclusive.  On a manager with any mix of [get_schema] and
    [wait_for_schema] tasks, resumed in any order, two tasks are never inside
    [_load_schema_from_disk] together.  While one is, it is a [get_schema]
    task running the latest load, it holds the lock, nothing is published,
    every earlier load has failed, and no other task can be resumed. *)
Theorem schema_load_is_exclusive (calls : list call) (schedule : list nat)
    (st : state) (i : nat) (w : call) (k : nat) :
  run disk schedule (init calls) = Some st ->
  nth_error (tasks st) i = Some (mkTask w (InLoad k)) ->
  w = GetSchema /\ S k = loads st
  /\ _schema_load_lock st = true /\ _loaded_schema st = None
  /\ (forall m, m < k -> exists exc, disk m = Raise exc)
  /\ (forall j, j <> i -> step disk j st = None).
Proof.
  intros Hrun Hi.
  pose proof (gate_inv_run disk schedule _ _ (gate_inv_init disk _) Hrun) as Hinv.
  destruct (in_load_holds_lock st i w k Hinv Hi) as (Hw & Hk & Hlock & Hnone & Hone).
  repeat (split; [assumption |]). split.
  - intros m Hm. apply (inv_failed _ _ Hinv).
    unfold is_loaded. rewrite Hnone, Hone. cbn [Nat.b2n]. lia.
  - intros j Hne. unfold step.
    destruct (nth_error (tasks st) j) as [[w' p] |] eqn:Hj; [| reflexivity].
    destruct w'; destruct p as [| k' | o]; try reflexivity.
    + now rewrite Hlock.
    + exfalso. apply Hne.
      apply (filter_at_most_one in_load (tasks st) j i
               (mkTask GetSchema (InLoad k')) (mkTask w (InLoad k)));
        try assumption; try reflexivity.
      unfold count in Hone. lia.
    + pose proof (inv_event _ _ Hinv) as Hevent. unfold is_loaded in Hevent.
      rewrite Hnone in Hevent. now rewrite Hevent.
Qed.

(** X12.  A published catalog is final.  Once [_loaded_schema] is set, no
    later resumption replaces it or reads the file again: the catalog and the
    number of loads stay as they are, and every task that finishes from then
    on returns that catalog. *)
Theorem published_schema_is_final (calls : list call) (schedule later : list nat)
    (st st' : state) (schema : SchemaCatalog) :
  run disk schedule (init calls) = Some st ->
  _loaded_schema st = Some schema ->
  run disk later st = Some st' ->
  _loaded_schema st' = Some schema /\ loads st' = loads st
  /\ forall i t, nth_error (tasks st') i = Some t ->
                 nth_error (tasks st) i = Some t
                 \/ at_pc t = Finished (Return schema).
Proof.
  intros Hrun Hs Hlater.
  apply (run_after_publication later schema st st'); try assumption.
  apply (gate_inv_run disk schedule _ _ (gate_inv_init disk _) Hrun).
Qed.

(** X13.  Failed loads release nobody.  When the schema file cannot be loaded,
    at any attempt, nothing is ever published and the event is never set:
    every [wait_for_schema] task stays where it was created and cannot be
    resumed, and every [get_schema] task that has finished raised. *)
Theorem failed_loads_release_nobody (calls : list call) (schedule : list nat)
    (st : state) :
  (forall k, exists exc, disk k = Raise exc) ->
  run disk schedule (init calls) = Some st ->
  _loaded_schema st = None /\ _schema_loaded st = false
  /\ (forall i p, nth_error (tasks st) i = Some (mkTask WaitForSchema p) ->
                  p = Invoked /\ step disk i st = None)
  /\ (forall i o, nth_error (tasks st) i = Some (mkTask GetSchema (Finished o)) ->
                  exists exc, o = Raise exc)
  /\ loads st = count has_raised st + count in_load st.
Proof.
  intros Hbad Hrun.
  pose proof (gate_inv_run disk schedule _ _ (gate_inv_init disk _) Hrun) as Hinv.
  assert (Hnone : _loaded_schema st = None).
  { destruct (_loaded_schema st) as [schema |] eqn:Es; [| reflexivity].
    destruct (inv_loaded _ _ Hinv schema Es) as [_ (k & _ & Hk)].
    destruct (Hbad k) as [exc Hexc]. congruence. }
  assert (Hevent : _schema_loaded st = false).
  { rewrite (inv_event _ _ Hinv). unfold is_loaded. now rewrite Hnone. }
  split; [assumption | split; [assumption | split; [| split]]].
  - intros i p Hi.
    pose proof (inv_tasks _ _ Hinv _ (nth_error_In _ _ Hi)) as Hok.
    unfold task_ok in Hok. cbn [at_pc what] in Hok.
    destruct p as [| k | [schema | exc]].
    + split; [reflexivity |]. unfold step. now rewrite Hi, Hevent.
    + destruct Hok as [Hw _]. discriminate Hw.
    + congruence.
    + discriminate Hok.
  - intros i o Hi.
    pose proof (inv_tasks _ _ Hinv _ (nth_error_In _ _ Hi)) as Hok.
    unfold task_ok in Hok. cbn [at_pc what] in Hok.
    destruct o as [schema | exc]; [congruence | now exists exc].
  - pose proof (inv_loads _ _ Hinv) as Hloads. unfold is_loaded in Hloads.
    rewrite Hnone in Hloads. cbn [Nat.b2n] in Hloads. lia.
Qed.

(** *** Progress with waiters *)

Lemma mixed_progress (st : state) (schema : SchemaCatalog) :
  gate_inv disk st -> disk 0 = Return schema ->
  In GetSchema (map what (tasks st)) ->
  all_finished st = false ->
  exists i st', step disk i st = Some st'.
Proof.
  intros Hinv Hfirst Hget Hopen.
  destruct (_loaded_schema st) as [published |] eqn:Es.
  - destruct (unfinished_task _ Hopen) as (i & [w p] & Hi & Hp).
    destruct (inv_loaded _ _ Hinv published Es) as [Hfree _].
    exists i. unfold step. rewrite Hi.
    destruct p as [| k | o]; [| | discriminate Hp].
    + destruct w.
      * rewrite Hfree, Es. eexists. reflexivity.
      * pose proof (inv_event _ _ Hinv) as Hevent. unfold is_loaded in Hevent.
        rewrite Es in Hevent. rewrite Hevent. eexists. reflexivity.
    + destruct (in_load_holds_lock st i w k Hinv Hi) as (_ & _ & _ & Hnone & _).
      congruence.
  - pose proof (inv_lock _ _ Hinv) as Hlock.
    destruct (_schema_load_lock st) eqn:El; cbn [Nat.b2n] in Hlock.
    + destruct (filter_some in_load (tasks st)) as (i & [w p] & Hi & Hp).
      { unfold count in Hlock. lia. }
      unfold in_load in Hp. cbn [at_pc] in Hp.
      destruct p as [| k | o]; try discriminate Hp.
      destruct (in_load_holds_lock st i w k Hinv Hi) as (-> & _).
      exists i. unfold step. rewrite Hi. destruct (disk k); eexists; reflexivity.
    + apply in_map_iff in Hget. destruct Hget as ([w p] & Hw & Hin).
      cbn [what] in Hw. subst w.
      destruct (first_load_only disk st schema Hinv Hfirst) as (_ & Hnoraise & _).
      destruct p as [| k | [published | exc]].
      * destruct (In_nth_error _ _ Hin) as [i Hi].
        exists i. unfold step. rewrite Hi, El, Es. eexists. reflexivity.
      * pose proof (no_task_in_load st _ Hlock Hin) as Hno. discriminate Hno.
      * pose proof (inv_tasks _ _ Hinv _ Hin) as Hok.
        unfold task_ok in Hok. cbn [at_pc] in Hok. congruence.
      * pose proof (filter_none has_raised _ _ Hnoraise Hin) as Hno.
        discriminate Hno.
Qed.

Lemma mixed_completes (schema : SchemaCatalog) (bound : nat) :
  forall st,
    work_left st <= bound ->
    gate_inv disk st -> disk 0 = Return schema ->
    In GetSchema (map what (tasks st)) ->
    exists rest st', run disk rest st = Some st' /\ all_finished st' = true.
Proof.
  induction bound as [| bound IH]; intros st Hwork Hinv Hfirst Hget;
    destruct (all_finished st) eqn:Hopen;
    try (exists [], st; now split).
  - destruct (mixed_progress st schema Hinv Hfirst Hget Hopen) as (i & st1 & Hstep).
    pose proof (step_work_left disk i st st1 Hstep). lia.
  - destruct (mixed_progress st schema Hinv Hfirst Hget Hopen) as (i & st1 & Hstep).
    pose proof (step_work_left disk i st st1 Hstep) as Hless.
    destruct (IH st1) as (rest & st' & Hrun & Hdone).
    + lia.
    + now apply (gate_inv_step disk i st).
    + assumption.
    + now rewrite (step_what disk i st st1 Hstep).
    + exists (i :: rest), st'. cbn [run]. rewrite Hstep. now split.
Qed.

Lemma run_app (a b : list nat) :
  forall st st1 st2,
    run disk a st = Some st1 -> run disk b st1 = Some st2 ->
    run disk (a ++ b)%list st = Some st2.
Proof.
  induction a as [| i a IH]; intros st st1 st2 Ha Hb.
  - injection Ha as <-. exact Hb.
  - cbn [run app] in *. destruct (step disk i st) as [s |]; [| discriminate Ha].
    now apply (IH s st1 st2).
Qed.

Lemma map_ext_what (l : list task) (schema : SchemaCatalog) :
  (forall t, In t l -> at_pc t = Finished (Return schema)) ->
  l = map (fun c => mkTask c (Finished (Return schema))) (map what l).
Proof.
  induction l as [| [w p] l IH]; intros H; [reflexivity |].
  cbn [map what]. f_equal.
  - f_equal. apply (H (mkTask w p)). now left.
  - apply IH. intros t Ht. apply H. now right.
Qed.

(** X14.  One successful load releases everybody.  When the schema file can be
    loaded and at least one task calls [get_schema], then from every state
    the tasks can reach, whatever the order of resumptions so far, all of
    them can be run to their end; at that end the file was read once and
    every task, [wait_for_schema] ones included, has returned the catalog of
    that load. *)
Theorem successful_load_releases_everybody (calls : list call)
    (schedule : list nat) (st : state) (schema : SchemaCatalog) :
  In GetSchema calls -> disk 0 = Return schema ->
  run disk schedule (init calls) = Some st ->
  exists rest st',
    run disk (schedule ++ rest)%list (init calls) = Some st'
    /\ loads st' = 1
    /\ _loaded_schema st' = Some schema
    /\ tasks st' = map (fun c => mkTask c (Finished (Return schema))) calls.
Proof.
  intros Hget Hfirst Hrun.
  pose proof (gate_inv_run disk schedule _ _ (gate_inv_init disk _) Hrun) as Hinv.
  pose proof (run_what disk schedule _ _ Hrun) as Hwhat. rewrite init_what in Hwhat.
  destruct (mixed_completes schema (work_left st) st (Nat.le_refl _) Hinv Hfirst)
    as (rest & st' & Hrest & Hdone).
  { now rewrite Hwhat. }
  exists rest, st'.
  pose proof (gate_inv_run disk rest _ _ Hinv Hrest) as Hinv'.
  pose proof (run_what disk rest _ _ Hrest) as Hwhat'. rewrite Hwhat in Hwhat'.
  destruct (first_load_only disk st' schema Hinv' Hfirst) as (_ & Hnoraise & Hpub).
  assert (Heach : forall t, In t (tasks st') ->
                            at_pc t = Finished (Return schema)
                            /\ _loaded_schema st' = Some schema
                            /\ loads st' = 1).
  { intros t Ht. unfold all_finished in Hdone. rewrite forallb_forall in Hdone.
    pose proof (Hdone t Ht) as Hfin. unfold is_finished in Hfin.
    pose proof (inv_tasks _ _ Hinv' t Ht) as Hok. unfold task_ok in Hok.
    pose proof (filter_none has_raised _ t Hnoraise Ht) as Hno.
    unfold has_raised in Hno.
    destruct (at_pc t) as [| k | [published | exc]]; try discriminate Hfin;
      try discriminate Hno.
    destruct (Hpub published Hok) as [-> Hone]. repeat split; assumption. }
  assert (Hsome : exists t, In t (tasks st')).
  { rewrite <- Hwhat' in Hget. apply in_map_iff in Hget.
    destruct Hget as (t & _ & Ht). now exists t. }
  destruct Hsome as [t Ht]. destruct (Heach t Ht) as (_ & Hs & Hone).
  split; [now apply (run_app schedule rest _ st) |].
  split; [assumption | split; [assumption |]].
  rewrite <- Hwhat'. apply map_ext_what. intros t' Ht'. now apply Heach.
Qed.

End GateOrder.

Lemma schema_load_is_exclusive_witness :
  exists st,
    SchemaGate.run Samples.ready_disk [1]
      (SchemaGate.init [SchemaGate.WaitForSchema; SchemaGate.GetSchema;
                        SchemaGate.GetSchema]) = Some st
    /\ SchemaGate.step Samples.ready_disk 0 st = None
    /\ SchemaGate.step Samples.ready_disk 2 st = None.
Proof.
  eexists. split; [reflexivity |].
  destruct (schema_load_is_exclusive Samples.ready_disk
              [SchemaGate.WaitForSchema; SchemaGate.GetSchema; SchemaGate.GetSchema]
              [1] _ 1 SchemaGate.GetSchema 0 eq_refl eq_refl)
    as (_ & _ & _ & _ & _ & Hblocked).
  split; apply Hblocked; discriminate.
Defined.

Lemma published_schema_is_final_witness :
  exists st st',
    SchemaGate.run Samples.late_disk [0; 0; 1; 1]
      (SchemaGate.init [SchemaGate.GetSchema; SchemaGate.GetSchema;
                        SchemaGate.GetSchema; SchemaGate.WaitForSchema])
    = Some st
    /\ SchemaGate.run Samples.late_disk [2; 3] st = Some st'
    /\ SchemaGate._loaded_schema st' = Some Samples.sessions_catalog
    /\ SchemaGate.loads st' = 2.
Proof.
  eexists. eexists. split; [reflexivity |]. split; [reflexivity |].
  destruct (published_schema_is_final Samples.late_disk
              [SchemaGate.GetSchema; SchemaGate.GetSchema;
               SchemaGate.GetSchema; SchemaGate.WaitForSchema]
              [0; 0; 1; 1] [2; 3] _ _ Samples.sessions_catalog
              eq_refl eq_refl eq_refl) as (Hs & Hl & _).
  split; [exact Hs | exact Hl].
Defined.

Lemma failed_loads_release_nobody_witness :
  exists st,
    SchemaGate.run MoreSamples.broken_disk [0; 0; 2; 2]
      (SchemaGate.init [SchemaGate.GetSchema; SchemaGate.WaitForSchema;
                        SchemaGate.GetSchema]) = Some st
    /\ SchemaGate.loads st = 2
    /\ SchemaGate.step MoreSamples.broken_disk 1 st = None.
Proof.
  eexists. split; [reflexivity |]. split; [reflexivity |].
  destruct (failed_loads_release_nobody MoreSamples.broken_disk
              [SchemaGate.GetSchema; SchemaGate.WaitForSchema; SchemaGate.GetSchema]
              [0; 0; 2; 2] _
              (fun k => ex_intro _ _ eq_refl) eq_refl)
    as (_ & _ & Hwait & _).
  exact (proj2 (Hwait 1 SchemaGate.Invoked eq_refl)).
Defined.

Lemma successful_load_releases_everybody_witness :
  exists rest st',
    SchemaGate.run Samples.ready_disk ([1] ++ rest)%list
      (SchemaGate.init [SchemaGate.WaitForSchema; SchemaGate.GetSchema]) = Some st'
    /\ SchemaGate.loads st' = 1
    /\ SchemaGate._loaded_schema st' = Some Samples.sessions_catalog
    /\ SchemaGate.tasks st'
       = map (fun c => SchemaGate.mkTask c
                         (SchemaGate.Finished (Return Samples.sessions_catalog)))
           [SchemaGate.WaitForSchema; SchemaGate.GetSchema].
Proof.
  eapply (successful_load_releases_everybody Samples.ready_disk
            [SchemaGate.WaitForSchema; SchemaGate.GetSchema] [1]).
  - right. now left.
  - reflexivity.
  - reflexivity.
Defined.

(** ** The schema file *)

Section SchemaFileFacts.

Import SchemaFile Catalog QueryProcessor.

Variable accepts_str : json -> option string.
Variable accepts_optional_str : json -> option (option string).
Variable validation_text : list json -> string.

Local Abbreviation SchemaColumn_init :=
  (SchemaFile.SchemaColumn_init accepts_str accepts_optional_str validation_text).
Local Abbreviation build_columns :=
  (SchemaFile.build_columns accepts_str accepts_optional_str validation_text).
Local Abbreviation table_columns :=
  (SchemaFile.table_columns accepts_str accepts_optional_str validation_text).
Local Abbreviation build_tables :=
  (SchemaFile.build_tables accepts_str accepts_optional_str validation_text).
Local Abbreviation _load_schema_from_disk :=
  (SchemaFile._load_schema_from_disk accepts_str accepts_optional_str
     validation_text).

(** *** Which exception a defect raises *)

Lemma SchemaColumn_init_raises (name type field_name description formula : json)
    (exc : exn) :
  SchemaColumn_init name type field_name description formula = Raise exc ->
  exn_cls exc = OtherException "ValidationError".
Proof.
  unfold SchemaFile.SchemaColumn_init.
  destruct (accepts_str name), (accepts_str type),
    (accepts_optional_str field_name), (accepts_optional_str description),
    (accepts_optional_str formula);
    intros H; (discriminate H || (injection H as <-; reflexivity)).
Qed.

Lemma build_columns_raises (items : list json) (exc : exn) :
  build_columns items = Raise exc ->
  exn_cls exc = OtherException "ValidationError".
Proof.
  induction items as [| item rest IH]; cbn [SchemaFile.build_columns];
    [discriminate |].
  destruct item; try exact IH.
  match goal with
  | |- context [SchemaFile.SchemaColumn_init _ _ _ ?a ?b ?c ?d ?e] =>
      destruct (SchemaFile.SchemaColumn_init accepts_str accepts_optional_str
                  validation_text a b c d e) as [column | e0] eqn:Hcol
  end; cbn [bind].
  - destruct (SchemaFile.build_columns _ _ _ rest) as [columns | e0];
      cbn [bind]; [discriminate |].
    intros H. apply IH. exact H.
  - intros H. injection H as <-.
    now apply SchemaColumn_init_raises in Hcol.
Qed.

Lemma iterate_raises (value : json) (exc : exn) :
  iterate value = Raise exc -> exn_cls exc = OtherException "TypeError".
Proof.
  destruct value; cbn [iterate]; intros H;
    (discriminate H || (injection H as <-; reflexivity)).
Qed.

Lemma table_columns_raises (table_data : json) (exc : exn) :
  table_columns table_data = Raise exc ->
  (is_dict table_data = false
   /\ exc = mk_exn AttributeError
              ("'" ++ type_name table_data ++ "' object has no attribute 'get'"))
  \/ (is_dict table_data = true
      /\ (exn_cls exc = OtherException "TypeError"
          \/ exn_cls exc = OtherException "ValidationError")).
Proof.
  unfold SchemaFile.table_columns.
  destruct table_data;
    try (intros H; injection H as <-; left; split; reflexivity).
  right. split; [reflexivity |].
  destruct (iterate (get_or items "columns" (JList []))) as [l | e0] eqn:Hit;
    cbn [bind] in H.
  - right. now apply build_columns_raises in H.
  - injection H as <-. left. now apply iterate_raises in Hit.
Qed.

Lemma build_tables_raises (data : list (string * json)) :
  forall (catalog : SchemaCatalog) (exc : exn),
    build_tables data catalog = Raise exc ->
    (exn_cls exc = AttributeError
     /\ exists name table_data,
          In (name, table_data) data /\ is_dict table_data = false
          /\ exn_msg exc
             = "'" ++ type_name table_data ++ "' object has no attribute 'get'")
    \/ exn_cls exc = OtherException "TypeError"
    \/ exn_cls exc = OtherException "ValidationError".
Proof.
  induction data as [| [name table_data] rest IH]; intros catalog exc;
    cbn [SchemaFile.build_tables]; [discriminate |].
  destruct (SchemaFile.table_columns _ _ _ table_data) as [columns | e0] eqn:Hcols;
    cbn [bind].
  - intros H. destruct (IH _ _ H) as [(Hcls & n & td & Hin & Hno & Hmsg) | Hother].
    + left. split; [assumption |]. exists n, td. repeat split; try assumption.
      now right.
    + now right.
  - intros H. injection H as <-.
    destruct (table_columns_raises table_data e0 Hcols) as [[Hno ->] | [_ Hcls]].
    + left. split; [reflexivity |]. exists name, table_data.
      repeat split; try assumption. now left.
    + now right.
Qed.

(** X15.  Which defect of the schema file the user sees how.  What
    [path.exists()] raises leaves the loader as it is; when it is an
    [Exception] other than the two that the data path names, a data question
    gets the something-went-wrong apology.  A file that is missing, that
    cannot be opened or parsed (the failure being an [Exception]), or that
    does not hold an object at the top, raises [SchemaLoadError], and a data
    question is answered with the schema-configuration apology; a failure of
    opening or parsing that is no [Exception] passes through the loader and
    the data path.  Below the top level no defect is a [SchemaLoadError]: a
    table that is not an object raises [AttributeError], which
    [_handle_data_question] turns into a [QueryGenerationError] that it
    raises itself; columns that cannot be iterated and fields that the
    model refuses are answered with the something-went-wrong apology. *)
Theorem schema_file_defects_by_level (str_row : Row -> string)
    (ai : Interfaces.AIServiceProtocol)
    (database : Interfaces.DatabaseExecutorProtocol) (config : AppConfig)
    (request : QueryRequest) (path : string) (f : file) (exc : exn) :
  _load_schema_from_disk path f = Raise exc ->
  Interfaces.get_schema database = _load_schema_from_disk path f ->
  match f with
  | Unsearchable cause =>
      exc = cause
      /\ (is_Exception cause = true ->
          isinstance cause AttributeError = false ->
          isinstance cause SchemaLoadError = false ->
          _handle_data_question str_row ai database config request
          = Return "Something went wrong while loading the schema definition. Please try again or contact support.")
  | Missing =>
      exc = mk_exn SchemaLoadError ("Schema file not found: " ++ path)
      /\ _handle_data_question str_row ai database config request
         = Return "I couldn't load the schema information required to generate SQL. Please verify the schema configuration and try again."
  | Unreadable cause =>
      if is_Exception cause
      then exc = mk_exn SchemaLoadError
                   ("Failed to parse schema file: " ++ exn_msg cause)
           /\ _handle_data_question str_row ai database config request
              = Return "I couldn't load the schema information required to generate SQL. Please verify the schema configuration and try again."
      else exc = cause
           /\ _handle_data_question str_row ai database config request
              = Raise cause
  | Parsed (JDict data) =>
      (exn_cls exc = AttributeError
       /\ (exists name table_data,
             In (name, table_data) data /\ is_dict table_data = false
             /\ exn_msg exc
                = "'" ++ type_name table_data
                  ++ "' object has no attribute 'get'")
       /\ _handle_data_question str_row ai database config request
          = Raise (mk_exn QueryGenerationError
                     "Database manager does not expose schema retrieval."))
      \/ ((exn_cls exc = OtherException "TypeError"
           \/ exn_cls exc = OtherException "ValidationError")
          /\ _handle_data_question str_row ai database config request
             = Return "Something went wrong while loading the schema definition. Please try again or contact support.")
  | Parsed _ =>
      exc = mk_exn SchemaLoadError
              "Schema JSON must be a dictionary keyed by table name with a 'columns' list."
      /\ _handle_data_question str_row ai database config request
         = Return "I couldn't load the schema information required to generate SQL. Please verify the schema configuration and try again."
  end.
Proof.
  intros Hload Hschema. unfold _handle_data_question. rewrite Hschema, Hload.
  unfold SchemaFile._load_schema_from_disk in Hload.
  destruct f as [cause | | cause | data].
  - injection Hload as <-. split; [reflexivity |].
    intros -> -> ->. reflexivity.
  - injection Hload as <-. now split.
  - destruct (is_Exception cause) eqn:Hexception; injection Hload as <-.
    + now split.
    + split; [reflexivity |].
      rewrite (not_Exception_isinstance cause AttributeError Hexception eq_refl),
        (not_Exception_isinstance cause SchemaLoadError Hexception eq_refl).
      now rewrite Hexception.
  - destruct data; try (injection Hload as <-; now split).
    destruct (build_tables_raises items empty exc Hload)
      as [(Hcls & Hwhere) | Hother].
    + left. split; [assumption | split; [assumption |]].
      unfold isinstance. now rewrite Hcls.
    + right. split; [assumption |].
      unfold isinstance, is_Exception. now destruct Hother as [-> | ->].
Qed.

(** *** A well-typed file *)

Hypothesis accepts_text : forall s, accepts_str (JStr s) = Some s.
Hypothesis accepts_none : accepts_optional_str JNull = Some None.
Hypothesis accepts_optional_text :
  forall s, accepts_optional_str (JStr s) = Some (Some s).

Lemma accepts_str_text (value : json) :
  is_text value = true -> accepts_str value = Some (text_of value).
Proof. destruct value; try discriminate. intros _. apply accepts_text. Qed.

Lemma accepts_optional_str_text (value : json) :
  is_optional_text value = true ->
  accepts_optional_str value = Some (optional_text_of value).
Proof.
  destruct value; try discriminate; intros _;
    [apply accepts_none | apply accepts_optional_text].
Qed.

Lemma build_columns_typed (items : list json) :
  forallb typed_column items = true ->
  build_columns items = Return (map column_of (filter is_dict items)).
Proof.
  induction items as [| item rest IH]; [reflexivity |].
  cbn [forallb]. intros H. apply andb_prop in H. destruct H as [Hitem Hrest].
  specialize (IH Hrest).
  destruct item; cbn [SchemaFile.build_columns filter is_dict]; try exact IH.
  cbn [typed_column] in Hitem.
  repeat (apply andb_prop in Hitem; destruct Hitem as [Hitem ?]).
  unfold SchemaFile.SchemaColumn_init.
  rewrite !accepts_str_text, !accepts_optional_str_text by assumption.
  cbn [bind]. rewrite IH. reflexivity.
Qed.

Lemma table_columns_typed (table_data : json) :
  typed_table table_data = true ->
  table_columns table_data = Return (columns_of table_data).
Proof.
  unfold SchemaFile.table_columns, typed_table, columns_of.
  destruct table_data; try discriminate.
  destruct (get_or items "columns" (JList [])); try discriminate.
  intros H. cbn [iterate bind]. now apply build_columns_typed.
Qed.

Lemma build_tables_typed (data : list (string * json)) :
  forall catalog,
    NoDup (map fst (tables catalog) ++ map fst data) ->
    forallb (fun item => typed_table (snd item)) data = true ->
    build_tables data catalog
    = Return {| tables := (tables catalog ++ map table_of data)%list |}.
Proof.
  induction data as [| [name table_data] rest IH]; intros catalog Hkeys Htyped.
  - cbn [SchemaFile.build_tables map]. rewrite app_nil_r. now destruct catalog.
  - cbn [forallb snd] in Htyped. apply andb_prop in Htyped.
    destruct Htyped as [Htable Hrest].
    cbn [SchemaFile.build_tables].
    rewrite (table_columns_typed _ Htable).
    cbn [bind].
    assert (Hfresh : ~ In name (map fst (tables catalog))).
    { cbn [map fst] in Hkeys. apply NoDup_remove_2 in Hkeys.
      intros Hin. apply Hkeys. apply in_or_app. now left. }
    rewrite IH.
    + unfold add_table. cbn [tables Models.table_name].
      rewrite (dict_set_fresh _ _ _ Hfresh), <- app_assoc. reflexivity.
    + unfold add_table. cbn [tables Models.table_name].
      rewrite (dict_set_fresh _ _ _ Hfresh), map_app, <- app_assoc.
      exact Hkeys.
    + exact Hrest.
Qed.

Lemma dict_get_table_of (data : list (string * json)) (name : string)
    (table_data : json) :
  NoDup (map fst data) -> In (name, table_data) data ->
  dict_get (map table_of data) name
  = Some {| table_name := name; columns := columns_of table_data |}.
Proof.
  induction data as [| [k v] rest IH]; intros Hkeys Hin; [contradiction |].
  cbn [map fst] in Hkeys. inversion Hkeys as [| ? ? Hfresh Hrest]; subst.
  cbn [map table_of fst snd dict_get].
  destruct Hin as [Heq | Hin].
  - injection Heq as -> ->. now rewrite String.eqb_refl.
  - destruct (String.eqb_spec k name) as [-> | Hne].
    + exfalso. apply Hfresh. now apply (in_map fst) in Hin.
    + now apply IH.
Qed.

(** X16.  What a well-typed schema file loads to.  The file holds an object
    whose values are objects; ["columns"], where given, is a list, and the
    fields of its entries, where given, are texts (or null for the optional
    ones).  Then the load returns, and the catalog has the tables of the file
    in the order of the file, each named by its key, with one column for
    each entry that is an object, in order (other entries are skipped; a
    missing name or type reads ["unknown"]).  Every table is found under its
    key by [get_table]. *)
Theorem typed_schema_file_loads (path : string) (data : list (string * json)) :
  NoDup (map fst data) ->
  forallb (fun item => typed_table (snd item)) data = true ->
  _load_schema_from_disk path (Parsed (JDict data))
  = Return {| tables := map table_of data |}
  /\ (forall name table_data,
        In (name, table_data) data ->
        get_table {| tables := map table_of data |} name
        = Some {| table_name := name; columns := columns_of table_data |}).
Proof.
  intros Hkeys Htyped. split.
  - unfold SchemaFile._load_schema_from_disk,
      SchemaFile._build_catalog_from_dict.
    now rewrite (build_tables_typed data empty Hkeys Htyped).
  - intros name table_data Hin. unfold get_table. cbn [tables].
    now rewrite (dict_get_table_of data name table_data Hkeys Hin).
Qed.

End SchemaFileFacts.

Lemma schema_file_defects_by_level_witness :
  QueryProcessor._handle_data_question Samples.str_row
    (Container.ai_service Samples.sample_config
       (Samples.constant_client (Some "SELECT 1")))
    (Container.database Samples.sample_config Samples.refusing_driver
       DatabaseManager.new_handles
       (SchemaFile._load_schema_from_disk MoreSamples.strict_str
          MoreSamples.strict_optional_str MoreSamples.validation_text
          "data/mapping.json"
          (SchemaFile.Parsed (SchemaFile.JDict MoreSamples.list_table_json))))
    Samples.sample_config Samples.views_question
  = Raise (mk_exn QueryGenerationError
             "Database manager does not expose schema retrieval.").
Proof.
  destruct (schema_file_defects_by_level MoreSamples.strict_str
              MoreSamples.strict_optional_str MoreSamples.validation_text
              Samples.str_row
              (Container.ai_service Samples.sample_config
                 (Samples.constant_client (Some "SELECT 1")))
              (Container.database Samples.sample_config Samples.refusing_driver
                 DatabaseManager.new_handles
                 (SchemaFile._load_schema_from_disk MoreSamples.strict_str
                    MoreSamples.strict_optional_str MoreSamples.validation_text
                    "data/mapping.json"
                    (SchemaFile.Parsed (SchemaFile.JDict MoreSamples.list_table_json))))
              Samples.sample_config Samples.views_question
              "data/mapping.json"
              (SchemaFile.Parsed (SchemaFile.JDict MoreSamples.list_table_json))
              (mk_exn AttributeError "'list' object has no attribute 'get'")
              eq_refl eq_refl)
    as [(_ & _ & Hanswer) | ([Hcls | Hcls] & _)].
  - exact Hanswer.
  - discriminate Hcls.
  - discriminate Hcls.
Defined.

Lemma typed_schema_file_loads_witness :
  SchemaFile._load_schema_from_disk MoreSamples.strict_str
    MoreSamples.strict_optional_str MoreSamples.validation_text
    "data/mapping.json" (SchemaFile.Parsed (SchemaFile.JDict MoreSamples.mapping_json))
  = Return Samples.sessions_catalog.
Proof.
  apply (typed_schema_file_loads MoreSamples.strict_str
           MoreSamples.strict_optional_str MoreSamples.validation_text
           (fun s => eq_refl) eq_refl (fun s => eq_refl)
           "data/mapping.json" MoreSamples.mapping_json).
  - repeat constructor. intros [].
  - reflexivity.
Defined.

(** ** The cache *)

Section CacheFacts.

Import Catalog Cache.

Variable Float : Type.
Variable float_add_int : Float -> Z -> Float.
Variable float_ge : Float -> Float -> bool.
Variable Value : Type.

Local Abbreviation Entry := (CacheEntry Float Value).
Local Abbreviation TTLCache := (InMemoryTTLCache Float Value).
Local Abbreviation is_expired := (Cache.is_expired Float float_ge Value).
Local Abbreviation get := (Cache.get Float float_ge Value).
Local Abbreviation set := (Cache.set Float float_add_int Value).
Local Abbreviation delete := (Cache.delete Float Value).
Local Abbreviation clear := (Cache.clear Float Value).
Local Abbreviation _compute_expiry := (Cache._compute_expiry Float float_add_int).

Lemma dict_get_pop_same {V : Type} (d : list (string * V)) (k : string) :
  dict_get (dict_pop d k) k = None.
Proof.
  unfold dict_pop. induction d as [| [k' v] d IH]; [reflexivity |].
  cbn [filter fst]. destruct (String.eqb_spec k' k) as [-> | Hne]; cbn [negb].
  - exact IH.
  - cbn [dict_get]. destruct (String.eqb_spec k' k); [contradiction | exact IH].
Qed.

Lemma dict_get_pop_other {V : Type} (d : list (string * V)) (k k' : string) :
  k' <> k -> dict_get (dict_pop d k) k' = dict_get d k'.
Proof.
  intros Hne. unfold dict_pop. induction d as [| [k0 v] d IH]; [reflexivity |].
  cbn [filter fst dict_get].
  destruct (String.eqb_spec k0 k) as [-> | Hk]; cbn [negb].
  - destruct (String.eqb_spec k k'); [congruence | exact IH].
  - cbn [dict_get]. now rewrite IH.
Qed.

(** What [get] returns is read off the entry under the key. *)
Lemma get_value (now : Float) (self : TTLCache) (key : string) :
  fst (get now self key)
  = match dict_get (_store self) key with
    | Some entry => if is_expired now entry then None else value entry
    | None => None
    end.
Proof.
  unfold Cache.get. destruct (dict_get (_store self) key) as [entry |];
    [| reflexivity].
  now destruct (is_expired now entry).
Qed.

(** [get] touches no other key. *)
Lemma get_store_other (now : Float) (self : TTLCache) (key key' : string) :
  key' <> key ->
  dict_get (_store (snd (get now self key))) key' = dict_get (_store self) key'.
Proof.
  intros Hne. unfold Cache.get.
  destruct (dict_get (_store self) key) as [entry |]; [| reflexivity].
  destruct (is_expired now entry); [| reflexivity].
  cbn [snd _store]. now apply dict_get_pop_other.
Qed.

(** X17.  Storing and reading back.  After [set], a [get] of the same key
    returns the value unless the entry has expired at that reading of the
    clock, and a [get] of any other key returns what it returned before.  A
    lifetime of [None] or [0] counts as no lifetime given, and the default of
    the cache is used: without a default the entry never expires; with a
    default [d], a default of [0] included, the expiry is the time of the
    [set] plus [d], and [get] returns [None] at every reading of the clock
    that is at least that.  A lifetime other than [0] sets the expiry to the
    time of the [set] plus that lifetime, whatever the default. *)
Theorem cache_set_then_get (now now' : Float) (self : TTLCache) (key : string)
    (v : option Value) (ttl_seconds : option Z) :
  fst (get now' (set now self key v ttl_seconds) key)
  = (if is_expired now'
          {| value := v;
             expires_at := _compute_expiry now
                             (int_or ttl_seconds (_default_ttl self)) |}
     then None else v)
  /\ (forall key', key' <> key ->
        fst (get now' (set now self key v ttl_seconds) key')
        = fst (get now' self key'))
  /\ set now self key v (Some 0%Z) = set now self key v None
  /\ (ttl_seconds = None \/ ttl_seconds = Some 0%Z ->
      match _default_ttl self with
      | None =>
          get now' (set now self key v ttl_seconds) key
          = (v, set now self key v ttl_seconds)
      | Some d =>
          dict_get (_store (set now self key v ttl_seconds)) key
          = Some {| value := v; expires_at := Some (float_add_int now d) |}
          /\ fst (get now' (set now self key v ttl_seconds) key)
             = (if float_ge now' (float_add_int now d) then None else v)
      end)
  /\ (forall ttl, ttl_seconds = Some ttl -> ttl <> 0%Z ->
      dict_get (_store (set now self key v ttl_seconds)) key
      = Some {| value := v; expires_at := Some (float_add_int now ttl) |}
      /\ fst (get now' (set now self key v ttl_seconds) key)
         = (if float_ge now' (float_add_int now ttl) then None else v)).
Proof.
  assert (Hget : fst (get now' (set now self key v ttl_seconds) key)
                 = (if is_expired now'
                         {| value := v;
                            expires_at := _compute_expiry now
                                            (int_or ttl_seconds (_default_ttl self)) |}
                    then None else v)).
  { rewrite get_value. unfold Cache.set. cbn [_store].
    now rewrite dict_get_set_same. }
  split; [exact Hget | split; [| split; [| split]]].
  - intros key' Hne. rewrite !get_value. unfold Cache.set. cbn [_store].
    now rewrite (dict_get_set_other _ _ _ _ Hne).
  - reflexivity.
  - intros Hnone.
    assert (Hdefault : int_or ttl_seconds (_default_ttl self) = _default_ttl self)
      by (destruct Hnone as [-> | ->]; reflexivity).
    destruct (_default_ttl self) as [d |] eqn:Ed.
    + split.
      * unfold Cache.set. cbn [_store]. rewrite dict_get_set_same.
        now rewrite Ed, Hdefault.
      * rewrite Hget, Hdefault. reflexivity.
    + unfold Cache.get, Cache.set. cbn [_store].
      rewrite dict_get_set_same, Ed, Hdefault. reflexivity.
  - intros ttl -> Hne.
    assert (Hown : int_or (Some ttl) (_default_ttl self) = Some ttl).
    { cbn [int_or]. now destruct (Z.eqb_spec ttl 0). }
    split.
    + unfold Cache.set. cbn [_store]. rewrite dict_get_set_same.
      now rewrite Hown.
    + rewrite Hget, Hown. reflexivity.
Qed.

(** X18.  Removal.  A [get] that finds its entry expired removes it, so that
    no later [get] returns it, whatever the clock reads then; it leaves every
    other key as it was.  [delete] removes a key and nothing else, also when
    the key is not there; after [clear] every [get] returns [None]. *)
Theorem cache_removal (now : Float) (self : TTLCache) (key : string) :
  (forall entry,
     dict_get (_store self) key = Some entry -> is_expired now entry = true ->
     get now self key = (None, delete self key))
  /\ (forall now' key',
        fst (get now' (delete self key) key')
        = if key' =? key then None else fst (get now' self key'))
  /\ (forall key', key' <> key ->
        dict_get (_store (snd (get now self key))) key'
        = dict_get (_store self) key')
  /\ (dict_get (_store self) key = None -> delete self key = self)
  /\ (forall now' key', fst (get now' (clear self) key') = None).
Proof.
  split; [| split; [| split; [| split]]].
  - intros entry Hentry Hexpired. unfold Cache.get. now rewrite Hentry, Hexpired.
  - intros now' key'. rewrite !get_value. unfold Cache.delete. cbn [_store].
    destruct (String.eqb_spec key' key) as [-> | Hne].
    + now rewrite dict_get_pop_same.
    + now rewrite (dict_get_pop_other _ _ _ Hne).
  - intros key' Hne. now apply get_store_other.
  - intros Habsent. unfold Cache.delete. destruct self as [ttl store].
    cbn [_store _default_ttl] in *. f_equal.
    unfold dict_pop. induction store as [| [k e] store IH]; [reflexivity |].
    cbn [dict_get] in Habsent. cbn [filter fst].
    destruct (String.eqb_spec k key); [discriminate Habsent |].
    cbn [negb]. now rewrite IH.
  - intros now' key'. reflexivity.
Qed.

(** X19.  The decorator.  A call that returned a value other than [None]
    leaves it in the cache: while the entry has not expired, the next call,
    of whatever function, returns that value and does not run the function.
    A call whose function returned [None] stores the [None], and it is never
    served: the next call runs the function again.  A call whose function
    raised passes the exception on as it is, and no later [get] finds a value
    under the key. *)
Theorem async_ttl_cache_serves_values {World : Type} (ttl_seconds : option Z)
    (func : World -> outcome (option Value) * World) (cache_key : string)
    (now_get now_set : Float) (cache : TTLCache) (world : World) :
  match wrapper Float float_add_int float_ge Value ttl_seconds func cache_key
          now_get now_set cache world with
  | (Return (Some v), cache1, world1) =>
      forall ttl' (func' : World -> outcome (option Value) * World) now2 now3,
        (forall entry, dict_get (_store cache1) cache_key = Some entry ->
                       is_expired now2 entry = false) ->
        wrapper Float float_add_int float_ge Value ttl' func' cache_key
          now2 now3 cache1 world1
        = (Return (Some v), cache1, world1)
  | (Return None, cache1, world1) =>
      func world = (Return None, world1)
      /\ forall ttl' (func' : World -> outcome (option Value) * World) now2 now3,
           fst (fst (wrapper Float float_add_int float_ge Value ttl' func'
                       cache_key now2 now3 cache1 world1))
           = fst (func' world1)
           /\ snd (wrapper Float float_add_int float_ge Value ttl' func'
                     cache_key now2 now3 cache1 world1)
              = snd (func' world1)
  | (Raise exc, cache1, world1) =>
      func world = (Raise exc, world1)
      /\ forall now2, fst (get now2 cache1 cache_key) = None
  end.
Proof.
  unfold wrapper at 1.
  destruct (get now_get cache cache_key) as [[v |] cache0] eqn:Hget.
  - (* served from the cache *)
    intros ttl' func' now2 now3 Hfresh. unfold wrapper.
    assert (Hvalue : fst (get now2 cache0 cache_key) = Some v
                     /\ snd (get now2 cache0 cache_key) = cache0).
    { unfold Cache.get in Hget |- *.
      destruct (dict_get (_store cache) cache_key) as [entry |] eqn:Hentry;
        [| discriminate Hget].
      destruct (is_expired now_get entry); [discriminate Hget |].
      injection Hget as Hv <-. rewrite Hentry, (Hfresh entry Hentry).
      now split. }
    destruct (get now2 cache0 cache_key) as [got cache2].
    cbn [fst snd] in Hvalue. destruct Hvalue as [-> ->]. reflexivity.
  - (* the function runs *)
    assert (Hmiss : dict_get (_store cache0) cache_key = None
                    \/ exists entry,
                         dict_get (_store cache0) cache_key = Some entry
                         /\ value entry = None).
    { unfold Cache.get in Hget.
      destruct (dict_get (_store cache) cache_key) as [entry |] eqn:Hentry.
      - destruct (is_expired now_get entry).
        + injection Hget as <-. left. cbn [_store]. apply dict_get_pop_same.
        + injection Hget as Hv <-. right. now exists entry.
      - injection Hget as <-. now left. }
    destruct (func world) as [[[v |] | exc] world1] eqn:Hfunc.
    + (* a value is stored *)
      intros ttl' func' now2 now3 Hfresh. unfold wrapper, Cache.get.
      pose proof (Hfresh _ (dict_get_set_same _ _ _)) as Hlive.
      unfold Cache.set at 1. cbn [_store]. rewrite dict_get_set_same.
      unfold Cache.set in Hlive. cbn [_store] in Hlive.
      now rewrite Hlive.
    + (* [None] is stored and never served *)
      split; [reflexivity |].
      intros ttl' func' now2 now3. unfold wrapper.
      assert (Hnone : get now2 (set now_set cache0 cache_key None ttl_seconds)
                        cache_key
                      = (None, snd (get now2 (set now_set cache0 cache_key None
                                               ttl_seconds) cache_key))).
      { pose proof (get_value now2 (set now_set cache0 cache_key None ttl_seconds)
                      cache_key) as Hv.
        unfold Cache.set in Hv at 2. cbn [_store] in Hv.
        rewrite dict_get_set_same in Hv. cbn [value] in Hv.
        destruct (get now2 _ cache_key) as [got c]. cbn [fst snd] in *.
        rewrite Hv. now destruct (is_expired now2 _). }
      rewrite Hnone.
      destruct (func' world1) as [[r | e] w]; now split.
    + (* the exception passes *)
      split; [reflexivity |].
      intros now2. rewrite get_value.
      destruct Hmiss as [-> | (entry & -> & Hv)]; [reflexivity |].
      rewrite Hv. now destruct (is_expired now2 entry).
Qed.

End CacheFacts.

(** A cache whose default lifetime is [0], on a clock of whole seconds: what
    is stored without a lifetime of its own has expired at the next reading
    of the clock. *)
Example cache_default_zero_expires_at_once :
  fst (Cache.get Z Z.geb string 100%Z
         (Cache.set Z Z.add string 100%Z (Cache.new Z string (Some 0%Z))
            "k" (Some "v") None)
         "k")
  = None.
Proof. reflexivity. Qed.

(** ** The interactive session *)

Section SessionFacts.

Import InteractiveSession.

Variable process : nat -> QueryRequest -> outcome string.
Variable uuid4 : nat -> N.
Variable validation_text : string -> string.

Local Abbreviation loop := (InteractiveSession.loop process uuid4 validation_text).
Local Abbreviation start := (InteractiveSession.start process uuid4 validation_text).

(** What [_get_user_input] returns is trimmed; a question that is neither
    blank nor an exit word is the trimmed text of a line. *)
Lemma _get_user_input_question (event : input_event) (user_input : string) :
  _get_user_input (Some event) = Return user_input ->
  (user_input =? "") = false -> _should_exit user_input = false ->
  Py.strip user_input = user_input
  /\ exists text, event = Line text /\ user_input = Py.strip text.
Proof.
  destruct event as [text | | exc]; cbn [_get_user_input].
  - intros H _ _. injection H as <-. split; [apply strip_idempotent |].
    now exists text.
  - intros H _ Hexit. injection H as <-. discriminate Hexit.
  - destruct (is_class exc "EOFError" || is_class exc "KeyboardInterrupt").
    + intros H _ Hexit. injection H as <-. discriminate Hexit.
    + destruct (is_Exception exc); [| discriminate].
      intros H Hblank. injection H as <-. discriminate Hblank.
Qed.

Lemma _get_user_input_raises (event : input_event) (exc : exn) :
  _get_user_input (Some event) = Raise exc ->
  event = InputFails exc /\ is_Exception exc = false.
Proof.
  destruct event as [text | | e]; cbn [_get_user_input]; try discriminate.
  destruct (is_class e "EOFError" || is_class e "KeyboardInterrupt");
    [discriminate |].
  destruct (is_Exception e) eqn:E; [discriminate |].
  intros H. injection H as <-. now split.
Qed.

Lemma _prompt_continue_raises (event : input_event) (exc : exn) :
  _prompt_continue (Some event) = Raise exc -> event = InputFails exc.
Proof.
  destruct event as [text | | e]; cbn [_prompt_continue]; try discriminate.
  destruct (is_class e "EOFError" || is_class e "KeyboardInterrupt");
    [discriminate |].
  intros H. now injection H as <-.
Qed.

(** The constructor takes every question that the loop hands to it. *)
Lemma QueryRequest_init_question (id : N) (user_input : string) :
  Py.strip user_input = user_input -> (user_input =? "") = false ->
  QueryRequest_init id user_input None []
  = Some {| Models.id := id; user_query := user_input;
            previous_error := None; metadata := [] |}.
Proof.
  intros Hstrip Hblank. unfold QueryRequest_init. now rewrite Hstrip, Hblank.
Qed.

Lemma requests_app (a b : list action) :
  requests (a ++ b) = (requests a ++ requests b)%list.
Proof. unfold requests. apply flat_map_app. Qed.

(** Splits the three parts of the statement about a run that ends here. *)
Ltac ended r Hr exc Hexc :=
  cbn [fst snd requests flat_map app List.length seq map];
  split; [intros r Hr | split; [reflexivity | intros exc Hexc]].

(** What holds of every run of the loop, whatever the processor does. *)
Lemma loop_safe (bound : nat) :
  forall calls events,
    List.length events <= bound ->
    (forall request,
       In request (requests (fst (loop calls events))) ->
       well_formed request
       /\ _should_exit (user_query request) = false
       /\ previous_error request = None
       /\ exists text,
            In (Line text) events /\ user_query request = Py.strip text)
    /\ map Models.id (requests (fst (loop calls events)))
       = map uuid4 (seq calls (List.length (requests (fst (loop calls events)))))
    /\ (forall exc,
          snd (loop calls events) = Raise exc ->
          In (InputFails exc) events
          \/ (is_Exception exc = false
              /\ exists n request, process n request = Raise exc)).
Proof.
  induction bound as [| bound IH]; intros calls events Hlen.
  - destruct events; [| cbn [List.length] in Hlen; lia].
    cbn [InteractiveSession.loop]. ended r Hr exc Hexc;
      [contradiction | discriminate Hexc].
  - destruct events as [| event rest].
    + cbn [InteractiveSession.loop]. ended r Hr exc Hexc;
        [contradiction | discriminate Hexc].
    + cbn [List.length] in Hlen.
      assert (Hrest : forall calls',
                (forall request,
                   In request (requests (fst (loop calls' rest))) ->
                   well_formed request
                   /\ _should_exit (user_query request) = false
                   /\ previous_error request = None
                   /\ exists text,
                        In (Line text) (event :: rest)
                        /\ user_query request = Py.strip text)
                /\ map Models.id (requests (fst (loop calls' rest)))
                   = map uuid4
                       (seq calls' (List.length (requests (fst (loop calls' rest)))))
                /\ (forall exc,
                      snd (loop calls' rest) = Raise exc ->
                      In (InputFails exc) (event :: rest)
                      \/ (is_Exception exc = false
                          /\ exists n request, process n request = Raise exc))).
      { intros calls'. destruct (IH calls' rest) as (Hreq & Hids & Hraise); [lia |].
        split; [| split; [assumption |]].
        - intros request Hin.
          destruct (Hreq request Hin) as (Hwf & Hexit & Hprev & text & Htext & Hq).
          repeat (split; [assumption |]). exists text. split; [now right | assumption].
        - intros exc Hexc. destruct (Hraise exc Hexc) as [Hin | Hbase];
            [left; now right | now right]. }
      cbn [InteractiveSession.loop].
      destruct (_get_user_input (Some event)) as [user_input | exc0] eqn:Hinput.
      2:{ ended r Hr exc Hexc; [contradiction |].
          injection Hexc as <-.
          destruct (_get_user_input_raises event exc0 Hinput) as [-> _].
          left. now left. }
      destruct (user_input =? "") eqn:Hblank; [apply Hrest |].
      destruct (_should_exit user_input) eqn:Hexit.
      { ended r Hr exc Hexc; [contradiction | discriminate Hexc]. }
      destruct (_get_user_input_question event user_input Hinput Hblank Hexit)
        as (Hstrip & text & -> & Htext).
      rewrite (QueryRequest_init_question _ _ Hstrip Hblank).
      set (request := {| Models.id := uuid4 calls; user_query := user_input;
                         previous_error := None; metadata := [] |}).
      assert (Hthis : well_formed request
                      /\ _should_exit (user_query request) = false
                      /\ previous_error request = None
                      /\ exists text0,
                           In (Line text0) (Line text :: rest)
                           /\ user_query request = Py.strip text0).
      { split; [| split; [assumption | split; [reflexivity |]]].
        - split; [exact Hstrip |]. cbn [user_query request].
          intros Hempty. rewrite Hempty in Hblank. discriminate Hblank.
        - exists text. split; [now left | exact Htext]. }
      destruct (process calls request) as [response | exc0] eqn:Hprocess.
      * destruct (Hrest (S calls)) as (Hreq & Hids & Hraise).
        destruct (loop (S calls) rest) as [actions result].
        cbn [fst snd requests flat_map app] in *.
        fold (requests actions) in *.
        split; [| split; [| exact Hraise]].
        -- intros r [<- | Hin]; [exact Hthis | now apply Hreq].
        -- cbn [List.length seq map]. now rewrite Hids.
      * destruct (is_class exc0 "KeyboardInterrupt").
        { ended r Hr exc Hexc; [| discriminate Hexc].
          destruct Hr as [<- | []]. exact Hthis. }
        destruct (is_class exc0 "EOFError").
        { ended r Hr exc Hexc; [| discriminate Hexc].
          destruct Hr as [<- | []]. exact Hthis. }
        destruct (is_Exception exc0) eqn:Hcls.
        2:{ ended r Hr exc Hexc.
            - destruct Hr as [<- | []]. exact Hthis.
            - injection Hexc as <-. right. split; [assumption |].
              now exists calls, request. }
        destruct rest as [| answer rest'].
        { ended r Hr exc Hexc; [| discriminate Hexc].
          destruct Hr as [<- | []]. exact Hthis. }
        destruct (_prompt_continue (Some answer)) as [[|] | exc1] eqn:Hanswer.
        -- destruct (IH (S calls) rest') as (Hreq & Hids & Hraise);
             [cbn [List.length] in Hlen; lia |].
           destruct (loop (S calls) rest') as [actions result].
           cbn [fst snd] in *. rewrite requests_app.
           cbn [requests flat_map app]. fold (requests actions).
           split; [| split].
           ++ intros r [<- | Hin]; [exact Hthis |].
              destruct (Hreq r Hin) as (Hwf & Hex & Hprev & text0 & Hin0 & Hq).
              repeat (split; [assumption |]). exists text0.
              split; [right; now right | assumption].
           ++ cbn [List.length seq map]. now rewrite Hids.
           ++ intros exc Hexc. destruct (Hraise exc Hexc) as [Hin | Hbase];
                [left; right; now right | now right].
        -- ended r Hr exc Hexc; [| discriminate Hexc].
           destruct Hr as [<- | []]. exact Hthis.
        -- ended r Hr exc Hexc.
           ++ destruct Hr as [<- | []]. exact Hthis.
           ++ injection Hexc as <-.
              apply _prompt_continue_raises in Hanswer. subst answer.
              left. right. now left.
Qed.


(** X20.  What the session asks the processor.  Whatever the input and
    whatever the processor does, every request handed to [process] carries
    the trimmed text of an input line, which is not blank and not an exit
    word: a text that the validator of [QueryRequest] takes unchanged.  The
    requests are numbered in the order of the questions.  [start] raises
    only what [input] raised, or what [process] raised that is no
    [Exception]. *)
Theorem session_requests_are_valid (events : list input_event) :
  (forall request,
     In request (requests (fst (start events))) ->
     well_formed request
     /\ _should_exit (user_query request) = false
     /\ previous_error request = None
     /\ exists text, In (Line text) events /\ user_query request = Py.strip text)
  /\ map Models.id (requests (fst (start events)))
     = map uuid4 (seq 0 (List.length (requests (fst (start events)))))
  /\ (forall exc,
        snd (start events) = Raise exc ->
        In (InputFails exc) events
        \/ (is_Exception exc = false
            /\ exists n request, process n request = Raise exc)).
Proof.
  destruct (loop_safe (List.length events) 0 events (Nat.le_refl _))
    as (Hreq & Hids & Hraise).
  unfold InteractiveSession.start.
  destruct (loop 0 events) as [actions result]. cbn [fst snd] in *.
  rewrite requests_app. cbn [_print_welcome_message requests flat_map app].
  fold (requests actions).
  split; [| split]; assumption.
Qed.


End SessionFacts.


(** ** What is sent to the model *)

Section PromptFacts.

Import AIService.

Lemma contains_line (sep line : string) (lines : list string) :
  In line lines -> Py.contains line (Py.join sep lines) = true.
Proof.
  intros Hin. destruct (join_part sep line lines Hin) as (a & b & ->).
  apply contains_part.
Qed.

Lemma contains_in_line (sep x line : string) (lines : list string) :
  In line lines -> Py.contains x line = true ->
  Py.contains x (Py.join sep lines) = true.
Proof.
  intros Hin Hx. destruct (join_part sep line lines Hin) as (a & b & ->).
  now apply contains_app_r, contains_app_l.
Qed.

Lemma join_app (sep : string) (pre post : list string) :
  pre <> [] -> post <> [] ->
  Py.join sep (pre ++ post) = Py.join sep pre ++ sep ++ Py.join sep post.
Proof.
  unfold Py.join. intros Hpre Hpost.
  induction pre as [| l pre IH]; [congruence |].
  destruct pre as [| l' pre].
  - destruct post as [| p post]; [congruence | reflexivity].
  - change (String.concat sep ((l :: l' :: pre) ++ post))
      with (l ++ sep ++ String.concat sep ((l' :: pre) ++ post)).
    rewrite IH by discriminate.
    change (String.concat sep (l :: l' :: pre))
      with (l ++ sep ++ String.concat sep (l' :: pre)).
    now rewrite !append_assoc.
Qed.

Lemma join_last (sep last : string) (lines : list string) :
  lines <> [] ->
  Py.join sep (lines ++ [last]) = Py.join sep lines ++ sep ++ last.
Proof. intros H. rewrite join_app; [reflexivity | assumption | discriminate]. Qed.

(** A line that is not the first follows a separator. *)
Lemma contains_after_sep (sep line : string) (pre post : list string) :
  pre <> [] ->
  Py.contains (sep ++ line) (Py.join sep (pre ++ line :: post)) = true.
Proof.
  intros Hpre. rewrite join_app; [| assumption | discriminate].
  apply contains_app_r.
  assert (Hhead : exists b, Py.join sep (line :: post) = line ++ b).
  { destruct post as [| p post]; [exists ""; unfold Py.join; cbn;
                                   now rewrite append_empty_r |].
    now exists (sep ++ Py.join sep (p :: post)). }
  destruct Hhead as [b ->]. rewrite <- append_assoc.
  apply contains_prefix, prefix_self_app.
Qed.

(** Decides the test of the hint once the search is settled. *)
Ltac settle_hint :=
  match goal with
  | |- context [?s =? ""] =>
      let v := eval vm_compute in (s =? "") in
      change (s =? "") with v
  end; cbv iota.

(** X22.  What the SQL prompt carries.  The prompt that [generate_sql_query]
    sends holds the question as it is, the rendered schema with the item of
    every column of every table, and, on a retry, the text of the previous
    error on a guidance line of its own.  When the question asks for
    identifiers, the prompt ends with the identifier hint; otherwise it ends
    with the last guidance line.  The model is called with this prompt,
    and a failure of that call that is an [Exception] is raised as
    [QueryGenerationError] with the same text; what is no [Exception]
    passes through as it is. *)
Theorem sql_prompt_carries_schema_and_question (config : AppConfig)
    (client : Client) (request : QueryRequest) (schema : SchemaCatalog) :
  let prompt := _build_sql_generation_prompt request schema in
  Py.contains (user_query request) prompt = true
  /\ Py.contains (_render_schema schema) prompt = true
  /\ (forall name table column,
        In (name, table) (tables schema) -> In column (columns table) ->
        Py.contains (bullet (Py.rstrip (_format_column column))) prompt = true)
  /\ (forall e, previous_error request = Some e -> e <> "" ->
        Py.contains
          (Py.newline ++ "- Previous execution error to correct: " ++ e) prompt
        = true)
  /\ (exists before,
        prompt
        = before ++ Py.newline
          ++ (if search_ids_only (user_query request)
              then "- The user wants only identifier columns. Return only the necessary identifier columns."
              else if Py.truthy (previous_error request)
              then "- Previous execution error to correct: "
                   ++ Py.or_else (previous_error request) ""
              else "- Return ONLY a valid Presto SQL query. No comments, no explanations."))
  /\ (forall exc,
        client (sql_request config request schema) = Raise exc ->
        generate_sql_query config client request schema
        = Raise (if is_Exception exc
                 then mk_exn QueryGenerationError (exn_msg exc)
                 else exc))
  /\ user_content (sql_request config request schema) = prompt.
Proof.
  intros prompt. subst prompt. unfold _build_sql_generation_prompt.
  split; [| split; [| split; [| split; [| split; [| split]]]]].
  - apply contains_line. cbn [app In]. tauto.
  - apply contains_line. cbn [app In]. tauto.
  - intros name table column Htable Hcolumn.
    apply (contains_in_line _ _ (_render_schema schema)).
    + cbn [app In]. tauto.
    + now apply (render_schema_text_has_column schema name table).
  - intros e He Hne.
    assert (Htruthy : Py.truthy (previous_error request) = true).
    { unfold Py.truthy. rewrite He. now destruct (String.eqb_spec e ""). }
    rewrite Htruthy. unfold Py.or_else. rewrite He.
    destruct (String.eqb_spec e "") as [-> | _]; [contradiction |].
    destruct (search_ids_only (user_query request)); settle_hint.
    + exact (contains_after_sep Py.newline
               ("- Previous execution error to correct: " ++ e)
               [ "Schema definition:"; _render_schema schema; "";
                 "User question:"; user_query request; ""; "Guidance:";
                 "- Use ONLY fields provided in the schema below.";
                 "- Match questions to fields using the friendly field name or description.";
                 "- If a field has a formula, use the formula instead of the physical column.";
                 "- Translate user-facing labels to codes when the description indicates mappings (e.g., platform 4 = IOS).";
                 "- Return ONLY a valid Presto SQL query. No comments, no explanations." ]
               [ "- The user wants only identifier columns. Return only the necessary identifier columns." ]
               ltac:(discriminate)).
    + exact (contains_after_sep Py.newline
               ("- Previous execution error to correct: " ++ e)
               [ "Schema definition:"; _render_schema schema; "";
                 "User question:"; user_query request; ""; "Guidance:";
                 "- Use ONLY fields provided in the schema below.";
                 "- Match questions to fields using the friendly field name or description.";
                 "- If a field has a formula, use the formula instead of the physical column.";
                 "- Translate user-facing labels to codes when the description indicates mappings (e.g., platform 4 = IOS).";
                 "- Return ONLY a valid Presto SQL query. No comments, no explanations." ]
               [] ltac:(discriminate)).
  - destruct (search_ids_only (user_query request)); settle_hint.
    + eexists. rewrite app_assoc. apply join_last.
      now destruct (Py.truthy (previous_error request)).
    + rewrite app_nil_r. destruct (Py.truthy (previous_error request)).
      * eexists. rewrite app_assoc. apply join_last. discriminate.
      * eexists. rewrite app_nil_r.
        exact (join_last Py.newline
                 "- Return ONLY a valid Presto SQL query. No comments, no explanations."
                 [ "Schema definition:"; _render_schema schema; "";
                   "User question:"; user_query request; ""; "Guidance:";
                   "- Use ONLY fields provided in the schema below.";
                   "- Match questions to fields using the friendly field name or description.";
                   "- If a field has a formula, use the formula instead of the physical column.";
                   "- Translate user-facing labels to codes when the description indicates mappings (e.g., platform 4 = IOS)." ]
                 ltac:(discriminate)).
  - intros exc Hexc. unfold generate_sql_query. rewrite Hexc.
    now destruct (is_Exception exc).
  - reflexivity.
Qed.

End PromptFacts.
